(** * HolyTree: the ASCII architecture tree, its parser, validator, path
      resolver, directory generator and text mutation operations

    Shallow embedding of [HolyTree_MCP/holy_tree_server.py].  Python
    strings are sequences of Unicode code points, Python integers are
    [Z], the entity dictionary is an insertion-ordered association list,
    the file system is a finite map from paths to node kinds, and the
    [try]/[except] blocks are written out as explicit error results. *)

From Stdlib Require Import ZArith NArith List String Ascii Bool Lia.
From Stdlib Require Import DecimalString.
From stdpp Require Import base option list gmap.
Import ListNotations.

Local Open Scope N_scope.

(** ** Python [str] *)

Module Py.

(** A [str] is the list of its code points. *)
Definition pystr := list N.

(** Source literals are written as UTF-8 text and decoded. *)
Fixpoint utf8_decode (bs : list N) : pystr :=
  match bs with
  | [] => []
  | b0 :: t0 =>
    if b0 <? 128 then b0 :: utf8_decode t0
    else if b0 <? 224 then
      match t0 with
      | b1 :: t1 => ((b0 - 192) * 64 + (b1 - 128)) :: utf8_decode t1
      | [] => []
      end
    else if b0 <? 240 then
      match t0 with
      | b1 :: b2 :: t2 =>
        ((b0 - 224) * 4096 + (b1 - 128) * 64 + (b2 - 128)) :: utf8_decode t2
      | _ => []
      end
    else
      match t0 with
      | b1 :: b2 :: b3 :: t3 =>
        ((b0 - 240) * 262144 + (b1 - 128) * 4096 + (b2 - 128) * 64 + (b3 - 128))
          :: utf8_decode t3
      | _ => []
      end
  end.

Definition U (s : string) : pystr :=
  utf8_decode (map N_of_ascii (list_ascii_of_string s)).

(** [str.isspace] for one code point (CPython's [_PyUnicode_IsWhitespace]);
    the same table serves [str.strip()], [str.split()] and the regex
    class [\s]. *)
Definition isspace (c : N) : bool :=
  ((9 <=? c) && (c <=? 13)) || ((28 <=? c) && (c <=? 32))
  || (c =? 133) || (c =? 160) || (c =? 5760)
  || ((8192 <=? c) && (c <=? 8202))
  || (c =? 8232) || (c =? 8233) || (c =? 8239) || (c =? 8287) || (c =? 12288).

Fixpoint lstrip_by (p : N -> bool) (s : pystr) : pystr :=
  match s with
  | [] => []
  | c :: t => if p c then lstrip_by p t else s
  end.

Definition strip_by (p : N -> bool) (s : pystr) : pystr :=
  rev (lstrip_by p (rev (lstrip_by p s))).

(** [s.strip()] *)
Definition strip (s : pystr) : pystr := strip_by isspace s.

(** [s.strip(chars)] *)
Definition strip_chars (chars s : pystr) : pystr :=
  strip_by (fun c => existsb (N.eqb c) chars) s.

(** [s.startswith(p)] *)
Fixpoint startswith (s p : pystr) : bool :=
  match p, s with
  | [], _ => true
  | a :: p', b :: s' => (a =? b) && startswith s' p'
  | _ :: _, [] => false
  end.

(** [sub in s] *)
Fixpoint contains (s sub : pystr) : bool :=
  startswith s sub ||
  match s with
  | [] => false
  | _ :: t => contains t sub
  end.

(** [s.split(sep)] for a one-character separator: never empty, keeps
    empty fields. *)
Fixpoint split (sep : N) (s : pystr) : list pystr :=
  match s with
  | [] => [[]]
  | c :: t =>
    if c =? sep then [] :: split sep t
    else match split sep t with
         | f :: fs => (c :: f) :: fs
         | [] => [[c]]
         end
  end.

(** [s.split()]: fields separated by runs of whitespace, none empty. *)
Fixpoint split_ws_from (cur : pystr) (s : pystr) : list pystr :=
  match s with
  | [] => match cur with [] => [] | _ => [rev cur] end
  | c :: t =>
    if isspace c
    then match cur with
         | [] => split_ws_from [] t
         | _ => rev cur :: split_ws_from [] t
         end
    else split_ws_from (c :: cur) t
  end.

Definition split_ws (s : pystr) : list pystr := split_ws_from [] s.

(** [sep.join(parts)] *)
Fixpoint join (sep : pystr) (parts : list pystr) : pystr :=
  match parts with
  | [] => []
  | [p] => p
  | p :: ps => p ++ sep ++ join sep ps
  end.

(** [s.replace(old, new)]: all non-overlapping occurrences, leftmost
    first.  [skip] counts the characters of a matched [old] still to be
    consumed. *)
Fixpoint replace_from (old new : pystr) (skip : nat) (s : pystr) : pystr :=
  match s with
  | [] => []
  | c :: t =>
    match skip with
    | S k => replace_from old new k t
    | O =>
      if startswith s old
      then new ++ replace_from old new (length old - 1)%nat t
      else c :: replace_from old new 0%nat t
    end
  end.

Definition replace (s old new : pystr) : pystr :=
  match old with
  | [] => new ++ flat_map (fun c => c :: new) s
  | _ => replace_from old new 0%nat s
  end.

(** [str(n)] for an integer. *)
Definition str_of_int (n : Z) : pystr :=
  map N_of_ascii (list_ascii_of_string (NilEmpty.string_of_int (Z.to_int n))).

(** [lst[:-1]] *)
Definition all_but_last {A} (l : list A) : list A := removelast l.

(** [lst.insert(i, x)] for [i >= 0]; an index past the end appends. *)
Definition list_insert_at {A} (i : nat) (x : A) (l : list A) : list A :=
  take i l ++ x :: drop i l.

(** [lst.pop(i)] for [0 <= i < len(lst)], keeping only the list. *)
Definition list_pop {A} (i : nat) (l : list A) : list A :=
  take i l ++ drop (S i) l.

(** [s.encode('utf-8')] succeeds: no code point of [s] is a surrogate
    (U+D800 to U+DFFF). *)
Definition utf8_encodable (s : pystr) : bool :=
  forallb (fun c => (c <? 55296) || (57343 <? c)) s.

(** What reading a file in text mode yields for the text [s] that was
    written to it: a carriage return followed by a line feed, and a
    carriage return alone, come back as one line feed. *)
Fixpoint universal_newlines (s : pystr) : pystr :=
  match s with
  | [] => []
  | c :: t =>
    if c =? 13 then
      10 :: match t with
            | c' :: t' =>
              if c' =? 10 then universal_newlines t' else universal_newlines t
            | [] => []
            end
    else c :: universal_newlines t
  end.

End Py.

Import Py.

(** ** The part of the Unicode character database the regex classes
       [\d] and [\w] consult.  Basic Latin is written out; the rows of
       the database above U+007F are taken as given. *)
Class UnicodeData := {
  uc_decimal : N -> bool;   (* Py_UNICODE_ISDECIMAL above U+007F *)
  uc_alnum : N -> bool      (* Py_UNICODE_ISALNUM above U+007F *)
}.

(** ** The fragment of [re] the program uses *)

Module Re.

Inductive regex :=
| Chr (cls : N -> bool)
| Eps
| Cat (r1 r2 : regex)
| Alt (r1 r2 : regex)
| Star (r : regex)
| Bol
| Eol.

Definition Plus (r : regex) : regex := Cat r (Star r).
Definition Opt (r : regex) : regex := Alt r Eps.
Definition Lit (c : N) : regex := Chr (N.eqb c).

(** A matcher position: are we at the start of the subject, and what is
    left of it.  [run r pos] lists the positions after a match of [r] in
    the order a backtracking matcher tries them (greedy first). *)
Definition pos := (bool * pystr)%type.

Fixpoint run (r : regex) (p : pos) : list pos :=
  match r with
  | Chr cls =>
    match snd p with
    | c :: t => if cls c then [(false, t)] else []
    | [] => []
    end
  | Eps => [p]
  | Cat r1 r2 => flat_map (run r2) (run r1 p)
  | Alt r1 r2 => run r1 p ++ run r2 p
  | Star r1 =>
    (fix star (fuel : nat) (q : pos) : list pos :=
       match fuel with
       | O => [q]
       | S fuel' =>
         flat_map (fun q' =>
                     if (length (snd q') <? length (snd q))%nat
                     then star fuel' q' else [])
                  (run r1 q) ++ [q]
       end) (length (snd p)) p
  | Bol => if fst p then [p] else []
  | Eol =>
    match snd p with
    | [] => [p]
    | [10] => [p]
    | _ => []
    end
  end.

Definition matches_at (r : regex) (p : pos) : bool :=
  match run r p with [] => false | _ => true end.

(** [re.match(r, s)] as a truth value *)
Definition re_match (r : regex) (s : pystr) : bool := matches_at r (true, s).

(** [re.search(r, s)] as a truth value: leftmost start position. *)
Fixpoint search_from (r : regex) (bos : bool) (s : pystr) : bool :=
  matches_at r (bos, s) ||
  match s with
  | [] => false
  | _ :: t => search_from r false t
  end.

Definition re_search (r : regex) (s : pystr) : bool := search_from r true s.

(** [re.search(pre (grp) post, s).group(1)]: the first way, in
    backtracking order, to match [pre], then [grp], then [post]. *)
Definition group_at (pre grp post : regex) (p : pos) : option pystr :=
  head (flat_map
          (fun p1 =>
             flat_map
               (fun p2 =>
                  if matches_at post p2
                  then [take (length (snd p1) - length (snd p2))%nat (snd p1)]
                  else [])
               (run grp p1))
          (run pre p)).

Fixpoint search_group_from (pre grp post : regex) (bos : bool) (s : pystr)
  : option pystr :=
  match group_at pre grp post (bos, s) with
  | Some g => Some g
  | None =>
    match s with
    | [] => None
    | _ :: t => search_group_from pre grp post false t
    end
  end.

Definition search_group (pre grp post : regex) (s : pystr) : option pystr :=
  search_group_from pre grp post true s.

(** [re.sub(cls, repl, s)] when the pattern is one character class. *)
Definition sub_class (cls : N -> bool) (repl : pystr) (s : pystr) : pystr :=
  flat_map (fun c => if cls c then repl else [c]) s.

Section Classes.
Context `{UD : UnicodeData}.

(** [\d] *)
Definition digit (c : N) : bool :=
  if c <? 128 then (48 <=? c) && (c <=? 57) else uc_decimal c.

(** [\w] *)
Definition word (c : N) : bool :=
  if c <? 128
  then ((48 <=? c) && (c <=? 57)) || ((65 <=? c) && (c <=? 90))
       || ((97 <=? c) && (c <=? 122)) || (c =? 95)
  else uc_alnum c.

(** [\s] *)
Definition space (c : N) : bool := isspace c.

(** [.] without DOTALL *)
Definition dot (c : N) : bool := negb (c =? 10).
End Classes.

End Re.

(** ** Data model *)

(** [HolyTreeEntity.type]: the parser assigns exactly these three. *)
Inductive entity_type := domain | object | layer.

Definition entity_type_eqb (a b : entity_type) : bool :=
  match a, b with
  | domain, domain | object, object | layer, layer => true
  | _, _ => false
  end.

(** Values stored in a classification dictionary. *)
Inductive pyval :=
| VBool (b : bool)
| VInt (n : Z)
| VStr (s : pystr)
| VList (l : list pystr).

(** Python truthiness *)
Definition truthy (v : pyval) : bool :=
  match v with
  | VBool b => b
  | VInt n => negb (n =? 0)%Z
  | VStr s => match s with [] => false | _ => true end
  | VList l => match l with [] => false | _ => true end
  end.

Record HolyTreeEntity := {
  name : pystr;
  type : entity_type;
  number : pystr;
  level : Z;
  parent_path : pystr;
  classification : list (pystr * pyval);
  ascii_line : pystr
}.

(** [last_updated], a wall-clock timestamp, is left out. *)
Record HolyTreeStatistics := {
  total_domains : Z;
  total_objects : Z;
  total_layers : Z;
  tree_depth : Z;
  structural_integrity : pystr
}.

(** *** Insertion-ordered dictionaries ([dict]) *)

Section Dict.
Context {V : Type}.

Fixpoint dict_get (d : list (pystr * V)) (k : pystr) : option V :=
  match d with
  | [] => None
  | (k', v) :: d' => if bool_decide (k' = k) then Some v else dict_get d' k
  end.

(** [k in d] *)
Definition dict_mem (d : list (pystr * V)) (k : pystr) : bool :=
  match dict_get d k with Some _ => true | None => false end.

(** [d[k] = v]: an existing key keeps its place, a new one goes last. *)
Fixpoint dict_set (d : list (pystr * V)) (k : pystr) (v : V)
  : list (pystr * V) :=
  match d with
  | [] => [(k, v)]
  | (k', v') :: d' =>
    if bool_decide (k' = k) then (k', v) :: d' else (k', v') :: dict_set d' k v
  end.
End Dict.

(** The entity graph: [HolyTreeParser.entities], number -> entity. *)
Abbreviation graph := (list (pystr * HolyTreeEntity)).

(** ** HolyTreeParser *)

Section Parser.
Context `{UD : UnicodeData}.
Import Re.

Definition one_of (cs : pystr) : regex := Chr (fun c => existsb (N.eqb c) cs).

(** [[├└]──\s*(.+)$], split around its group *)
Definition content_pre : regex :=
  Cat (one_of (U "├└")) (Cat (one_of (U "─")) (Cat (one_of (U "─")) (Star (Chr space)))).
Definition content_grp : regex := Plus (Chr dot).
Definition content_post : regex := Eol.

(** [^([\d]+(?:\.[\d]+)*(?:\.[1-5])?)\s+], split around its group *)
Definition number_grp : regex :=
  Cat (Plus (Chr digit))
      (Cat (Star (Cat (Lit 46) (Plus (Chr digit))))
           (Opt (Cat (Lit 46) (Chr (fun c => (49 <=? c) && (c <=? 53)))))).
Definition number_post : regex := Plus (Chr space).

(** [re.sub(r'[^\w_]', '_', name).strip('_')] *)
Definition clean_name (raw : pystr) : pystr :=
  strip_chars (U "_")
    (sub_class (fun c => negb (word c || (c =? 95))) (U "_") raw).

Definition is_empty (s : pystr) : bool :=
  match s with [] => true | _ => false end.

Definition _parse_ascii_line (line : pystr) (line_num : Z)
           (current_path : list pystr) : option HolyTreeEntity :=
  let original_line := line in
  let line := strip line in
  if negb (existsb (contains line) [U "├──"; U "└──"]) then None else
  match search_group content_pre content_grp content_post line with
  | None => None
  | Some g1 =>
    let content := strip g1 in
    match search_group Bol number_grp number_post content with
    | None => None
    | Some number =>
      let entity_content := strip (replace content number []) in
      if is_empty entity_content then None else
      let has_folder := contains entity_content (U "📁") in
      let iconless_content :=
        if has_folder
        then strip (replace (replace entity_content (U "📁 ") []) (U "/") [])
        else strip (replace entity_content (U "/") []) in
      let components := length (split 46 number) in
      let entity_type :=
        if (components =? 1)%nat && has_folder then domain
        else if (2 <=? components)%nat && has_folder then object
        else layer in
      let name := clean_name iconless_content in
      if is_empty name then None else
      let parent_path :=
        match current_path with
        | [] => []
        | _ => join (U "/") (List.filter (fun p => negb (is_empty p)) current_path)
        end in
      Some {| name := name;
              type := entity_type;
              number := number;
              level := Z.of_nat components;
              parent_path := parent_path;
              classification := [];
              ascii_line := original_line |}
    end
  end.

(** [parse_holy_tree], the loop over the lines of the file *)
Fixpoint parse_lines (lines : list pystr) (line_num : Z) (entities : graph)
         (current_path : list pystr) : graph :=
  match lines with
  | [] => entities
  | line :: rest =>
    if is_empty (strip line) || startswith (strip line) (U "#")
    then parse_lines rest (line_num + 1)%Z entities current_path
    else
      match _parse_ascii_line line line_num current_path with
      | Some entity =>
        let entities' := dict_set entities (number entity) entity in
        let current_path' :=
          match type entity with
          | domain => [number entity]
          | object => [hd [] (split 46 (number entity)); number entity]
          | layer =>
            match current_path with
            | p0 :: p1 :: _ => [p0; p1; number entity]
            | _ => current_path
            end
          end in
        parse_lines rest (line_num + 1)%Z entities' current_path'
      | None => parse_lines rest (line_num + 1)%Z entities current_path
      end
  end.

Definition count_type (t : entity_type) (entities : graph) : Z :=
  Z.of_nat (length (List.filter (fun kv => entity_type_eqb (type (snd kv)) t) entities)).

(** [HolyTreeStatistics()] *)
Definition fresh_statistics : HolyTreeStatistics :=
  {| total_domains := 0; total_objects := 0; total_layers := 0;
     tree_depth := 0; structural_integrity := U "UNKNOWN" |}.

(** [_update_statistics], on the statistics reset by [parse_holy_tree] *)
Definition _update_statistics (entities : graph) : HolyTreeStatistics :=
  {| total_domains := count_type domain entities;
     total_objects := count_type object entities;
     total_layers := count_type layer entities;
     tree_depth := fold_right Z.max 0%Z (map (fun kv => level (snd kv)) entities);
     structural_integrity := structural_integrity fresh_statistics |}.

(** The parser object: the state [parse_holy_tree] leaves behind. *)
Record HolyTreeParser := {
  entities : graph;
  stats : HolyTreeStatistics
}.

Definition new_parser : HolyTreeParser :=
  {| entities := []; stats := fresh_statistics |}.

Inductive parse_result :=
| Parsed (entities_count domains objects layers max_depth : Z)
| ParseFailed.

Definition parsed_successfully (r : parse_result) : bool :=
  match r with Parsed _ _ _ _ _ => true | ParseFailed => false end.

(** [tree_file] is what [holy_tree_path.read_text] yields: [None] when
    the read raises. *)
Definition parse_holy_tree (tree_file : option pystr)
           (self : HolyTreeParser) : HolyTreeParser * parse_result :=
  match tree_file with
  | None => (self, ParseFailed)
  | Some content =>
    let lines := split 10 content in
    let ents := parse_lines lines 1%Z [] [] in
    let st := _update_statistics ents in
    ({| entities := ents; stats := st |},
     Parsed (Z.of_nat (length ents)) (count_type domain ents)
            (count_type object ents) (count_type layer ents) (tree_depth st))
  end.

Definition get_entities_by_level (self : HolyTreeParser) (lvl : Z)
  : list HolyTreeEntity :=
  List.filter (fun e => (level e =? lvl)%Z) (map snd (entities self)).

Definition get_entity_by_number (self : HolyTreeParser) (num : pystr)
  : option HolyTreeEntity :=
  dict_get (entities self) num.

(** *** validate_holy_tree_structure *)

Inductive exn :=
| AttributeError | IndexError | TypeError | ValueError | OSError
| UnicodeEncodeError.

Record validation_report := {
  valid : bool;
  issues : list pystr;
  integrity_score : pystr
}.

(** [number.split('.')[:-1]] joined with dots *)
Definition parent_number (num : pystr) : pystr :=
  join (U ".") (all_but_last (split 46 num)).

(** The condition under which the first loop appends an issue. *)
Definition missing_parent (ents : graph) (num : pystr) (entity : HolyTreeEntity)
  : bool :=
  (1 <? level entity)%Z && negb (dict_mem ents (parent_number num)).

Definition missing_parent_issue (num : pystr) : pystr :=
  U "Missing parent for " ++ num ++ U ": parent " ++ parent_number num
    ++ U " not found".

Fixpoint missing_parent_issues (ents : graph) (items : graph) : list pystr :=
  match items with
  | [] => []
  | (num, entity) :: rest =>
    if missing_parent ents num entity
    then missing_parent_issue num :: missing_parent_issues ents rest
    else missing_parent_issues ents rest
  end.

(** Attribute lookup [num.match] on a [str]: the type has no such
    attribute, so evaluating it raises before any call is made. *)
Definition str_match_attr (num : pystr) : exn + (regex -> bool) :=
  inl AttributeError.

(** The loop [for num in domain_numbers: if not num.match(r'^\d+$'): ...] *)
Fixpoint check_domain_numbers (nums : list pystr) (issues : list pystr)
  : exn + list pystr :=
  match nums with
  | [] => inr issues
  | num :: rest =>
    match str_match_attr num with
    | inl e => inl e
    | inr m =>
      if negb (m (Cat Bol (Cat (Plus (Chr digit)) Eol)))
      then check_domain_numbers rest
             (issues ++ [U "Invalid domain number format: " ++ num])
      else check_domain_numbers rest issues
    end
  end.

Definition validate_holy_tree_structure (self : HolyTreeParser)
  : exn + validation_report :=
  let issues0 := missing_parent_issues (entities self) (entities self) in
  let domain_numbers := map number (get_entities_by_level self 1) in
  match check_domain_numbers domain_numbers issues0 with
  | inl e => inl e
  | inr issues =>
    inr {| valid := (length issues =? 0)%nat;
           issues := issues;
           integrity_score :=
             str_of_int (100 - Z.of_nat (length issues) * 10) ++ U "%" |}
  end.

End Parser.

(** ** The file system under the working directory *)

Inductive node := Dir | File.

(** A path is the list of its components, relative to the working
    directory.  Entity names are single components: [clean_name] leaves
    no separator in them. *)
Abbreviation Path := (list pystr).

Definition parent (p : Path) : Path := removelast p.

(** [Path(file_path).parts] for a POSIX path: the root, if any, then the
    components, without empty ones and single dots. *)
Definition posix_parts (file_path : pystr) : list pystr :=
  let components :=
    List.filter (fun c => negb (is_empty c || bool_decide (c = U ".")))
                (split 47 file_path) in
  if startswith file_path (U "//") && negb (startswith file_path (U "///"))
  then U "//" :: components
  else if startswith file_path (U "/") then U "/" :: components
  else components.

(** [base / name]: an absolute [name] replaces the base.  A component
    [..] stays in the path as pathlib keeps it; the file system below
    is keyed by the parts of a path as written. *)
Definition path_join (base : Path) (name : pystr) : Path :=
  if startswith name (U "/") then posix_parts name
  else base ++ posix_parts name.

(** [p.exists()] and [p.is_dir()]; the working directory itself is [[]]. *)
Definition path_exists (fs : gmap Path node) (p : Path) : bool :=
  match p with
  | [] => true
  | _ => match fs !! p with Some _ => true | None => false end
  end.

Definition is_dir (fs : gmap Path node) (p : Path) : bool :=
  match p with
  | [] => true
  | _ => match fs !! p with Some Dir => true | _ => false end
  end.

(** [p.mkdir(parents=True, exist_ok=True)], walking down from [pre]:
    missing components are created, a component that is a file raises
    ([None]). *)
Fixpoint mkdir_from (pre : Path) (rest : list pystr) (fs : gmap Path node)
  : option (gmap Path node) :=
  match rest with
  | [] => Some fs
  | c :: rest' =>
    let p := pre ++ [c] in
    match fs !! p with
    | Some File => None
    | Some Dir => mkdir_from p rest' fs
    | None => mkdir_from p rest' (<[p := Dir]> fs)
    end
  end.

Definition mkdir_parents (p : Path) (fs : gmap Path node)
  : option (gmap Path node) :=
  mkdir_from [] p fs.

(** [p.write_text(...)]: raises on a directory or under a missing parent;
    the text written is not tracked. *)
Definition write_text (p : Path) (fs : gmap Path node)
  : option (gmap Path node) :=
  match fs !! p with
  | Some Dir => None
  | _ => if is_dir fs (parent p) then Some (<[p := File]> fs) else None
  end.

(** Every node sits in a directory. *)
Definition fs_wf (fs : gmap Path node) : Prop :=
  forall p, is_Some (fs !! p) -> p <> [] /\ is_dir fs (parent p) = true.

(** ** HolyTreeProjectGenerator *)

Section Generator.
Context `{UD : UnicodeData}.

Definition project_root : Path := [U "ROMILLM_Project"].

(** The [path_parts] list of [_construct_directory_path] *)
Definition path_parts (self : HolyTreeParser) (entity : HolyTreeEntity)
  : list pystr :=
  match type entity with
  | domain => [name entity]
  | object =>
    let domain_number := hd [] (split 46 (number entity)) in
    match get_entity_by_number self domain_number with
    | Some domain_entity => [name domain_entity; name entity]
    | None => []
    end
  | layer =>
    let parts := split 46 (number entity) in
    if (2 <=? length parts)%nat then
      let domain_number := hd [] parts in
      let object_number := join (U ".") (take 2 parts) in
      match get_entity_by_number self domain_number,
            get_entity_by_number self object_number with
      | Some domain_entity, Some object_entity =>
        [name domain_entity; name object_entity; name entity]
      | _, _ => []
      end
    else []
  end.

Definition _construct_directory_path (self : HolyTreeParser)
           (entity : HolyTreeEntity) : Path :=
  project_root ++ path_parts self entity.

(** The ancestor lookups of [_construct_directory_path] that come back
    empty: the Domain of an Object, the Domain or the Object of a
    Layer. *)
Definition ancestor_lookup_misses (self : HolyTreeParser)
           (entity : HolyTreeEntity) : bool :=
  match type entity with
  | domain => false
  | object =>
    negb (dict_mem (entities self) (hd [] (split 46 (number entity))))
  | layer =>
    let parts := split 46 (number entity) in
    if (2 <=? length parts)%nat
    then negb (dict_mem (entities self) (hd [] parts))
         || negb (dict_mem (entities self) (join (U ".") (take 2 parts)))
    else false
  end.

(** Entities for which the parent the validator checks is among the
    ancestors the resolver looks up: Objects with two components,
    Layers with two or three. *)
Definition parent_is_looked_up (entity : HolyTreeEntity) : bool :=
  let n := length (split 46 (number entity)) in
  match type entity with
  | domain => false
  | object => (n =? 2)%nat
  | layer => (n =? 2)%nat || (n =? 3)%nat
  end.

Definition type_in (t : entity_type) (ts : list entity_type) : bool :=
  existsb (entity_type_eqb t) ts.

(** Does building the README text go through?  [', '.join(...)] over
    the classification's [layers] raises [TypeError] on a value that
    is not iterable. *)
Definition readme_text_builds (entity : HolyTreeEntity) : bool :=
  match type entity with
  | object =>
    match dict_get (classification entity) (U "layers") with
    | Some (VInt _) | Some (VBool _) => false
    | _ => true
    end
  | _ => true
  end.

Definition _generate_basic_files (entity : HolyTreeEntity) (dir_path : Path)
           (fs : gmap Path node) : option (gmap Path node) :=
  if readme_text_builds entity
  then write_text (dir_path ++ [U "README.md"]) fs
  else None.

Inductive generate_result :=
| Validation (holy_tree_valid project_structure_valid : bool)
             (missing_directories : list Path) (consistency_score : pystr)
| GenerateParseFailed
| Generated (create_mode : pystr) (directories_list files_list : list Path)
            (total_project_entities : Z)
| GenerateError.

Definition missing_directories_of (self : HolyTreeParser)
           (fs : gmap Path node) : list Path :=
  flat_map
    (fun kv =>
       if type_in (type (snd kv)) [domain; object; layer]
       then let expected_path := _construct_directory_path self (snd kv) in
            if path_exists fs expected_path then [] else [expected_path]
       else [])
    (entities self).

Definition validate_project_structure (tree_file : option pystr)
           (self : HolyTreeParser) (fs : gmap Path node)
  : HolyTreeParser * generate_result :=
  let '(self', parse_result) := parse_holy_tree tree_file self in
  if negb (parsed_successfully parse_result)
  then (self', Validation false true [] (U "100%"))
  else
    let missing := missing_directories_of self' fs in
    match missing with
    | [] => (self', Validation true true [] (U "100%"))
    | _ =>
      (self',
       Validation true false missing
         (str_of_int (Z.max 0 (100 - Z.of_nat (length missing) * 5)) ++ U "%"))
    end.

(** The [for entity_number, entity in self.parser.entities.items()]
    loop inside the [try]; [None] in the result is the [except] branch.
    The file system keeps whatever was done before the exception. *)
Fixpoint generate_loop (create_mode : pystr) (self : HolyTreeParser)
         (items : graph) (fs : gmap Path node)
         (created_directories generated_files : list Path)
  : gmap Path node * option (list Path * list Path) :=
  match items with
  | [] => (fs, Some (created_directories, generated_files))
  | (entity_number, entity) :: rest =>
    if type_in (type entity) [domain; object; layer] then
      let dir_path := _construct_directory_path self entity in
      if bool_decide (create_mode = U "full") || negb (path_exists fs dir_path)
      then
        match mkdir_parents dir_path fs with
        | None => (fs, None)
        | Some fs1 =>
          let created_directories := created_directories ++ [dir_path] in
          if type_in (type entity) [domain; object] then
            match _generate_basic_files entity dir_path fs1 with
            | None => (fs1, None)
            | Some fs2 =>
              generate_loop create_mode self rest fs2 created_directories
                            (generated_files ++ [dir_path ++ [U "README.md"]])
            end
          else
            generate_loop create_mode self rest fs1 created_directories
                          generated_files
        end
      else generate_loop create_mode self rest fs created_directories
                         generated_files
    else generate_loop create_mode self rest fs created_directories
                       generated_files
  end.

Definition project_structure_flag (entity : HolyTreeEntity) : bool :=
  match dict_get (classification entity) (U "project_structure") with
  | Some v => truthy v
  | None => false
  end.

Definition generate_project_from_holy_tree (create_mode : pystr)
           (tree_file : option pystr) (self : HolyTreeParser)
           (fs : gmap Path node)
  : HolyTreeParser * gmap Path node * generate_result :=
  if bool_decide (create_mode = U "validate")
  then let '(self', r) := validate_project_structure tree_file self fs in
       (self', fs, r)
  else
    let '(self', parse_result) := parse_holy_tree tree_file self in
    if negb (parsed_successfully parse_result)
    then (self', fs, GenerateParseFailed)
    else
      match generate_loop create_mode self' (entities self') fs [] [] with
      | (fs', Some (dirs, files)) =>
        (self', fs',
         Generated create_mode dirs files
           (Z.of_nat (length (List.filter (fun kv => project_structure_flag (snd kv))
                                     (entities self')))))
      | (fs', None) => (self', fs', GenerateError)
      end.

Definition generate_succeeded (r : generate_result) : bool :=
  match r with
  | Generated _ _ _ _ => true
  | _ => false
  end.

End Generator.

(** ** HolyTreeMCPServer *)

Section Server.
Context `{UD : UnicodeData}.
Import Re.

(** The server object together with the pieces of the outside world
    it acts on: the text at [parser.holy_tree_path] as [read_text]
    yields it ([None] when reading it raises), whether that file can be
    opened for writing, and the file system below the working
    directory.  A text that was read holds no carriage return and no
    surrogate. *)
Record HolyTreeMCPServer := {
  parser : HolyTreeParser;
  tree_file : option pystr;
  tree_writable : bool;
  disk : gmap Path node
}.

(** [entity_config]; an absent key is [None]. *)
Record entity_config := {
  cfg_entity_name : option pystr;
  cfg_classification : option pystr;
  cfg_domain : option pystr;
  cfg_proposed_number : option pystr;
  cfg_layers : option (list pystr);
  cfg_description : option pystr
}.

Inductive add_result :=
| AddMissingFields
| AddRaised (e : exn)
| Added (entity_added : pystr) (project_structure_generated : bool)
        (number_assigned : pystr) (ascii_line_added : pystr).

(** First scan: a line mentioning the domain whose leading token is a
    prefix of the proposed number. *)
Fixpoint find_prefix_line (domain_name proposed_number : pystr)
         (lines : list pystr) (i : Z) : exn + Z :=
  match lines with
  | [] => inr (-1)%Z
  | line :: rest =>
    if contains line (domain_name ++ U "/") then
      match split_ws (strip line) with
      | [] => inl IndexError
      | tok :: _ =>
        if startswith proposed_number tok then inr (i + 1)%Z
        else find_prefix_line domain_name proposed_number rest (i + 1)%Z
      end
    else find_prefix_line domain_name proposed_number rest (i + 1)%Z
  end.

(** Second scan: the first line mentioning the domain. *)
Fixpoint find_domain_start (domain_name : pystr) (lines : list pystr) (i : Z)
  : Z :=
  match lines with
  | [] => (-1)%Z
  | line :: rest =>
    if contains line (domain_name ++ U "/") || contains line (domain_name ++ U "/")
    then i
    else find_domain_start domain_name rest (i + 1)%Z
  end.

(** [^\d+$] *)
Definition bare_integer : regex := Cat Bol (Cat (Plus (Chr digit)) Eol).

(** [for i in range(domain_start + 1, len(lines))]: [tail] holds
    [lines[i:]], [insert_index] the value assigned so far. *)
Fixpoint scan_domain_end (tail : list pystr) (i insert_index : Z) : Z :=
  match tail with
  | [] => insert_index
  | line :: rest =>
    let s := strip line in
    if (startswith s (U "├── ") || startswith s (U "└── "))
       && match split_ws s with
          | tok :: _ => re_match bare_integer tok
          | [] => false
          end
    then i
    else scan_domain_end rest (i + 1)%Z (i + 1)%Z
  end.

Definition default_layers : list pystr :=
  [U "Config"; U "Toolbox"; U "Core"; U "Api"; U "Tests"].

(** [enumerate(layers, 1)] turned into the layer lines *)
Fixpoint layer_lines_from (proposed_number : pystr) (i : Z)
         (layers : list pystr) : list pystr :=
  match layers with
  | [] => []
  | layer_name :: rest =>
    (U "│   │   ├── " ++ proposed_number ++ U "." ++ str_of_int i ++ U " "
       ++ layer_name ++ U "/                # 📦 Layer " ++ str_of_int i ++ U ": "
       ++ layer_name)
      :: layer_lines_from proposed_number (i + 1)%Z rest
  end.

(** The three f-strings of the lines written for a new entity *)
Definition object_ascii_line (proposed_number entity_name : pystr)
           (description : option pystr) : pystr :=
  U "│   ├── " ++ proposed_number ++ U " 📁 " ++ entity_name
    ++ U "/          # 🎯 Object: "
    ++ default (U "New component") description.

Definition domain_ascii_line (proposed_number entity_name : pystr)
           (description : option pystr) : pystr :=
  U "├── " ++ proposed_number ++ U " 📁 " ++ entity_name
    ++ U "/          # 🎯 DOMAIN: "
    ++ default (U "New domain") description.

Definition domain_readme_line : pystr :=
  U "│   └── 📄 README.md                # Domain constitution document".

(** [holy_tree_path.write_text(text, encoding='utf-8')]: opening the
    file raises [OSError] and leaves it alone when it cannot be written;
    once opened the file is empty, and encoding the text raises
    [UnicodeEncodeError] on a surrogate; otherwise the text is written,
    and [read_back] is what [read_text] yields afterwards. *)
Inductive write_outcome :=
| NotOpened
| Emptied
| Written (read_back : pystr).

Definition write_tree_file (writable : bool) (text : pystr) : write_outcome :=
  if negb writable then NotOpened
  else if utf8_encodable text then Written (universal_newlines text)
       else Emptied.

Definition add_entity_to_holy_tree (cfg : entity_config)
           (self : HolyTreeMCPServer)
  : HolyTreeMCPServer * option add_result :=
  let entity_name := default [] (cfg_entity_name cfg) in
  let domain_name := default [] (cfg_domain cfg) in
  let proposed_number := default [] (cfg_proposed_number cfg) in
  let layers := default default_layers (cfg_layers cfg) in
  if is_empty entity_name || is_empty domain_name || is_empty proposed_number
  then (self, Some AddMissingFields)
  else
    match tree_file self with
    | None => (self, Some (AddRaised OSError))
    | Some holy_tree_content =>
      let lines := split 10 holy_tree_content in
      match find_prefix_line domain_name proposed_number lines 0 with
      | inl e => (self, Some (AddRaised e))
      | inr first_index =>
        let insert_index :=
          if (first_index =? -1)%Z then
            let domain_start := find_domain_start domain_name lines 0 in
            if negb (domain_start =? -1)%Z
            then scan_domain_end (drop (Z.to_nat (domain_start + 1)) lines)
                                 (domain_start + 1) (domain_start + 1)
            else first_index
          else first_index in
        if negb (insert_index =? -1)%Z then
          let at_ := Z.to_nat insert_index in
          let '(ascii_line, lines') :=
            if (length (split 46 proposed_number) =? 2)%nat then
              let ascii_line :=
                object_ascii_line proposed_number entity_name
                                  (cfg_description cfg) in
              let layer_lines := layer_lines_from proposed_number 1 layers in
              (ascii_line,
               fold_left (fun ls layer_line => list_insert_at (S at_) layer_line ls)
                         (rev layer_lines)
                         (list_insert_at at_ ascii_line lines))
            else
              let ascii_line :=
                domain_ascii_line proposed_number entity_name
                                  (cfg_description cfg) in
              (ascii_line,
               list_insert_at (S at_) domain_readme_line
                 (list_insert_at at_ ascii_line lines)) in
          let updated_content := join [10] lines' in
          match write_tree_file (tree_writable self) updated_content with
          | NotOpened => (self, Some (AddRaised OSError))
          | Emptied =>
            ({| parser := parser self; tree_file := Some [];
                tree_writable := tree_writable self; disk := disk self |},
             Some (AddRaised UnicodeEncodeError))
          | Written written =>
            let '(parser', disk', project_result) :=
              generate_project_from_holy_tree (U "incremental")
                (Some written) (parser self) (disk self) in
            ({| parser := parser'; tree_file := Some written;
                tree_writable := tree_writable self; disk := disk' |},
             Some (Added entity_name (generate_succeeded project_result)
                         proposed_number (take 50 ascii_line ++ U "...")))
          end
        else (self, None)
      end
    end.

(** [^\d+\.?\d*] *)
Definition starts_with_number : regex :=
  Cat Bol (Cat (Plus (Chr digit)) (Cat (Opt (Lit 46)) (Star (Chr digit)))).

(** [for check_line_num in range(line_num, len(lines))]: [tail] holds
    [lines[check_line_num:]]. *)
Fixpoint collect_related (tail : list pystr) (check_line_num : nat)
  : list nat :=
  match tail with
  | [] => []
  | l :: rest =>
    let check_line := strip l in
    if is_empty check_line then collect_related rest (S check_line_num)
    else if re_search starts_with_number (hd [] (split_ws check_line))
         then []
         else check_line_num :: collect_related rest (S check_line_num)
  end.

(** The outer loop: the first line naming the entity with a folder
    sign or a slash, and the lines collected from there. *)
Fixpoint find_entity_lines (entity_name : pystr) (lines : list pystr)
         (line_num : nat) : option (nat * list nat) :=
  match lines with
  | [] => None
  | line :: rest =>
    if contains line entity_name
       && (contains line (U "📁") || contains line (U "/"))
    then Some (line_num, collect_related lines line_num)
    else find_entity_lines entity_name rest (S line_num)
  end.

(** [sorted(set(xs))] *)
Fixpoint insert_sorted (x : nat) (xs : list nat) : list nat :=
  match xs with
  | [] => [x]
  | y :: ys =>
    if (x <? y)%nat then x :: xs
    else if (x =? y)%nat then xs
    else y :: insert_sorted x ys
  end.

Definition sorted_set (xs : list nat) : list nat :=
  fold_right insert_sorted [] xs.

(** [for line_num in reversed(sorted(set(lines_to_remove))): lines.pop(line_num)] *)
Definition pop_lines (lines_to_remove : list nat) (lines : list pystr)
  : list pystr :=
  fold_left (fun ls line_num => list_pop line_num ls)
            (rev (sorted_set lines_to_remove)) lines.

Inductive cleanup_info :=
| Archived (archived_to : Path)
| Deleted
| Preserved
| NoCleanup.

Inductive remove_result :=
| RemoveNotFound
| RemoveRaised (e : exn)
| Removed (entity_removed : pystr) (lines_removed : Z) (cleanup : cleanup_info).

(** The text written back is made of lines that were read, so it
    encodes and reads back unchanged; opening the file for writing may
    raise.  In "archive" mode [mkdir] raises [ValueError] on a name
    holding a null character. *)
Definition remove_entity_from_holy_tree (entity_name cleanup_mode : pystr)
           (self : HolyTreeMCPServer) : HolyTreeMCPServer * remove_result :=
  match tree_file self with
  | None => (self, RemoveRaised OSError)
  | Some holy_tree_content =>
    let lines := split 10 holy_tree_content in
    match find_entity_lines entity_name lines 0 with
    | None => (self, RemoveNotFound)
    | Some (entity_start_line, lines_to_remove) =>
      let lines' := pop_lines lines_to_remove lines in
      let updated_content := join [10] lines' in
      let self1 := {| parser := parser self;
                      tree_file := Some updated_content;
                      tree_writable := tree_writable self;
                      disk := disk self |} in
      let lines_removed := Z.of_nat (length lines_to_remove) in
      if negb (tree_writable self) then (self, RemoveRaised OSError)
      else if bool_decide (cleanup_mode = U "archive") then
        let archive_path :=
          path_join (project_root ++ [U "archived"]) entity_name in
        if existsb (N.eqb 0) entity_name
        then (self1, RemoveRaised ValueError)
        else
          match mkdir_parents archive_path (disk self) with
          | None => (self1, RemoveRaised OSError)
          | Some disk' =>
            ({| parser := parser self; tree_file := Some updated_content;
                tree_writable := tree_writable self; disk := disk' |},
             Removed entity_name lines_removed (Archived archive_path))
          end
      else if bool_decide (cleanup_mode = U "delete") then
        (self1, Removed entity_name lines_removed Deleted)
      else if bool_decide (cleanup_mode = U "preserve") then
        (self1, Removed entity_name lines_removed Preserved)
      else (self1, Removed entity_name lines_removed NoCleanup)
    end
  end.

End Server.

(** *** The three thin wrappers of the server *)

Section ServerWrappers.
Context `{UD : UnicodeData}.

Definition analyze_holy_tree (self : HolyTreeMCPServer)
  : HolyTreeMCPServer * parse_result :=
  let '(parser', r) := parse_holy_tree (tree_file self) (parser self) in
  ({| parser := parser'; tree_file := tree_file self;
      tree_writable := tree_writable self; disk := disk self |}, r).

Definition generate_project_structure (create_mode : pystr)
           (self : HolyTreeMCPServer) : HolyTreeMCPServer * generate_result :=
  let '(parser', disk', r) :=
    generate_project_from_holy_tree create_mode (tree_file self) (parser self)
                                    (disk self) in
  ({| parser := parser'; tree_file := tree_file self;
      tree_writable := tree_writable self; disk := disk' |}, r).

Definition validate_architecture_consistency (self : HolyTreeMCPServer)
  : HolyTreeMCPServer * generate_result :=
  let '(parser', r) :=
    validate_project_structure (tree_file self) (parser self) (disk self) in
  ({| parser := parser'; tree_file := tree_file self;
      tree_writable := tree_writable self; disk := disk self |}, r).

End ServerWrappers.

(** ** CodeAnalysisHolyTreeIntegration: the part of
       [integration_framework.py] that works on the Holy Tree *)

Record CodeEntity := {
  ce_name : pystr;
  ce_type : pystr;
  ce_scope : pystr;
  ce_language : pystr;
  ce_file_path : pystr;
  ce_line_number : Z;
  ce_parent_entity : option pystr;
  ce_member_type : option pystr;
  ce_is_constructor : bool;
  ce_return_type : option pystr;
  ce_parameters : list (pystr * pystr * pystr)
}.

(** [last_updated], a wall-clock timestamp, is left out. *)
Record HolyTreeCodeEntityMapping := {
  code_entity_id : pystr;
  holy_tree_number : pystr;
  layer_path : pystr;
  status : pystr;
  entity_data : CodeEntity
}.

(** The integration object, as far as the functions below use it. *)
Record CodeAnalysisHolyTreeIntegration := {
  holy_tree : HolyTreeMCPServer;
  entity_mappings : list (pystr * HolyTreeCodeEntityMapping);
  orphaned_entities : list pystr
}.

(** [parts.index(x)]; [None] is the [ValueError]. *)
Fixpoint index_of (x : pystr) (parts : list pystr) : option nat :=
  match parts with
  | [] => None
  | p :: rest =>
    if bool_decide (p = x) then Some 0%nat
    else option_map S (index_of x rest)
  end.

Definition valid_layers : list pystr :=
  [U "Config"; U "Toolbox"; U "Core"; U "Api"; U "Tests"].

Definition _extract_layer_path_from_file (file_path : pystr) : option pystr :=
  let path_parts := posix_parts file_path in
  match index_of (U "ROMILLM_Project") path_parts with
  | None => None
  | Some romillm_idx =>
    let project_path := drop (S romillm_idx) path_parts in
    match project_path with
    | domain_name :: object_name :: layer_name :: _ =>
      if existsb (fun v => bool_decide (layer_name = v)) valid_layers
      then Some (domain_name ++ U "." ++ object_name ++ U "." ++ layer_name)
      else None
    | _ => None
    end
  end.

Section Integration.
Context `{UD : UnicodeData}.

(** The grouping loop of [_map_entities_to_holy_tree] *)
Fixpoint group_by_layer (code_entities : list CodeEntity)
         (entity_layer_mapping : list (pystr * list CodeEntity))
  : list (pystr * list CodeEntity) :=
  match code_entities with
  | [] => entity_layer_mapping
  | entity :: rest =>
    match _extract_layer_path_from_file (ce_file_path entity) with
    | None => group_by_layer rest entity_layer_mapping
    | Some layer_path =>
      if is_empty layer_path then group_by_layer rest entity_layer_mapping
      else
        group_by_layer rest
          (dict_set entity_layer_mapping layer_path
                    (default [] (dict_get entity_layer_mapping layer_path)
                       ++ [entity]))
    end
  end.

Definition with_holy_tree (self : CodeAnalysisHolyTreeIntegration)
           (ht : HolyTreeMCPServer) : CodeAnalysisHolyTreeIntegration :=
  {| holy_tree := ht; entity_mappings := entity_mappings self;
     orphaned_entities := orphaned_entities self |}.

Definition _map_entities_to_holy_tree (self : CodeAnalysisHolyTreeIntegration)
           (code_entities : list CodeEntity)
  : CodeAnalysisHolyTreeIntegration * list (pystr * list CodeEntity) :=
  let '(ht, holy_tree_analysis) := analyze_holy_tree (holy_tree self) in
  (with_holy_tree self ht, group_by_layer code_entities []).

(** [_update_entity_mappings_cache]: one mapping per entity, keyed by
    "file_path:name". *)
Definition mapping_of (layer_path : pystr) (entity : CodeEntity)
  : HolyTreeCodeEntityMapping :=
  {| code_entity_id := ce_file_path entity ++ U ":" ++ ce_name entity;
     holy_tree_number := layer_path ++ U "." ++ ce_name entity;
     layer_path := layer_path;
     status := U "active";
     entity_data := entity |}.

Definition _update_entity_mappings_cache
           (self : CodeAnalysisHolyTreeIntegration)
           (mapped_entities : list (pystr * list CodeEntity))
  : CodeAnalysisHolyTreeIntegration :=
  {| holy_tree := holy_tree self;
     entity_mappings :=
       fold_left
         (fun cache group =>
            fold_left
              (fun cache entity =>
                 let mapping := mapping_of (fst group) entity in
                 dict_set cache (code_entity_id mapping) mapping)
              (snd group) cache)
         mapped_entities (entity_mappings self);
     orphaned_entities := orphaned_entities self |}.

(** The loop of [_get_holy_tree_layer_paths] over the entity items *)
Definition layer_paths_of (items : graph) : list pystr :=
  flat_map
    (fun kv =>
       match type (snd kv) with
       | layer =>
         match split 46 (fst kv) with
         | p0 :: p1 :: p2 :: _ => [p0 ++ U "." ++ join (U ".") [p1; p2]]
         | _ => []
         end
       | _ => []
       end)
    items.

Definition _get_holy_tree_layer_paths (self : CodeAnalysisHolyTreeIntegration)
  : CodeAnalysisHolyTreeIntegration * list pystr :=
  let '(ht, holy_tree_analysis) := analyze_holy_tree (holy_tree self) in
  (with_holy_tree self ht, layer_paths_of (entities (parser ht))).

Definition _validate_entity_mapping (self : CodeAnalysisHolyTreeIntegration)
           (mapping : HolyTreeCodeEntityMapping)
  : CodeAnalysisHolyTreeIntegration * bool :=
  let '(self', layer_paths) := _get_holy_tree_layer_paths self in
  (self', existsb (fun lp => bool_decide (layer_path mapping = lp)) layer_paths).

Definition mark_orphaned (mapping : HolyTreeCodeEntityMapping)
  : HolyTreeCodeEntityMapping :=
  {| code_entity_id := code_entity_id mapping;
     holy_tree_number := holy_tree_number mapping;
     layer_path := layer_path mapping;
     status := U "orphaned";
     entity_data := entity_data mapping |}.

(** The loop of [_mark_orphaned_entities] over the cache items; the
    mappings are updated in place. *)
Fixpoint mark_orphaned_loop (self : CodeAnalysisHolyTreeIntegration)
         (items : list (pystr * HolyTreeCodeEntityMapping))
  : CodeAnalysisHolyTreeIntegration :=
  match items with
  | [] => self
  | (entity_id, mapping) :: rest =>
    let '(self1, still_valid) := _validate_entity_mapping self mapping in
    if negb still_valid
    then mark_orphaned_loop
           {| holy_tree := holy_tree self1;
              entity_mappings :=
                dict_set (entity_mappings self1) entity_id (mark_orphaned mapping);
              orphaned_entities := orphaned_entities self1 ++ [entity_id] |}
           rest
    else mark_orphaned_loop self1 rest
  end.

Definition _mark_orphaned_entities (self : CodeAnalysisHolyTreeIntegration)
  : CodeAnalysisHolyTreeIntegration :=
  mark_orphaned_loop
    {| holy_tree := holy_tree self; entity_mappings := entity_mappings self;
       orphaned_entities := [] |}
    (entity_mappings self).

End Integration.

(** ** Predicates of the statements *)

(** Domain at level 1, Object at level 2, Layer at level 3. *)
Definition kind_matches_level (e : HolyTreeEntity) : Prop :=
  level e = match type e with domain => 1 | object => 2 | layer => 3 end%Z.

(** No missing-parent issue for the entity nor for its parent. *)
Definition no_reachable_issue (g : graph) (num : pystr) (e : HolyTreeEntity)
  : Prop :=
  missing_parent g num e = false
  /\ forall p, dict_get g (parent_number num) = Some p ->
               missing_parent g (parent_number num) p = false.

(** Keys are the entities' own numbers and levels count the components. *)
Definition graph_shape (g : graph) : Prop :=
  forall num e, In (num, e) g ->
    number e = num /\ level e = Z.of_nat (length (split 46 num)).

(** What one turn of the generation loop does to the file system:
    nothing, a failed [mkdir], a directory without README, a failed
    README, or a directory with README.  The flag tells whether the loop
    goes on. *)
Inductive turn (self : HolyTreeParser) (mode : pystr) (e : HolyTreeEntity)
          (fs : gmap Path node) : gmap Path node -> bool -> Prop :=
| turn_skip :
    bool_decide (mode = U "full")
      || negb (path_exists fs (_construct_directory_path self e)) = false ->
    turn self mode e fs fs true
| turn_mkdir_fails :
    bool_decide (mode = U "full")
      || negb (path_exists fs (_construct_directory_path self e)) = true ->
    mkdir_parents (_construct_directory_path self e) fs = None ->
    turn self mode e fs fs false
| turn_layer fs1 :
    bool_decide (mode = U "full")
      || negb (path_exists fs (_construct_directory_path self e)) = true ->
    mkdir_parents (_construct_directory_path self e) fs = Some fs1 ->
    type_in (type e) [domain; object] = false ->
    turn self mode e fs fs1 true
| turn_readme_fails fs1 :
    bool_decide (mode = U "full")
      || negb (path_exists fs (_construct_directory_path self e)) = true ->
    mkdir_parents (_construct_directory_path self e) fs = Some fs1 ->
    type_in (type e) [domain; object] = true ->
    _generate_basic_files e (_construct_directory_path self e) fs1 = None ->
    turn self mode e fs fs1 false
| turn_readme fs1 fs2 :
    bool_decide (mode = U "full")
      || negb (path_exists fs (_construct_directory_path self e)) = true ->
    mkdir_parents (_construct_directory_path self e) fs = Some fs1 ->
    type_in (type e) [domain; object] = true ->
    _generate_basic_files e (_construct_directory_path self e) fs1 = Some fs2 ->
    turn self mode e fs fs2 true.

(** The lines [add_entity_to_holy_tree] inserts: the line of the
    entity, then its layer lines (two-component number) or the README
    line. *)
Definition new_entity_line (cfg : entity_config) : pystr :=
  let proposed_number := default [] (cfg_proposed_number cfg) in
  let entity_name := default [] (cfg_entity_name cfg) in
  if (length (split 46 proposed_number) =? 2)%nat
  then object_ascii_line proposed_number entity_name (cfg_description cfg)
  else domain_ascii_line proposed_number entity_name (cfg_description cfg).

Definition new_entity_lines (cfg : entity_config) : list pystr :=
  let proposed_number := default [] (cfg_proposed_number cfg) in
  new_entity_line cfg
    :: (if (length (split 46 proposed_number) =? 2)%nat
        then layer_lines_from proposed_number 1
               (default default_layers (cfg_layers cfg))
        else [domain_readme_line]).

(** UTF-8 can encode every text of the config that may be written. *)
Definition config_encodable (cfg : entity_config) : bool :=
  utf8_encodable (default [] (cfg_entity_name cfg))
  && utf8_encodable (default [] (cfg_proposed_number cfg))
  && utf8_encodable (default [] (cfg_description cfg))
  && forallb utf8_encodable (default default_layers (cfg_layers cfg)).

(** The test of the outer loop of [remove_entity_from_holy_tree]: the
    line names the entity and carries a folder sign or a slash. *)
Definition names_entity (entity_name line : pystr) : bool :=
  contains line entity_name
  && (contains line (U "📁") || contains line (U "/")).

(** What one pass over [lines[start:]] keeps: the blank lines, and
    everything from the first non-blank line whose leading token starts
    with a digit. *)
Fixpoint kept_after `{UD : UnicodeData} (tail : list pystr) : list pystr :=
  match tail with
  | [] => []
  | l :: rest =>
    if is_empty (strip l) then l :: kept_after rest
    else if Re.re_search starts_with_number (hd [] (split_ws (strip l)))
         then tail
         else kept_after rest
  end.

(** The server of the integration object after one more parse of a
    readable text. *)
Definition reparsed `{UD : UnicodeData} (content : pystr)
           (ht : HolyTreeMCPServer) : HolyTreeMCPServer :=
  {| parser := fst (parse_holy_tree (Some content) (parser ht));
     tree_file := Some content; tree_writable := tree_writable ht;
     disk := disk ht |}.

(** The ["directories_list"] and ["files_list"] entries of a result. *)
Definition directories_list (r : generate_result) : list Path :=
  match r with
  | Generated _ dirs _ _ => dirs
  | _ => []
  end.

Definition files_list (r : generate_result) : list Path :=
  match r with
  | Generated _ _ files _ => files
  | _ => []
  end.

(** A decimal digit ([\d]) or a dot. *)
Definition digit_or_dot `{UD : UnicodeData} (c : N) : Prop :=
  Re.digit c = true \/ c = 46.

(** Every character class of the regex accepts only characters in [P]. *)
Fixpoint classes_within (P : N -> Prop) (r : Re.regex) : Prop :=
  match r with
  | Re.Chr cls => forall c, cls c = true -> P c
  | Re.Cat a b | Re.Alt a b => classes_within P a /\ classes_within P b
  | Re.Star a => classes_within P a
  | _ => True
  end.

(** ** Sample trees *)

(** The Basic Latin rows alone: no code point above U+007F counts as a
    decimal digit or as alphanumeric.  On the sample trees this agrees
    with the full database, whose only characters above U+007F there are
    box-drawing and pictographic symbols. *)
Definition basic_latin : UnicodeData :=
  {| uc_decimal := fun _ => false; uc_alnum := fun _ => false |}.

Definition sample_line : pystr :=
  U "├── 4.2 📁 Processing_Router/          # comment".

(** A parser that has read the given text. *)
Definition parsed (text : pystr) : HolyTreeParser :=
  fst (@parse_holy_tree basic_latin (Some text) new_parser).

(** A server over the given text and disk, before any parse. *)
Definition server_on (text : pystr) (fs : gmap Path node) : HolyTreeMCPServer :=
  {| parser := new_parser; tree_file := Some text; tree_writable := true;
     disk := fs |}.

Definition small_tree : pystr :=
  U "├── 4 📁 Routing_Engine/
│   ├── 4.2 📁 Processing_Router/
│   │   ├── 4.2.1 Config/".

Definition sibling_tree : pystr :=
  U "├── 1 📁 Alpha/
│   ├── 1.1 📁 Beta/
│   │   ├── 1.1.1 Config/
│   ├── 1.2 📁 Gamma/
├── 2 📁 Delta/".

Definition stale_path : Path := [U "ROMILLM_Project"; U "old_build"].

Definition stale_disk : gmap Path node :=
  <[stale_path := Dir]> (<[[U "ROMILLM_Project"] := Dir]> ∅).

Definition one_domain_tree : pystr := U "├── 1 📁 Alpha/".

Definition orphan_layer_tree : pystr := U "│   │   ├── 4.2.1 Config/".

Definition eleven_orphans_tree : pystr :=
  U "├── 1.1 L
├── 2.1 L
├── 3.1 L
├── 4.1 L
├── 5.1 L
├── 6.1 L
├── 7.1 L
├── 8.1 L
├── 9.1 L
├── 10.1 L
├── 11.1 L".

Definition domainless_tree : pystr :=
  U "│   ├── 4.2 📁 Processing_Router/
│   │   ├── 4.2.1 Config/".

Definition flat_note_tree : pystr :=
  U "├── 4 📁 Routing_Engine/
│   ├── 4.2 Notes".

(** One incremental run over [small_tree] on an empty disk. *)
Definition small_run :=
  @generate_project_from_holy_tree basic_latin (U "incremental")
    (Some small_tree) new_parser ∅.

Definition config_layer_path : Path :=
  [U "ROMILLM_Project"; U "Routing_Engine"; U "Processing_Router"; U "Config"].

(** A disk on which a regular file stands where the Layer of
    [small_tree] resolves to. *)
Definition file_at_layer_disk : gmap Path node :=
  <[config_layer_path := File]>
    (<[[U "ROMILLM_Project"; U "Routing_Engine"; U "Processing_Router"] := Dir]>
       (<[[U "ROMILLM_Project"; U "Routing_Engine"] := Dir]>
          (<[[U "ROMILLM_Project"] := Dir]> ∅))).

Definition unknown_domain_config : entity_config :=
  {| cfg_entity_name := Some (U "Doc_Generator");
     cfg_classification := Some (U "core_object");
     cfg_domain := Some (U "Template_System");
     cfg_proposed_number := Some (U "5.4");
     cfg_layers := None;
     cfg_description := None |}.

Definition alpha_config : entity_config :=
  {| cfg_entity_name := Some (U "Newt");
     cfg_classification := None;
     cfg_domain := Some (U "Alpha");
     cfg_proposed_number := Some (U "1.3");
     cfg_layers := Some [U "Config"; U "Core"];
     cfg_description := None |}.

(** A class found in the Config layer of the object of [small_tree]. *)
Definition settings_entity : CodeEntity :=
  {| ce_name := U "Settings";
     ce_type := U "class";
     ce_scope := U "public";
     ce_language := U "python";
     ce_file_path :=
       U "/work/ROMILLM_Project/Routing_Engine/Processing_Router/Config/settings.py";
     ce_line_number := 3;
     ce_parent_entity := None;
     ce_member_type := None;
     ce_is_constructor := false;
     ce_return_type := None;
     ce_parameters := [] |}.

Definition settings_mapping : HolyTreeCodeEntityMapping :=
  mapping_of (U "Routing_Engine.Processing_Router.Config") settings_entity.

(** An integration object on [small_tree] whose cache holds the mapping
    of [settings_entity]. *)
Definition settings_integration : CodeAnalysisHolyTreeIntegration :=
  {| holy_tree := server_on small_tree ∅;
     entity_mappings := [(code_entity_id settings_mapping, settings_mapping)];
     orphaned_entities := [] |}.

(** A config whose entity name holds the lone surrogate U+D800. *)
Definition surrogate_config : entity_config :=
  {| cfg_entity_name := Some (U "Newt" ++ [55296]);
     cfg_classification := None;
     cfg_domain := Some (U "Alpha");
     cfg_proposed_number := Some (U "1.3");
     cfg_layers := None;
     cfg_description := None |}.

(** * Properties *)

(** ** Parsing one line *)

Section ParseLineFacts.
Context `{UD : UnicodeData}.

Lemma sub_class_as_map (cls : N -> bool) (r : N) (s : pystr) :
  Re.sub_class cls [r] s = map (fun c => if cls c then r else c) s.
Proof.
  induction s as [|c s IH]; simpl; [reflexivity|].
  rewrite <- IH. destruct (cls c); reflexivity.
Qed.

Lemma parse_sample_line :
  _parse_ascii_line sample_line 1 [] =
  Some {| name := U "Processing_Router____________comment";
          type := object;
          number := U "4.2";
          level := 2;
          parent_path := [];
          classification := [];
          ascii_line := sample_line |}.
Proof. vm_compute. reflexivity. Qed.
End ParseLineFacts.

(** ** Strings and dictionaries *)

Lemma startswith_app_l (d x : pystr) :
  forall s, startswith s (d ++ x) = true -> startswith s d = true.
Proof.
  induction d as [|a d IH]; intros s H; [destruct s; reflexivity|].
  destruct s as [|b s]; simpl in *; [discriminate|].
  apply andb_true_iff in H as [Hab Hs].
  rewrite Hab. simpl. apply IH, Hs.
Qed.

Lemma contains_app_l (d x : pystr) :
  forall s, contains s (d ++ x) = true -> contains s d = true.
Proof.
  induction s as [|b s IH]; intros H.
  - unfold contains in *. rewrite orb_false_r in *.
    apply (startswith_app_l d x), H.
  - change (startswith (b :: s) (d ++ x) || contains s (d ++ x) = true) in H.
    change (startswith (b :: s) d || contains s d = true).
    apply orb_true_iff in H as [H|H].
    + rewrite (startswith_app_l d x _ H). reflexivity.
    + rewrite (IH H). apply orb_true_r.
Qed.

Lemma split_fields_free (sep : N) (s : pystr) :
  Forall (fun f => ~ In sep f) (split sep s).
Proof.
  induction s as [|c s IH]; simpl.
  - constructor; [intros []|constructor].
  - destruct (N.eqb_spec c sep) as [->|Hne].
    + constructor; [intros []|exact IH].
    + destruct (split sep s) as [|f fs].
      * constructor; [|constructor]. intros [Hc|[]]. congruence.
      * inversion IH; subst. constructor; [|assumption].
        intros [Hc|Hin]; [congruence|contradiction].
Qed.

Lemma split_free (sep : N) (p : pystr) : ~ In sep p -> split sep p = [p].
Proof.
  induction p as [|c p IH]; simpl; intros H; [reflexivity|].
  destruct (N.eqb_spec c sep) as [->|Hne]; [exfalso; apply H; now left|].
  rewrite IH; [reflexivity|]. intros Hin. apply H. now right.
Qed.

Lemma split_app_sep (sep : N) (p t : pystr) :
  ~ In sep p -> split sep (p ++ sep :: t) = p :: split sep t.
Proof.
  induction p as [|c p IH]; simpl; intros H.
  - rewrite N.eqb_refl. reflexivity.
  - destruct (N.eqb_spec c sep) as [->|Hne]; [exfalso; apply H; now left|].
    rewrite IH; [reflexivity|]. intros Hin. apply H. now right.
Qed.

Lemma split_join (sep : N) (parts : list pystr) :
  parts <> [] -> Forall (fun f => ~ In sep f) parts ->
  split sep (join [sep] parts) = parts.
Proof.
  induction parts as [|p ps IH]; intros Hne Hall; [congruence|].
  inversion Hall as [|? ? Hp Hps]; subst.
  destruct ps as [|q ps].
  - simpl. apply split_free, Hp.
  - change (join [sep] (p :: q :: ps)) with (p ++ sep :: join [sep] (q :: ps)).
    rewrite split_app_sep by exact Hp.
    rewrite IH; [reflexivity|discriminate|exact Hps].
Qed.

Lemma split_within (P : N -> Prop) (sep : N) (s : pystr) :
  Forall P s -> Forall (Forall P) (split sep s).
Proof.
  induction 1 as [|c s Hc Hs IH]; simpl.
  - repeat constructor.
  - destruct (c =? sep); [constructor; [constructor|exact IH]|].
    destruct (split sep s) as [|f fs]; [repeat constructor; exact Hc|].
    inversion IH; subst. constructor; [constructor; assumption|assumption].
Qed.

Lemma join_within (P : N -> Prop) (sep : pystr) (parts : list pystr) :
  Forall P sep -> Forall (Forall P) parts -> Forall P (join sep parts).
Proof.
  intros Hsep. induction 1 as [|p ps Hp Hps IH]; [constructor|].
  destruct ps as [|q ps]; [exact Hp|].
  change (join sep (p :: q :: ps)) with (p ++ sep ++ join sep (q :: ps)).
  apply Forall_app; split; [exact Hp|].
  apply Forall_app; split; [exact Hsep|exact IH].
Qed.

Section DictFacts.
Context {V : Type}.
Implicit Types (d : list (pystr * V)) (k : pystr) (v : V).

Lemma dict_get_In d k v : dict_get d k = Some v -> In (k, v) d.
Proof.
  induction d as [|[k' v'] d IH]; simpl; [discriminate|].
  case_bool_decide as Hk.
  - intros [= <-]. subst. now left.
  - intros H. right. apply IH, H.
Qed.

Lemma dict_mem_get d k :
  dict_mem d k = true -> exists v, dict_get d k = Some v.
Proof.
  unfold dict_mem. destruct (dict_get d k) as [v|]; [eauto|discriminate].
Qed.

Lemma dict_set_In d k v kv :
  In kv (dict_set d k v) -> In kv d \/ kv = (k, v).
Proof.
  induction d as [|[k' v'] d IH]; simpl.
  - intros [<-|[]]. now right.
  - case_bool_decide as Hk; simpl.
    + intros [<-|H]; [right; now subst|left; now right].
    + intros [<-|H]; [left; now left|].
      destruct (IH H) as [?|?]; [left; now right|now right].
Qed.
End DictFacts.

(** ** What the parser guarantees about a graph *)

Section ParserFacts.
Context `{UD : UnicodeData}.

Lemma parse_line_fields line n cp e :
  _parse_ascii_line line n cp = Some e ->
  classification e = []
  /\ level e = Z.of_nat (length (split 46 (number e)))
  /\ ascii_line e = line
  /\ name e <> []
  /\ (type e = domain -> level e = 1%Z)
  /\ (type e = object -> (2 <= level e)%Z).
Proof.
  unfold _parse_ascii_line. intros H.
  repeat match type of H with
         | (if ?b then _ else _) = Some _ => destruct b eqn:?; [discriminate|]
         | match ?x with Some _ => _ | None => _ end = Some _ =>
           destruct x eqn:?; [|discriminate]
         end.
  injection H as <-.
  cbn [classification level number ascii_line name type].
  repeat split.
  - intros Hnil.
    match goal with
    | Hname : is_empty ?x = false |- _ =>
      assert (x = []) as Hx by exact Hnil; rewrite Hx in Hname; discriminate
    end.
  - destruct (contains _ (U "📁")); destruct (length (split 46 _)) as [|[|k]];
      simpl; intros [=]; reflexivity.
  - destruct (contains _ (U "📁")); destruct (length (split 46 _)) as [|[|k]];
      simpl; intros [=]; lia.
Qed.

Lemma parse_lines_invariant (P : pystr -> HolyTreeEntity -> Prop) :
  (forall line n cp e, _parse_ascii_line line n cp = Some e -> P (number e) e) ->
  forall lines n ents cp,
    (forall num e, In (num, e) ents -> P num e) ->
    forall num e, In (num, e) (parse_lines lines n ents cp) -> P num e.
Proof.
  intros Hline. induction lines as [|line rest IH]; intros n ents cp Hents;
    simpl; [exact Hents|].
  destruct (is_empty (strip line) || startswith (strip line) (U "#"));
    [apply IH, Hents|].
  destruct (_parse_ascii_line line n cp) as [entity|] eqn:Hp;
    [|apply IH, Hents].
  apply IH. intros num e Hin.
  apply dict_set_In in Hin as [Hin|[= -> ->]]; [apply Hents, Hin|].
  eapply Hline, Hp.
Qed.

Lemma parsed_graph_shape tree_file self self' r :
  parse_holy_tree tree_file self = (self', r) ->
  parsed_successfully r = true ->
  graph_shape (entities self')
  /\ forall num e, In (num, e) (entities self') -> classification e = [].
Proof.
  unfold parse_holy_tree. destruct tree_file as [content|];
    intros [= <- <-] Hr; [|discriminate]. simpl.
  split.
  - unfold graph_shape.
    apply (parse_lines_invariant
             (fun num e => number e = num
                           /\ level e = Z.of_nat (length (split 46 num)))).
    + intros line n cp e He. split; [reflexivity|].
      apply (parse_line_fields _ _ _ _ He).
    + intros ? ? [].
  - apply (parse_lines_invariant (fun _ e => classification e = [])).
    + intros line n cp e He. apply (parse_line_fields _ _ _ _ He).
    + intros ? ? [].
Qed.
End ParserFacts.

(** ** What a match consumes *)

Section RegexFacts.
Import Re.
Variable P : N -> Prop.

Lemma run_consumes r :
  classes_within P r ->
  forall p q, In q (run r p) ->
    exists c, snd p = c ++ snd q /\ Forall P c.
Proof.
  induction r as [cls| |r1 IH1 r2 IH2|r1 IH1 r2 IH2|r1 IH1| |];
    intros Hcls p q Hin; cbn [run] in Hin.
  - destruct p as [b [|c t]]; simpl in Hin; [destruct Hin|].
    destruct (cls c) eqn:Hc; [|destruct Hin].
    destruct Hin as [<-|[]]. exists [c]. split; [reflexivity|].
    constructor; [apply Hcls, Hc|constructor].
  - destruct Hin as [<-|[]]. exists []. split; [reflexivity|constructor].
  - destruct Hcls as [H1 H2].
    apply in_flat_map in Hin as (m & Hm & Hq).
    destruct (IH1 H1 _ _ Hm) as (c1 & E1 & F1).
    destruct (IH2 H2 _ _ Hq) as (c2 & E2 & F2).
    exists (c1 ++ c2). split; [rewrite E1, E2, app_assoc; reflexivity|].
    apply Forall_app; auto.
  - destruct Hcls as [H1 H2].
    apply in_app_or in Hin as [Hin|Hin]; eauto.
  - revert Hin. generalize (length (snd p)). intros fuel. revert p q.
    induction fuel as [|fuel IHf]; intros p q Hin.
    + destruct Hin as [<-|[]]. exists []. split; [reflexivity|constructor].
    + apply in_app_or in Hin as [Hin|[<-|[]]].
      * apply in_flat_map in Hin as (m & Hm & Hq).
        destruct (length (snd m) <? length (snd p))%nat; [|destruct Hq].
        destruct (IH1 Hcls _ _ Hm) as (c1 & E1 & F1).
        destruct (IHf _ _ Hq) as (c2 & E2 & F2).
        exists (c1 ++ c2). split; [rewrite E1, E2, app_assoc; reflexivity|].
        apply Forall_app; auto.
      * exists []. split; [reflexivity|constructor].
  - destruct (fst p); [|destruct Hin].
    destruct Hin as [<-|[]]. exists []. split; [reflexivity|constructor].
  - assert (q = p) as ->.
    { revert Hin.
      repeat match goal with
             | |- In _ (match ?x with _ => _ end) -> _ => destruct x
             end; simpl; intuition congruence. }
    exists []. split; [reflexivity|constructor].
Qed.

Lemma group_at_within pre grp post p g :
  classes_within P grp -> group_at pre grp post p = Some g -> Forall P g.
Proof.
  intros Hcls. unfold group_at.
  match goal with
  | |- head ?l = Some g -> _ => destruct l as [|g0 gs] eqn:Hf
  end; [discriminate|].
  intros [= <-].
  assert (Hin : In g0 (g0 :: gs)) by now left.
  rewrite <- Hf in Hin.
  apply in_flat_map in Hin as (p1 & _ & Hin).
  apply in_flat_map in Hin as (p2 & Hp2 & Hin).
  destruct (matches_at post p2); [|destruct Hin].
  destruct Hin as [<-|[]].
  destruct (run_consumes grp Hcls _ _ Hp2) as (c & E & F).
  clear Hf. destruct p1 as [b1 s1], p2 as [b2 s2]. simpl in *. subst s1.
  rewrite length_app.
  replace (length c + length s2 - length s2)%nat with (length c) by lia.
  rewrite take_app_length. exact F.
Qed.

Lemma search_group_within pre grp post s g :
  classes_within P grp -> search_group pre grp post s = Some g -> Forall P g.
Proof.
  intros Hcls. unfold search_group. generalize true.
  induction s as [|c s IH]; intros bos; cbn [search_group_from];
    destruct (group_at pre grp post (bos, _)) as [g0|] eqn:Hg.
  - intros [= <-]. eapply group_at_within; eassumption.
  - discriminate.
  - intros [= <-]. eapply group_at_within; eassumption.
  - apply IH.
Qed.
End RegexFacts.

(** ** Stripping *)

Lemma lstrip_by_suffix (p : N -> bool) (s : pystr) :
  exists k, s = k ++ lstrip_by p s.
Proof.
  induction s as [|c s [k IH]]; [exists []; reflexivity|].
  simpl. destruct (p c).
  - exists (c :: k). simpl. f_equal. exact IH.
  - exists []. reflexivity.
Qed.

Lemma lstrip_by_head (p : N -> bool) (s : pystr) c t :
  lstrip_by p s = c :: t -> p c = false.
Proof.
  induction s as [|c0 s IH]; simpl; [discriminate|].
  destruct (p c0) eqn:Hc; [exact IH|]. intros [= <- <-]. exact Hc.
Qed.

Lemma lstrip_by_Forall (Q : N -> Prop) (p : N -> bool) (s : pystr) :
  Forall Q s -> Forall Q (lstrip_by p s).
Proof.
  intros H. destruct (lstrip_by_suffix p s) as [k E].
  rewrite E in H. apply Forall_app in H. apply H.
Qed.

Lemma strip_by_Forall (Q : N -> Prop) (p : N -> bool) (s : pystr) :
  Forall Q s -> Forall Q (strip_by p s).
Proof.
  intros H. unfold strip_by.
  apply Forall_rev, lstrip_by_Forall, Forall_rev, lstrip_by_Forall, H.
Qed.

(** What is left after stripping neither starts nor ends with a
    stripped character. *)
Lemma strip_by_ends (p : N -> bool) (s : pystr) c :
  (head (strip_by p s) = Some c -> p c = false)
  /\ (last (strip_by p s) = Some c -> p c = false).
Proof.
  unfold strip_by.
  destruct (lstrip_by_suffix p (rev (lstrip_by p s))) as [k E].
  set (m := lstrip_by p s) in *. set (r := lstrip_by p (rev m)) in *.
  split; intros H.
  - assert (Em : m = rev r ++ rev k).
    { rewrite <- (rev_involutive m), E, rev_app_distr. reflexivity. }
    destruct (rev r) as [|c0 t] eqn:Hr; [discriminate|].
    injection H as ->.
    apply (lstrip_by_head p s c (t ++ rev k)). fold m. rewrite Em. reflexivity.
  - apply last_Some in H as [l' Hl].
    apply (lstrip_by_head p (rev m) c (rev l')). fold r.
    rewrite <- (rev_involutive r), Hl, rev_app_distr. reflexivity.
Qed.

(** ** More on the parsed graph *)

Section MoreParserFacts.
Context `{UD : UnicodeData}.

Lemma number_grp_classes : classes_within digit_or_dot number_grp.
Proof.
  unfold number_grp, Re.Plus, Re.Opt, Re.Lit, digit_or_dot.
  cbn [classes_within].
  repeat split; intros c H;
    first [ left; exact H
          | right; apply N.eqb_eq in H; congruence
          | idtac ].
  left. apply andb_true_iff in H as [H1 H2].
  apply N.leb_le in H1, H2. unfold Re.digit.
  replace (c <? 128) with true by (symmetry; apply N.ltb_lt; lia).
  apply andb_true_iff. split; apply N.leb_le; lia.
Qed.

Lemma clean_name_word (raw : pystr) :
  Forall (fun c => Re.word c = true) (clean_name raw).
Proof.
  unfold clean_name, strip_chars. apply strip_by_Forall.
  unfold Re.sub_class. induction raw as [|c raw IH]; simpl; [constructor|].
  apply Forall_app. split; [|exact IH].
  destruct (Re.word c) eqn:Hw; simpl.
  - constructor; [exact Hw|constructor].
  - destruct (N.eqb_spec c 95) as [->|Hne]; simpl;
      (constructor; [reflexivity|constructor]).
Qed.

Lemma parse_line_origin line n cp e :
  _parse_ascii_line line n cp = Some e ->
  (exists raw, name e = clean_name raw) /\ Forall digit_or_dot (number e).
Proof.
  unfold _parse_ascii_line. intros H.
  repeat match type of H with
         | (if ?b then _ else _) = Some _ => destruct b eqn:?; [discriminate|]
         | match ?x with Some _ => _ | None => _ end = Some _ =>
           destruct x eqn:?; [|discriminate]
         end.
  injection H as <-. cbn [name number]. split; [eexists; reflexivity|].
  eapply search_group_within; [apply number_grp_classes|eassumption].
Qed.
End MoreParserFacts.

Lemma parsed_names_clean `{UD : UnicodeData} content (self : HolyTreeParser)
      num e :
  In (num, e) (entities (fst (parse_holy_tree (Some content) self))) ->
  name e <> [] /\ ~ In 47 (name e) /\ ~ In 46 (name e).
Proof.
  cbn [parse_holy_tree fst entities]. revert num e.
  apply (parse_lines_invariant
           (fun _ e => name e <> [] /\ ~ In 47 (name e) /\ ~ In 46 (name e))).
  - intros line n cp e He.
    destruct (parse_line_fields _ _ _ _ He) as (_ & _ & _ & Hne & _).
    destruct (parse_line_origin _ _ _ _ He) as [[raw Hraw] _].
    pose proof (clean_name_word raw) as Hw. rewrite <- Hraw in Hw.
    rewrite List.Forall_forall in Hw.
    repeat split; [exact Hne| |]; intros Hin; specialize (Hw _ Hin);
      discriminate Hw.
  - intros ? ? [].
Qed.

(** ** The file-system operations *)

Section FsFacts.
Implicit Types (fs : gmap Path node) (p q pre : Path).

Lemma parent_snoc pre (c : pystr) : parent (pre ++ [c]) = pre.
Proof. apply removelast_last. Qed.

Lemma path_exists_mono fs fs' p :
  fs ⊆ fs' -> path_exists fs p = true -> path_exists fs' p = true.
Proof.
  intros Hsub. unfold path_exists. destruct p as [|c p]; [reflexivity|].
  destruct (fs !! (c :: p)) as [n|] eqn:Hl; [|discriminate].
  rewrite (lookup_weaken _ _ _ _ Hl Hsub). reflexivity.
Qed.

Lemma is_dir_mono fs fs' p :
  fs ⊆ fs' -> is_dir fs p = true -> is_dir fs' p = true.
Proof.
  intros Hsub. unfold is_dir. destruct p as [|c p]; [reflexivity|].
  destruct (fs !! (c :: p)) as [[|]|] eqn:Hl; try discriminate.
  rewrite (lookup_weaken _ _ _ _ Hl Hsub). reflexivity.
Qed.

Lemma is_dir_lookup fs p : p <> [] -> is_dir fs p = true -> fs !! p = Some Dir.
Proof.
  unfold is_dir. destruct p as [|c p]; [congruence|]. intros _.
  destruct (fs !! (c :: p)) as [[|]|]; congruence.
Qed.

Lemma lookup_is_dir fs p : fs !! p = Some Dir -> is_dir fs p = true.
Proof.
  unfold is_dir. destruct p as [|c p]; [reflexivity|]. intros ->. reflexivity.
Qed.

(** Adding a node inside an existing directory keeps the tree shape. *)
Lemma fs_wf_insert fs p (n : node) :
  fs_wf fs -> p <> [] -> is_dir fs (parent p) = true ->
  (fs !! p = None \/ fs !! p = Some n) ->
  fs_wf (<[p := n]> fs).
Proof.
  intros Hwf Hp Hpar Hold q Hq.
  assert (Hsub : fs ⊆ <[p := n]> fs).
  { destruct Hold as [Hnone|Hsame]; [apply insert_subseteq, Hnone|].
    rewrite insert_id by exact Hsame. reflexivity. }
  destruct (decide (p = q)) as [<-|Hne].
  - split; [exact Hp|]. eapply is_dir_mono; eassumption.
  - rewrite lookup_insert_ne in Hq by exact Hne.
    destruct (Hwf q Hq) as [Hq1 Hq2].
    split; [exact Hq1|]. eapply is_dir_mono; eassumption.
Qed.

Lemma mkdir_from_subseteq rest : forall pre fs fs',
  mkdir_from pre rest fs = Some fs' -> fs ⊆ fs'.
Proof.
  induction rest as [|c rest IH]; simpl; intros pre fs fs' H.
  - injection H as <-. reflexivity.
  - destruct (fs !! (pre ++ [c])) as [[|]|] eqn:Hl; [|discriminate|].
    + eapply IH, H.
    + etransitivity; [apply insert_subseteq, Hl|]. eapply IH, H.
Qed.

Lemma mkdir_from_is_dir rest : forall pre fs fs',
  mkdir_from pre rest fs = Some fs' -> rest <> [] ->
  fs' !! (pre ++ rest) = Some Dir.
Proof.
  induction rest as [|c rest IH]; simpl; intros pre fs fs' H Hne;
    [congruence|].
  assert (Hstep : forall fs1, fs1 !! (pre ++ [c]) = Some Dir ->
                  mkdir_from (pre ++ [c]) rest fs1 = Some fs' ->
                  fs' !! (pre ++ c :: rest) = Some Dir).
  { intros fs1 Hd Hm. destruct rest as [|c' rest'].
    - simpl in Hm. injection Hm as <-. exact Hd.
    - rewrite (cons_middle c pre), app_assoc.
      eapply IH; [exact Hm|discriminate]. }
  destruct (fs !! (pre ++ [c])) as [[|]|] eqn:Hl; [|discriminate|].
  - eapply Hstep; eassumption.
  - eapply Hstep; [|exact H]. apply lookup_insert_eq.
Qed.

Lemma mkdir_from_wf rest : forall pre fs fs',
  fs_wf fs -> is_dir fs pre = true ->
  mkdir_from pre rest fs = Some fs' -> fs_wf fs'.
Proof.
  induction rest as [|c rest IH]; simpl; intros pre fs fs' Hwf Hpre H.
  - injection H as <-. exact Hwf.
  - destruct (fs !! (pre ++ [c])) as [[|]|] eqn:Hl; [|discriminate|].
    + eapply IH; [exact Hwf| |exact H]. apply lookup_is_dir, Hl.
    + eapply IH; [| |exact H].
      * apply fs_wf_insert; [exact Hwf|now destruct pre| |now left].
        rewrite parent_snoc. exact Hpre.
      * apply lookup_is_dir, lookup_insert_eq.
Qed.

(** [mkdir] touches nothing below the directory it is asked for. *)
Lemma mkdir_from_longer rest : forall pre fs fs' q,
  mkdir_from pre rest fs = Some fs' ->
  (length pre + length rest < length q)%nat ->
  fs' !! q = fs !! q.
Proof.
  induction rest as [|c rest IH]; simpl; intros pre fs fs' q H Hlen.
  - injection H as <-. reflexivity.
  - assert (Hlen' : (length (pre ++ [c]) + length rest < length q)%nat)
      by (rewrite length_app; simpl; lia).
    destruct (fs !! (pre ++ [c])) as [[|]|] eqn:Hl; [|discriminate|].
    + eapply IH; eassumption.
    + rewrite (IH _ _ _ _ H Hlen'). apply lookup_insert_ne.
      intros <-. rewrite length_app in Hlen. simpl in Hlen. lia.
Qed.

Lemma mkdir_parents_subseteq p fs fs' :
  mkdir_parents p fs = Some fs' -> fs ⊆ fs'.
Proof. apply mkdir_from_subseteq. Qed.

Lemma mkdir_parents_is_dir p fs fs' :
  mkdir_parents p fs = Some fs' -> p <> [] -> fs' !! p = Some Dir.
Proof. apply (mkdir_from_is_dir p []). Qed.

Lemma mkdir_parents_wf p fs fs' :
  fs_wf fs -> mkdir_parents p fs = Some fs' -> fs_wf fs'.
Proof. intros Hwf. apply mkdir_from_wf; [exact Hwf|reflexivity]. Qed.

Lemma mkdir_parents_below p fs fs' q :
  mkdir_parents p fs = Some fs' -> (length p < length q)%nat ->
  fs' !! q = fs !! q.
Proof. intros H Hlen. eapply mkdir_from_longer; [exact H|exact Hlen]. Qed.

Lemma write_text_subseteq p fs fs' : write_text p fs = Some fs' -> fs ⊆ fs'.
Proof.
  unfold write_text. intros H.
  destruct (fs !! p) as [[|]|] eqn:Hl; [discriminate| |];
    destruct (is_dir fs (parent p)); try discriminate; injection H as <-.
  - rewrite insert_id by exact Hl. reflexivity.
  - apply insert_subseteq, Hl.
Qed.

Lemma write_text_wf p fs fs' :
  fs_wf fs -> p <> [] -> write_text p fs = Some fs' -> fs_wf fs'.
Proof.
  unfold write_text. intros Hwf Hp H.
  destruct (fs !! p) as [[|]|] eqn:Hl; [discriminate| |];
    destruct (is_dir fs (parent p)) eqn:Hpar; try discriminate;
    injection H as <-; apply fs_wf_insert; auto.
Qed.

(** A node whose parent directory is missing cannot exist. *)
Lemma fs_wf_child_absent fs p (c : pystr) :
  fs_wf fs -> p <> [] -> fs !! p = None -> fs !! (p ++ [c]) = None.
Proof.
  intros Hwf Hp Hnone.
  destruct (fs !! (p ++ [c])) as [n|] eqn:Hl; [|reflexivity].
  destruct (Hwf (p ++ [c])) as [_ Hd]; [eauto|].
  rewrite parent_snoc in Hd. apply is_dir_lookup in Hd; [|exact Hp].
  congruence.
Qed.
End FsFacts.

(** ** The generation loop *)

Section GeneratorFacts.
Implicit Types (fs : gmap Path node) (self : HolyTreeParser).

(** The loop is a sequence of turns that stops at the first failure. *)
Lemma generate_loop_turn mode self num e rest fs dirs files fs' r :
  generate_loop mode self ((num, e) :: rest) fs dirs files = (fs', r) ->
  exists fs1 ok,
    turn self mode e fs fs1 ok
    /\ (if ok
        then exists dirs1 files1,
            generate_loop mode self rest fs1 dirs1 files1 = (fs', r)
        else fs' = fs1 /\ r = None).
Proof.
  cbn [generate_loop].
  replace (type_in (type e) [domain; object; layer]) with true
    by (destruct (type e); reflexivity).
  destruct (bool_decide (mode = U "full")
            || negb (path_exists fs (_construct_directory_path self e)))
    eqn:Hc.
  - destruct (mkdir_parents (_construct_directory_path self e) fs)
      as [fs1|] eqn:Hm.
    + destruct (type_in (type e) [domain; object]) eqn:Ht.
      * destruct (_generate_basic_files e (_construct_directory_path self e) fs1)
          as [fs2|] eqn:Hg.
        -- intros H. exists fs2, true. split; [eapply turn_readme; eassumption|].
           eauto.
        -- intros [= <- <-]. exists fs1, false.
           split; [eapply turn_readme_fails; eassumption|]. auto.
      * intros H. exists fs1, true. split; [eapply turn_layer; eassumption|].
        eauto.
    + intros [= <- <-]. exists fs, false.
      split; [eapply turn_mkdir_fails; eassumption|]. auto.
  - intros H. exists fs, true. split; [apply turn_skip, Hc|]. eauto.
Qed.

Lemma generate_basic_files_subseteq e p fs fs' :
  _generate_basic_files e p fs = Some fs' -> fs ⊆ fs'.
Proof.
  unfold _generate_basic_files. destruct (readme_text_builds e); [|discriminate].
  apply write_text_subseteq.
Qed.

Lemma turn_subseteq self mode e fs fs' ok :
  turn self mode e fs fs' ok -> fs ⊆ fs'.
Proof.
  destruct 1; try reflexivity;
    try (eapply mkdir_parents_subseteq; eassumption).
  etransitivity; [eapply mkdir_parents_subseteq; eassumption|].
  eapply generate_basic_files_subseteq; eassumption.
Qed.

Lemma turn_wf self mode e fs fs' ok :
  fs_wf fs -> turn self mode e fs fs' ok -> fs_wf fs'.
Proof.
  intros Hwf. destruct 1; try assumption;
    try (eapply mkdir_parents_wf; eassumption).
  match goal with
  | Hg : _generate_basic_files _ _ _ = Some _ |- _ =>
    unfold _generate_basic_files in Hg;
      destruct (readme_text_builds e); [|discriminate Hg];
      apply write_text_wf in Hg; [exact Hg| |]
  end.
  - eapply mkdir_parents_wf; eassumption.
  - destruct (_construct_directory_path self e); discriminate.
Qed.

(** After a turn that went through, the entity's path is there. *)
Lemma turn_path_exists self mode e fs fs' :
  turn self mode e fs fs' true ->
  path_exists fs' (_construct_directory_path self e) = true.
Proof.
  assert (Hmk : forall fs1, mkdir_parents (_construct_directory_path self e) fs
                            = Some fs1 ->
                path_exists fs1 (_construct_directory_path self e) = true).
  { intros fs1 Hm. apply mkdir_parents_is_dir in Hm; [|discriminate].
    unfold path_exists. rewrite Hm. reflexivity. }
  inversion 1; subst.
  - match goal with
    | Hc : _ || negb ?b = false |- _ =>
      apply orb_false_iff in Hc as [_ Hc]; apply negb_false_iff in Hc
    end. assumption.
  - eapply Hmk; eassumption.
  - eapply path_exists_mono;
      [eapply generate_basic_files_subseteq; eassumption|].
    eapply Hmk; eassumption.
Qed.

Lemma generate_loop_subseteq mode self items : forall fs dirs files fs' r,
  generate_loop mode self items fs dirs files = (fs', r) -> fs ⊆ fs'.
Proof.
  induction items as [|[num e] rest IH]; intros fs dirs files fs' r H.
  - cbn [generate_loop] in H. injection H as <- _. reflexivity.
  - apply generate_loop_turn in H as (fs1 & ok & Ht & Hrest).
    apply turn_subseteq in Ht. destruct ok.
    + destruct Hrest as (d1 & f1 & Hrest). etransitivity; [exact Ht|].
      eapply IH, Hrest.
    + destruct Hrest as [-> _]. exact Ht.
Qed.

Lemma generate_loop_wf mode self items : forall fs dirs files fs' r,
  fs_wf fs -> generate_loop mode self items fs dirs files = (fs', r) ->
  fs_wf fs'.
Proof.
  induction items as [|[num e] rest IH]; intros fs dirs files fs' r Hwf H.
  - cbn [generate_loop] in H. injection H as <- _. exact Hwf.
  - apply generate_loop_turn in H as (fs1 & ok & Ht & Hrest).
    apply turn_wf in Ht; [|exact Hwf]. destruct ok.
    + destruct Hrest as (d1 & f1 & Hrest). eapply IH; eassumption.
    + destruct Hrest as [-> _]. exact Ht.
Qed.

Lemma generate_loop_paths_exist mode self items : forall fs dirs files fs' out,
  generate_loop mode self items fs dirs files = (fs', Some out) ->
  forall num e, In (num, e) items ->
    path_exists fs' (_construct_directory_path self e) = true.
Proof.
  induction items as [|[num0 e0] rest IH]; intros fs dirs files fs' out H num e Hin;
    [destruct Hin|].
  apply generate_loop_turn in H as (fs1 & ok & Ht & Hrest).
  destruct ok; [|destruct Hrest as [_ [=]]].
  destruct Hrest as (d1 & f1 & Hrest).
  destruct Hin as [[= -> ->]|Hin].
  - eapply path_exists_mono; [eapply generate_loop_subseteq, Hrest|].
    eapply turn_path_exists, Ht.
  - eapply IH; eassumption.
Qed.

(** [mkdir] makes directories only. *)
Lemma mkdir_from_files rest : forall pre fs fs' q,
  mkdir_from pre rest fs = Some fs' -> fs' !! q = Some File ->
  fs !! q = Some File.
Proof.
  induction rest as [|c rest IH]; intros pre fs fs' q; cbn [mkdir_from].
  - intros [= <-]. auto.
  - destruct (fs !! (pre ++ [c])) as [[|]|] eqn:Hl;
      [apply IH|intros Hx; discriminate Hx|].
    intros Hm Hq. specialize (IH _ _ _ _ Hm Hq).
    destruct (decide (pre ++ [c] = q)) as [<-|Hne].
    + rewrite lookup_insert_eq in IH. discriminate IH.
    + rewrite lookup_insert_ne in IH by exact Hne. exact IH.
Qed.

(** A regular file found after a turn was there before it, or is a
    README. *)
Lemma turn_files self mode e fs fs' ok q :
  turn self mode e fs fs' ok -> fs' !! q = Some File ->
  fs !! q = Some File \/ last q = Some (U "README.md").
Proof.
  destruct 1; intros Hq; auto;
    try (left; eapply (mkdir_from_files _ []); eassumption).
  match goal with
  | Hg : _generate_basic_files _ _ _ = Some _ |- _ =>
    unfold _generate_basic_files, write_text in Hg;
      destruct (readme_text_builds e); [|discriminate Hg];
      destruct (fs1 !! (_construct_directory_path self e ++ [U "README.md"]))
        as [[|]|]; [discriminate Hg| |];
      (destruct (is_dir fs1 _); [|discriminate Hg]); injection Hg as <-
  end;
    (destruct (decide (_construct_directory_path self e ++ [U "README.md"] = q))
      as [<-|Hne];
     [right; apply last_snoc
     |rewrite lookup_insert_ne in Hq by exact Hne;
      left; eapply (mkdir_from_files _ []); eassumption]).
Qed.

Lemma generate_loop_files mode self items : forall fs dirs files fs' r q,
  generate_loop mode self items fs dirs files = (fs', r) ->
  fs' !! q = Some File ->
  fs !! q = Some File \/ last q = Some (U "README.md").
Proof.
  induction items as [|[num e] rest IH]; intros fs dirs files fs' r q H Hq.
  - cbn [generate_loop] in H. injection H as <- _. now left.
  - apply generate_loop_turn in H as (fs1 & ok & Ht & Hrest).
    destruct ok.
    + destruct Hrest as (d1 & f1 & Hrest).
      destruct (IH _ _ _ _ _ _ Hrest Hq) as [H1|H1]; [|now right].
      eapply turn_files; eassumption.
    + destruct Hrest as [-> _]. eapply turn_files; eassumption.
Qed.

(** In full mode the turn of an entity leaves a directory at its path. *)
Lemma generate_loop_full_dirs self items : forall fs dirs files fs' out,
  generate_loop (U "full") self items fs dirs files = (fs', Some out) ->
  forall num e, In (num, e) items ->
    fs' !! _construct_directory_path self e = Some Dir.
Proof.
  induction items as [|[num0 e0] rest IH];
    intros fs dirs files fs' out H num e Hin; [destruct Hin|].
  apply generate_loop_turn in H as (fs1 & ok & Ht & Hrest).
  destruct ok; [|destruct Hrest as [_ [=]]].
  destruct Hrest as (d1 & f1 & Hrest).
  destruct Hin as [[= -> ->]|Hin]; [|eapply IH; eassumption].
  eapply lookup_weaken; [|eapply generate_loop_subseteq, Hrest].
  assert (Hmk : forall fsa, mkdir_parents (_construct_directory_path self e) fs
                            = Some fsa ->
                fsa !! _construct_directory_path self e = Some Dir)
    by (intros fsa Hm; apply mkdir_parents_is_dir in Hm;
        [exact Hm|discriminate]).
  inversion Ht; subst.
  - match goal with
    | Hc : bool_decide _ || _ = false |- _ =>
      rewrite bool_decide_eq_true_2 in Hc by reflexivity; discriminate Hc
    end.
  - eapply Hmk; eassumption.
  - eapply lookup_weaken;
      [eapply Hmk; eassumption
      |eapply generate_basic_files_subseteq; eassumption].
Qed.

(** The last segment of a resolved path is the root's or the entity's
    name. *)
Lemma path_last self e :
  last (_construct_directory_path self e) = Some (U "ROMILLM_Project")
  \/ last (_construct_directory_path self e) = Some (name e).
Proof.
  unfold _construct_directory_path, path_parts.
  destruct (type e).
  - right. reflexivity.
  - destruct (get_entity_by_number _ _); [right|left]; reflexivity.
  - destruct (2 <=? _)%nat; [|left; reflexivity].
    destruct (get_entity_by_number _ _); [|left; reflexivity].
    destruct (get_entity_by_number _ _); [right|left]; reflexivity.
Qed.
(** In a directory that [mkdir] has just made, the README can be written. *)
Lemma readme_in_fresh_directory fs fs1 (dir : Path) (c : pystr) :
  fs_wf fs -> dir <> [] -> path_exists fs dir = false ->
  mkdir_parents dir fs = Some fs1 ->
  write_text (dir ++ [c]) fs1 = Some (<[dir ++ [c] := File]> fs1).
Proof.
  intros Hwf Hdir Hex Hm.
  assert (Hnone : fs !! dir = None).
  { unfold path_exists in Hex. destruct dir; [congruence|].
    destruct (fs !! _); [discriminate|reflexivity]. }
  assert (Hchild : fs1 !! (dir ++ [c]) = None).
  { rewrite (mkdir_parents_below _ _ _ _ Hm)
      by (rewrite length_app; simpl; lia).
    apply fs_wf_child_absent; assumption. }
  unfold write_text. rewrite Hchild, parent_snoc.
  rewrite (lookup_is_dir _ _ (mkdir_parents_is_dir _ _ _ Hm Hdir)).
  reflexivity.
Qed.

Lemma generate_loop_skip mode self num e rest fs dirs files :
  mode <> U "full" ->
  path_exists fs (_construct_directory_path self e) = true ->
  generate_loop mode self ((num, e) :: rest) fs dirs files
  = generate_loop mode self rest fs dirs files.
Proof.
  intros Hmode Hex. cbn [generate_loop].
  rewrite Hex, (bool_decide_eq_false_2 _ Hmode).
  destruct (type_in (type e) [domain; object; layer]); reflexivity.
Qed.

(** Running the loop again on the file system it produced changes
    nothing: either it runs through without creating anything, or it
    stops at the same failing [mkdir]. *)
Lemma generate_loop_rerun mode self items :
  mode <> U "full" ->
  forall fs dirs files fs1 r1,
    fs_wf fs ->
    (forall num e, In (num, e) items -> readme_text_builds e = true) ->
    generate_loop mode self items fs dirs files = (fs1, r1) ->
    forall dirs' files', exists r2,
      generate_loop mode self items fs1 dirs' files' = (fs1, r2)
      /\ (r2 = None \/ r2 = Some (dirs', files')).
Proof.
  intros Hmode.
  induction items as [|[num e] rest IH];
    intros fs dirs files fs1 r1 Hwf Hreadme H dirs' files'.
  - cbn [generate_loop] in *. injection H as <- _. eauto.
  - apply generate_loop_turn in H as (fs_mid & ok & Ht & Hrest).
    destruct ok.
    + destruct Hrest as (d1 & f1 & Hrest).
      rewrite generate_loop_skip; [|exact Hmode|].
      * eapply IH; [eapply turn_wf; eassumption| |exact Hrest].
        intros n' e' Hin. eapply Hreadme. right. exact Hin.
      * eapply path_exists_mono; [eapply generate_loop_subseteq, Hrest|].
        eapply turn_path_exists, Ht.
    + destruct Hrest as [-> ->].
      inversion Ht as [| Hc Hm | | fsa Hc Hm Hty Hg |]; subst.
      * exists None. split; [|now left].
        cbn [generate_loop]. rewrite Hc, Hm.
        replace (type_in (type e) [domain; object; layer]) with true
          by (destruct (type e); reflexivity).
        reflexivity.
      * exfalso.
        rewrite (bool_decide_eq_false_2 _ Hmode) in Hc. simpl in Hc.
        apply negb_true_iff in Hc.
        unfold _generate_basic_files in Hg.
        rewrite (Hreadme num e) in Hg by now left.
        rewrite (readme_in_fresh_directory fs fs_mid) in Hg;
          [discriminate|exact Hwf|discriminate|exact Hc|exact Hm].
Qed.
End GeneratorFacts.

(** ** C1: the sample line *)

(** C1, on the code: the sample line parses to an Object numbered "4.2"
    at level 2, but its name is "Processing_Router____________comment",
    not "Processing_Router".  Normalisation maps every character outside
    the word class to one underscore, position by position, and then
    trims underscores at both ends; nothing is removed or collapsed, so
    the decoration after the label stays in the name. *)
Theorem C1_sample_line_entity `{UD : UnicodeData} :
  _parse_ascii_line sample_line 1 [] =
  Some {| name := U "Processing_Router____________comment";
          type := object;
          number := U "4.2";
          level := 2;
          parent_path := [];
          classification := [];
          ascii_line := sample_line |}
  /\ forall raw : pystr,
      clean_name raw =
      strip_chars (U "_") (map (fun c => if Re.word c then c else 95) raw).
Proof.
  split; [apply parse_sample_line|].
  intros raw. unfold clean_name. change (U "_") with [95].
  rewrite sub_class_as_map. f_equal. apply map_ext. intros c.
  destruct (Re.word c); simpl; [reflexivity|].
  destruct (N.eqb_spec c 95); simpl; congruence.
Qed.

(** No entity named "Processing_Router" comes out of the sample line. *)
Lemma sample_name_keeps_comment :
  ~ exists e, @_parse_ascii_line basic_latin sample_line 1 [] = Some e
              /\ name e = U "Processing_Router"
              /\ type e = object /\ number e = U "4.2" /\ level e = 2%Z.
Proof.
  intros (e & He & Hname & _).
  rewrite parse_sample_line in He. injection He as <-.
  vm_compute in Hname. discriminate Hname.
Qed.

(** ** C2: removal *)

(** C2, at the failing input: removing "Beta" from the five-line tree
    takes its own line, its Layer line, the sibling Object "Gamma" and
    the next Domain "Delta"; only the first line is left. *)
Theorem C2_remove_takes_later_siblings :
  @remove_entity_from_holy_tree basic_latin (U "Beta") (U "preserve")
    (server_on sibling_tree ∅)
  = (server_on (U "├── 1 📁 Alpha/") ∅, Removed (U "Beta") 4 Preserved).
Proof. vm_compute. reflexivity. Qed.

(** ** C3: full mode *)

(** Generation never removes or changes a node, whatever the mode. *)
Lemma generate_keeps_every_node `{UD : UnicodeData} mode tree_file self fs :
  fs ⊆ snd (fst (generate_project_from_holy_tree mode tree_file self fs)).
Proof.
  unfold generate_project_from_holy_tree.
  destruct (bool_decide (mode = U "validate")).
  - destruct (validate_project_structure tree_file self fs). reflexivity.
  - destruct (parse_holy_tree tree_file self) as [self' pr].
    destruct (negb (parsed_successfully pr)); [reflexivity|].
    destruct (generate_loop mode self' (entities self') fs [] [])
      as [fs' [[dirs files]|]] eqn:Hl; simpl;
      eapply generate_loop_subseteq, Hl.
Qed.

(** C3, at the failing input: a directory lying in the generation root
    before a "full" run is still there after it. *)
Theorem C3_full_mode_keeps_stale_directory :
  let '(_, fs', r) :=
    @generate_project_from_holy_tree basic_latin (U "full") (Some small_tree)
      new_parser stale_disk in
  generate_succeeded r = true /\ fs' !! stale_path = Some Dir.
Proof. vm_compute. split; reflexivity. Qed.

(** ** C4: which entities get a directory *)

(** C4, as amended: generation never looks at the classification, which
    is empty for every parsed entity; after a run that reports success
    every entity of the graph, Layers included, has its resolved path
    on disk, and the path is a directory unless a regular file stood
    there before the run - which only a run outside full mode leaves in
    place: it skips every path that exists. *)
Theorem C4_every_entity_path_on_disk `{UD : UnicodeData}
        (mode : pystr) (tree_file : option pystr) (self : HolyTreeParser)
        (fs : gmap Path node) (num : pystr) (e : HolyTreeEntity) :
  let run := generate_project_from_holy_tree mode tree_file self fs in
  generate_succeeded (snd run) = true ->
  In (num, e) (entities (fst (fst run))) ->
  classification e = []
  /\ path_exists (snd (fst run)) (_construct_directory_path (fst (fst run)) e)
     = true
  /\ (snd (fst run) !! _construct_directory_path (fst (fst run)) e = Some Dir
      \/ (mode <> U "full"
          /\ fs !! _construct_directory_path (fst (fst run)) e = Some File
          /\ snd (fst run) !! _construct_directory_path (fst (fst run)) e
             = Some File)).
Proof.
  unfold generate_project_from_holy_tree.
  destruct (bool_decide (mode = U "validate")).
  { destruct (validate_project_structure tree_file self fs) as [s r] eqn:Hv.
    unfold validate_project_structure in Hv.
    destruct (parse_holy_tree tree_file self) as [s' pr].
    destruct (negb (parsed_successfully pr));
      [|destruct (missing_directories_of s' fs)];
      injection Hv as <- <-; intros H; discriminate H. }
  destruct (parse_holy_tree tree_file self) as [self' pr] eqn:Hp.
  destruct (parsed_successfully pr) eqn:Hok; simpl negb; cbv iota;
    [|intros H; discriminate H].
  destruct (parsed_graph_shape _ _ _ _ Hp Hok) as [_ Hclass].
  assert (Hnames : forall num e, In (num, e) (entities self') ->
                                 ~ In 46 (name e)).
  { destruct tree_file as [content|];
      [|cbn [parse_holy_tree] in Hp; injection Hp as _ <-; discriminate Hok].
    apply (f_equal fst) in Hp. cbn [fst] in Hp. subst self'.
    intros num' e' Hin'. apply (parsed_names_clean _ _ _ _ Hin'). }
  destruct (generate_loop mode self' (entities self') fs [] [])
    as [fs' [[dirs files]|]] eqn:Hl; [|intros H; discriminate H].
  cbn [fst snd]. intros _ Hin. split; [eapply Hclass, Hin|].
  pose proof (generate_loop_paths_exist _ _ _ _ _ _ _ _ Hl _ _ Hin) as Hex.
  split; [exact Hex|].
  set (p := _construct_directory_path self' e) in *.
  assert (Hp0 : p <> []) by (subst p; discriminate).
  unfold path_exists in Hex. destruct p as [|c p'] eqn:Hpe; [congruence|].
  rewrite <- Hpe in *.
  destruct (fs' !! p) as [[|]|] eqn:Hnode; [now left| |discriminate Hex].
  right.
  destruct (generate_loop_files _ _ _ _ _ _ _ _ _ Hl Hnode) as [Hold|Hreadme].
  - split; [|split; [exact Hold|reflexivity]].
    intros ->.
    pose proof (generate_loop_full_dirs _ _ _ _ _ _ _ Hl _ _ Hin) as Hd.
    fold p in Hd. rewrite Hpe, <- Hpe in Hd. congruence.
  - exfalso. subst p.
    destruct (path_last self' e) as [Hlast|Hlast];
      rewrite Hlast in Hreadme.
    + vm_compute in Hreadme. discriminate Hreadme.
    + injection Hreadme as Hname. apply (Hnames _ _ Hin).
      rewrite Hname. vm_compute. do 6 right. left. reflexivity.
Qed.

Lemma C4_every_entity_path_on_disk_witness :
  path_exists (snd (fst small_run)) config_layer_path = true.
Proof.
  refine (proj1 (proj2 (@C4_every_entity_path_on_disk basic_latin
                          (U "incremental") (Some small_tree) new_parser ∅
                          (U "4.2.1")
                          {| name := U "Config"; type := layer;
                             number := U "4.2.1"; level := 3;
                             parent_path := U "4/4.2"; classification := [];
                             ascii_line := U "│   │   ├── 4.2.1 Config/" |}
                          _ _))).
  - vm_compute. reflexivity.
  - vm_compute. right. right. left. reflexivity.
Defined.

(** C4 as stated fails: the Layer "4.2.1", whose classification carries
    no flag at all, gets the directory
    ROMILLM_Project/Routing_Engine/Processing_Router/Config. *)
Lemma C4_layer_directory_is_created :
  exists e dirs files n,
    dict_get (entities (fst (fst small_run))) (U "4.2.1") = Some e
    /\ type e = layer
    /\ classification e = []
    /\ _construct_directory_path (fst (fst small_run)) e = config_layer_path
    /\ (∅ : gmap Path node) !! config_layer_path = None
    /\ snd (fst small_run) !! config_layer_path = Some Dir
    /\ snd small_run = Generated (U "incremental") dirs files n
    /\ In config_layer_path dirs.
Proof.
  vm_compute. do 4 eexists.
  repeat (split; [reflexivity|]).
  right. right. left. reflexivity.
Qed.

(** Where a regular file already stands at the Layer's path, a run
    outside full mode reports success, creates nothing and leaves the
    file; a full run stops at it. *)
Lemma file_at_layer_path_is_kept :
  (let '(_, fs', r) :=
     @generate_project_from_holy_tree basic_latin (U "incremental")
       (Some small_tree) new_parser file_at_layer_disk in
   generate_succeeded r = true /\ directories_list r = []
   /\ fs' !! config_layer_path = Some File)
  /\ (let '(_, fs', r) :=
        @generate_project_from_holy_tree basic_latin (U "full")
          (Some small_tree) new_parser file_at_layer_disk in
      generate_succeeded r = false /\ fs' !! config_layer_path = Some File).
Proof. vm_compute. repeat split. Qed.

(** ** C5 and C6: the validator *)

(** C5, on the code: as soon as the graph holds one level-1 entity the
    validator raises [AttributeError] and returns no report. *)
Theorem C5_validate_raises_with_level1_entity `{UD : UnicodeData}
        (self : HolyTreeParser) (num : pystr) (e : HolyTreeEntity) :
  In (num, e) (entities self) -> level e = 1%Z ->
  validate_holy_tree_structure self = inl AttributeError.
Proof.
  intros Hin Hlevel. unfold validate_holy_tree_structure.
  assert (Hd : In e (get_entities_by_level self 1)).
  { unfold get_entities_by_level. apply filter_In. split.
    - apply in_map_iff. exists (num, e). auto.
    - apply Z.eqb_eq, Hlevel. }
  destruct (get_entities_by_level self 1) as [|e0 rest]; [destruct Hd|].
  reflexivity.
Qed.

Lemma C5_validate_raises_with_level1_entity_witness :
  @validate_holy_tree_structure basic_latin (parsed one_domain_tree)
  = inl AttributeError.
Proof.
  apply (@C5_validate_raises_with_level1_entity basic_latin
           (parsed one_domain_tree) (U "1")
           {| name := U "Alpha"; type := domain; number := U "1"; level := 1;
              parent_path := []; classification := [];
              ascii_line := one_domain_tree |}).
  - vm_compute. left. reflexivity.
  - reflexivity.
Defined.

(** The example of the specification: one orphan Layer, one issue, 90. *)
Lemma validate_orphan_layer `{UD : UnicodeData} :
  validate_holy_tree_structure (parsed orphan_layer_tree)
  = inr {| valid := false;
           issues := [U "Missing parent for 4.2.1: parent 4.2 not found"];
           integrity_score := U "90%" |}.
Proof. vm_compute. reflexivity. Qed.

(** C6, at the failing input: eleven entities without parent give
    eleven issues and the score "-10%". *)
Theorem C6_eleven_orphans_score_negative `{UD : UnicodeData} :
  exists r,
    validate_holy_tree_structure (parsed eleven_orphans_tree) = inr r
    /\ valid r = false
    /\ length (issues r) = 11%nat
    /\ integrity_score r = U "-10%".
Proof. vm_compute. eexists. repeat split. Qed.

(** ** C7 and C8: path resolution against the validator *)

Lemma path_parts_of_miss (self : HolyTreeParser) (e : HolyTreeEntity) :
  ancestor_lookup_misses self e = true -> path_parts self e = [].
Proof.
  unfold ancestor_lookup_misses, path_parts, get_entity_by_number, dict_mem.
  destruct (type e); [discriminate| |].
  - destruct (dict_get (entities self) (hd [] (split 46 (number e))));
      [discriminate|reflexivity].
  - destruct (2 <=? length (split 46 (number e)))%nat; [|reflexivity].
    destruct (dict_get (entities self) (hd [] (split 46 (number e))));
      [|reflexivity].
    destruct (dict_get (entities self) (join (U ".") (take 2 (split 46 (number e)))));
      [discriminate|reflexivity].
Qed.

Lemma missing_parent_is_miss (self : HolyTreeParser) (e : HolyTreeEntity) :
  parent_is_looked_up e = true ->
  missing_parent (entities self) (number e) e = true ->
  ancestor_lookup_misses self e = true.
Proof.
  unfold parent_is_looked_up, missing_parent, ancestor_lookup_misses,
    parent_number, all_but_last.
  change (U ".") with [46].
  intros Hshape Hmiss. apply andb_true_iff in Hmiss as [_ Hmiss].
  destruct (split 46 (number e)) as [|a [|b [|c [|d parts]]]];
    destruct (type e); simpl in *; try discriminate; try exact Hmiss.
  - rewrite Hmiss. reflexivity.
  - rewrite Hmiss. apply orb_true_r.
Qed.

(** C7, as amended: when an ancestor lookup misses, and in particular
    whenever the validator's missing-parent condition holds for an
    Object with two components or a Layer with two or three, resolution
    does not raise and returns the generation root itself, with no
    segment below it. *)
Theorem C7_missing_ancestor_resolves_to_root
        (self : HolyTreeParser) (e : HolyTreeEntity) :
  ancestor_lookup_misses self e = true
  \/ (parent_is_looked_up e = true
      /\ missing_parent (entities self) (number e) e = true) ->
  ancestor_lookup_misses self e = true
  /\ _construct_directory_path self e = project_root.
Proof.
  intros H.
  assert (Hmiss : ancestor_lookup_misses self e = true).
  { destruct H as [H|[Hs Hm]]; [exact H|]. apply missing_parent_is_miss; auto. }
  split; [exact Hmiss|].
  unfold _construct_directory_path. rewrite (path_parts_of_miss _ _ Hmiss).
  apply app_nil_r.
Qed.

Lemma C7_missing_ancestor_resolves_to_root_witness :
  exists e,
    dict_get (entities (parsed orphan_layer_tree)) (U "4.2.1") = Some e
    /\ ancestor_lookup_misses (parsed orphan_layer_tree) e = true
    /\ _construct_directory_path (parsed orphan_layer_tree) e = project_root.
Proof.
  eexists. split; [vm_compute; reflexivity|].
  apply C7_missing_ancestor_resolves_to_root.
  right. split; vm_compute; reflexivity.
Defined.

(** C7 as stated fails: for the Layer "4.2.1" under an Object "4.2"
    without Domain "4" the lookup misses although the validator has no
    missing-parent issue for it; the resolver hands back the root, which
    generation then creates as the entity's directory. *)
Lemma C7_lookup_miss_without_missing_parent :
  exists e,
    dict_get (entities (parsed domainless_tree)) (U "4.2.1") = Some e
    /\ ancestor_lookup_misses (parsed domainless_tree) e = true
    /\ missing_parent (entities (parsed domainless_tree)) (U "4.2.1") e = false
    /\ _construct_directory_path (parsed domainless_tree) e = project_root
    /\ snd (fst (@generate_project_from_holy_tree basic_latin (U "incremental")
                   (Some domainless_tree) new_parser ∅)) !! project_root
       = Some Dir.
Proof. vm_compute. eexists. repeat split. Qed.

(** C8, as amended: in a graph keyed by number with levels counting the
    components, an entity whose kind matches its level (Domain 1,
    Object 2, Layer 3) and that has no missing-parent issue, neither
    itself nor its parent, resolves to exactly as many segments below
    the root as its level. *)
Theorem C8_path_length_matches_level
        (self : HolyTreeParser) (num : pystr) (e : HolyTreeEntity) :
  graph_shape (entities self) ->
  In (num, e) (entities self) ->
  kind_matches_level e ->
  no_reachable_issue (entities self) num e ->
  Z.of_nat (length (path_parts self e)) = level e.
Proof.
  intros Hshape Hin Hkind [Hown Hparent].
  destruct (Hshape _ _ Hin) as [Hnum Hlevel].
  unfold kind_matches_level in Hkind.
  unfold path_parts, get_entity_by_number. rewrite Hnum.
  pose proof (split_fields_free 46 num) as Hfree.
  unfold missing_parent, parent_number, all_but_last in Hown, Hparent.
  change (U ".") with [46] in *.
  destruct (type e).
  - simpl. lia.
  - rewrite Hkind in Hlevel, Hown.
    destruct (split 46 num) as [|a [|b [|c parts]]]; simpl in Hlevel; try lia.
    simpl in Hown. apply negb_false_iff in Hown.
    apply dict_mem_get in Hown as [d Hd]. simpl. rewrite Hd. simpl. lia.
  - rewrite Hkind in Hlevel, Hown.
    destruct (split 46 num) as [|a [|b [|c [|x parts]]]]; simpl in Hlevel;
      try lia.
    simpl in Hown. apply negb_false_iff in Hown.
    apply dict_mem_get in Hown as [o Ho].
    assert (Hab : split 46 (a ++ 46 :: b) = [a; b]).
    { inversion Hfree as [|? ? Ha Hfree']; subst.
      inversion Hfree' as [|? ? Hb _]; subst.
      apply (split_join 46 [a; b]); [discriminate|].
      repeat constructor; assumption. }
    specialize (Hparent o Ho).
    destruct (Hshape _ _ (dict_get_In _ _ _ Ho)) as [_ Hlo].
    simpl in Hparent, Hlo. rewrite Hab in Hparent, Hlo. simpl in Hparent, Hlo.
    rewrite Hlo in Hparent. simpl in Hparent.
    apply negb_false_iff in Hparent.
    apply dict_mem_get in Hparent as [d Hd].
    simpl. rewrite Hd, Ho. simpl. lia.
Qed.

Lemma C8_path_length_matches_level_witness :
  Z.of_nat (length (path_parts (parsed small_tree)
                      {| name := U "Config"; type := layer; number := U "4.2.1";
                         level := 3; parent_path := U "4/4.2";
                         classification := [];
                         ascii_line := U "│   │   ├── 4.2.1 Config/" |}))
  = 3%Z.
Proof.
  apply (C8_path_length_matches_level (parsed small_tree) (U "4.2.1")).
  - intros num e Hin. vm_compute in Hin.
    destruct Hin as [[= <- <-]|[[= <- <-]|[[= <- <-]|[]]]];
      split; reflexivity.
  - vm_compute. right. right. left. reflexivity.
  - reflexivity.
  - split; [vm_compute; reflexivity|].
    intros p Hp. vm_compute in Hp. injection Hp as <-. vm_compute. reflexivity.
Defined.

(** C8 as stated fails: the Layer "4.2" (a line without folder sign
    under Domain "4") has level 2 and the graph has no missing-parent
    issue, yet it resolves to three segments. *)
Lemma C8_level2_layer_resolves_to_three_segments :
  exists e,
    dict_get (entities (parsed flat_note_tree)) (U "4.2") = Some e
    /\ type e = layer
    /\ level e = 2%Z
    /\ missing_parent_issues (entities (parsed flat_note_tree))
                             (entities (parsed flat_note_tree)) = []
    /\ path_parts (parsed flat_note_tree) e
       = [U "Routing_Engine"; U "Notes"; U "Notes"].
Proof. vm_compute. eexists. repeat split. Qed.

(** ** C9: incremental generation run twice *)

Lemma fs_wf_empty : fs_wf ∅.
Proof. intros p [n Hn]. rewrite lookup_empty in Hn. discriminate Hn. Qed.

Section IncrementalRuns.
Context `{UD : UnicodeData}.

Lemma generate_incremental_readable content self fs :
  generate_project_from_holy_tree (U "incremental") (Some content) self fs
  = let self1 := fst (parse_holy_tree (Some content) self) in
    match generate_loop (U "incremental") self1 (entities self1) fs [] [] with
    | (fs', Some (dirs, files)) =>
      (self1, fs',
       Generated (U "incremental") dirs files
         (Z.of_nat (length (List.filter
                              (fun kv => project_structure_flag (snd kv))
                              (entities self1)))))
    | (fs', None) => (self1, fs', GenerateError)
    end.
Proof.
  unfold generate_project_from_holy_tree.
  replace (bool_decide (U "incremental" = U "validate")) with false
    by (vm_compute; reflexivity).
  reflexivity.
Qed.

Lemma generate_incremental_unreadable self fs :
  generate_project_from_holy_tree (U "incremental") None self fs
  = (self, fs, GenerateParseFailed).
Proof.
  unfold generate_project_from_holy_tree.
  replace (bool_decide (U "incremental" = U "validate")) with false
    by (vm_compute; reflexivity).
  reflexivity.
Qed.
End IncrementalRuns.

(** C9: on any text and any file system in which every node sits in a
    directory, a second incremental run right after the first leaves the
    file system as the first run left it and reports no directory and no
    file created; the first run itself changes no node that was there. *)
Theorem C9_incremental_generation_idempotent `{UD : UnicodeData}
        (tree_file : option pystr) (self : HolyTreeParser)
        (fs : gmap Path node) :
  fs_wf fs ->
  let run1 :=
    generate_project_from_holy_tree (U "incremental") tree_file self fs in
  let run2 :=
    generate_project_from_holy_tree (U "incremental") tree_file
      (fst (fst run1)) (snd (fst run1)) in
  fs ⊆ snd (fst run1)
  /\ snd (fst run2) = snd (fst run1)
  /\ forall m dirs files n,
      snd run2 = Generated m dirs files n -> dirs = [] /\ files = [].
Proof.
  intros Hwf run1 run2.
  split; [apply generate_keeps_every_node|].
  subst run1 run2.
  destruct tree_file as [content|].
  2:{ rewrite !generate_incremental_unreadable. cbn [fst snd].
      rewrite ?generate_incremental_unreadable. cbn [fst snd].
      split; [reflexivity|]. intros m dirs files n H. discriminate H. }
  rewrite (generate_incremental_readable content self fs). cbv zeta.
  destruct (parse_holy_tree (Some content) self) as [self1 pr] eqn:Hp.
  assert (Hok : parsed_successfully pr = true).
  { unfold parse_holy_tree in Hp. injection Hp as _ <-. reflexivity. }
  assert (Hself1 : forall s, fst (parse_holy_tree (Some content) s) = self1).
  { intros s. unfold parse_holy_tree in *. injection Hp as <- _. reflexivity. }
  destruct (parsed_graph_shape _ _ _ _ Hp Hok) as [_ Hclass].
  cbn [fst].
  destruct (generate_loop (U "incremental") self1 (entities self1) fs [] [])
    as [fs1 r1] eqn:Hl.
  assert (Hreadme : forall num e, In (num, e) (entities self1) ->
                                  readme_text_builds e = true).
  { intros num e Hin. unfold readme_text_builds.
    rewrite (Hclass _ _ Hin). destruct (type e); reflexivity. }
  assert (Hmode : U "incremental" <> U "full") by (vm_compute; discriminate).
  destruct (generate_loop_rerun _ _ _ Hmode _ _ _ _ _ Hwf Hreadme Hl [] [])
    as (r2 & Hl2 & Hr2).
  assert (Hrun2 :
            generate_project_from_holy_tree (U "incremental") (Some content)
              self1 fs1
            = match r2 with
              | Some (dirs, files) =>
                (self1, fs1,
                 Generated (U "incremental") dirs files
                   (Z.of_nat (length (List.filter
                                        (fun kv => project_structure_flag (snd kv))
                                        (entities self1)))))
              | None => (self1, fs1, GenerateError)
              end).
  { rewrite generate_incremental_readable. cbv zeta.
    rewrite (Hself1 self1), Hl2. reflexivity. }
  destruct r1 as [[dirs1 files1]|]; cbn [fst snd]; rewrite Hrun2;
    destruct Hr2 as [-> | ->]; cbn [fst snd];
    (split; [reflexivity|]); intros m dirs files n H;
    try discriminate H; injection H as _ <- <- _; auto.
Qed.

Lemma C9_incremental_generation_idempotent_witness :
  snd (fst (@generate_project_from_holy_tree basic_latin (U "incremental")
              (Some small_tree) (fst (fst small_run)) (snd (fst small_run))))
  = snd (fst small_run).
Proof.
  exact (proj1 (proj2 (@C9_incremental_generation_idempotent basic_latin
                         (Some small_tree) new_parser ∅ fs_wf_empty))).
Defined.

(** ** C10: insertion under an unknown domain *)

Section InsertFacts.
Context `{UD : UnicodeData}.

Lemma find_prefix_line_absent domain_name proposed_number lines :
  (forall line, In line lines -> contains line domain_name = false) ->
  forall i, find_prefix_line domain_name proposed_number lines i = inr (-1)%Z.
Proof.
  induction lines as [|line rest IH]; intros Habs i; [reflexivity|].
  cbn [find_prefix_line].
  destruct (contains line (domain_name ++ U "/")) eqn:Hc.
  - apply contains_app_l in Hc. rewrite Habs in Hc by now left. discriminate.
  - apply IH. intros l Hl. apply Habs. now right.
Qed.

Lemma find_domain_start_absent domain_name lines :
  (forall line, In line lines -> contains line domain_name = false) ->
  forall i, find_domain_start domain_name lines i = (-1)%Z.
Proof.
  induction lines as [|line rest IH]; intros Habs i; [reflexivity|].
  cbn [find_domain_start].
  destruct (contains line (domain_name ++ U "/")) eqn:Hc.
  - apply contains_app_l in Hc. rewrite Habs in Hc by now left. discriminate.
  - apply IH. intros l Hl. apply Habs. now right.
Qed.
End InsertFacts.

(** C10: with the three required fields non-empty and the domain name
    in no line of the readable canonical text, [add_entity_to_holy_tree]
    falls off its end: it returns [None], no result dictionary, and the
    text, the parser and the disk are as before. *)
Theorem C10_unknown_domain_returns_none `{UD : UnicodeData}
        (cfg : entity_config) (self : HolyTreeMCPServer) (content : pystr) :
  default [] (cfg_entity_name cfg) <> [] ->
  default [] (cfg_domain cfg) <> [] ->
  default [] (cfg_proposed_number cfg) <> [] ->
  tree_file self = Some content ->
  (forall line, In line (split 10 content) ->
                contains line (default [] (cfg_domain cfg)) = false) ->
  add_entity_to_holy_tree cfg self = (self, None).
Proof.
  intros Hname Hdomain Hnumber Hfile Habs.
  unfold add_entity_to_holy_tree.
  destruct (default [] (cfg_entity_name cfg)) as [|c1 n1]; [congruence|].
  destruct (default [] (cfg_proposed_number cfg)) as [|c3 n3]; [congruence|].
  destruct (default [] (cfg_domain cfg)) as [|c2 n2] eqn:Hd; [congruence|].
  cbn [is_empty orb]. rewrite Hfile.
  rewrite (find_prefix_line_absent _ _ _ Habs).
  cbn [Z.eqb Pos.eqb]. rewrite (find_domain_start_absent _ _ Habs).
  reflexivity.
Qed.

Lemma C10_unknown_domain_returns_none_witness :
  @add_entity_to_holy_tree basic_latin unknown_domain_config
    (server_on sibling_tree ∅)
  = (server_on sibling_tree ∅, None).
Proof.
  apply (@C10_unknown_domain_returns_none basic_latin unknown_domain_config
           (server_on sibling_tree ∅) sibling_tree).
  - vm_compute. discriminate.
  - vm_compute. discriminate.
  - vm_compute. discriminate.
  - reflexivity.
  - intros line Hin. vm_compute in Hin.
    destruct Hin as [<-|[<-|[<-|[<-|[<-|[]]]]]]; vm_compute; reflexivity.
Defined.

(** * Further properties of the code *)

(** ** Names and numbers *)

(** X1: every name the parser produces is non-empty, made of word
    characters only, and neither starts nor ends with an underscore; so
    it holds no path separator and no dot. *)
Theorem X1_parsed_name_is_one_clean_component `{UD : UnicodeData}
        (line : pystr) (n : Z) (cp : list pystr) (e : HolyTreeEntity) :
  _parse_ascii_line line n cp = Some e ->
  name e <> []
  /\ Forall (fun c => Re.word c = true) (name e)
  /\ head (name e) <> Some 95
  /\ last (name e) <> Some 95
  /\ ~ In 47 (name e) /\ ~ In 46 (name e).
Proof.
  intros H.
  destruct (parse_line_fields _ _ _ _ H) as (_ & _ & _ & Hne & _).
  destruct (parse_line_origin _ _ _ _ H) as [[raw Hraw] _].
  assert (Hw : Forall (fun c => Re.word c = true) (name e))
    by (rewrite Hraw; apply clean_name_word).
  assert (Hends : (head (clean_name raw) = Some 95 ->
                   existsb (N.eqb 95) (U "_") = false)
                  /\ (last (clean_name raw) = Some 95 ->
                      existsb (N.eqb 95) (U "_") = false))
    by apply (strip_by_ends (fun c => existsb (N.eqb c) (U "_"))).
  rewrite <- Hraw in Hends. destruct Hends as [Hh Hl].
  repeat split; auto.
  - intros Hc. specialize (Hh Hc). discriminate Hh.
  - intros Hc. specialize (Hl Hc). discriminate Hl.
  - intros Hin. rewrite List.Forall_forall in Hw. specialize (Hw _ Hin).
    discriminate Hw.
  - intros Hin. rewrite List.Forall_forall in Hw. specialize (Hw _ Hin).
    discriminate Hw.
Qed.

Lemma X1_parsed_name_is_one_clean_component_witness :
  ~ In 47 (name {| name := U "Processing_Router____________comment";
                   type := object; number := U "4.2"; level := 2;
                   parent_path := []; classification := [];
                   ascii_line := sample_line |}).
Proof.
  refine (proj1 (proj2 (proj2 (proj2 (proj2
            (@X1_parsed_name_is_one_clean_component basic_latin sample_line 1
               [] _ _)))))).
  vm_compute. reflexivity.
Defined.

(** X2: in the graph read from any text, every entity is stored under
    its own number; the number is made of decimal digits and dots; the
    level is the count of its dot-separated components and at least 1; a
    Domain has one component, an Object at least two; the classification
    is empty. *)
Theorem X2_parsed_graph_numbering `{UD : UnicodeData}
        (content : pystr) (self : HolyTreeParser) (num : pystr)
        (e : HolyTreeEntity) :
  In (num, e) (entities (fst (parse_holy_tree (Some content) self))) ->
  number e = num
  /\ Forall digit_or_dot num
  /\ level e = Z.of_nat (length (split 46 num))
  /\ (1 <= level e)%Z
  /\ (type e = domain -> level e = 1%Z)
  /\ (type e = object -> (2 <= level e)%Z)
  /\ classification e = [].
Proof.
  cbn [parse_holy_tree fst entities].
  revert num e.
  apply (parse_lines_invariant
           (fun num e =>
              number e = num
              /\ Forall digit_or_dot num
              /\ level e = Z.of_nat (length (split 46 num))
              /\ (1 <= level e)%Z
              /\ (type e = domain -> level e = 1%Z)
              /\ (type e = object -> (2 <= level e)%Z)
              /\ classification e = [])).
  - intros line n cp e He.
    destruct (parse_line_fields _ _ _ _ He) as (Hc & Hl & _ & _ & Hd & Ho).
    destruct (parse_line_origin _ _ _ _ He) as [_ Hn].
    repeat split; auto.
    rewrite Hl. destruct (split 46 (number e)) eqn:Hs; [|simpl; lia].
    destruct (number e) as [|c t]; simpl in Hs; [discriminate|].
    destruct (c =? 46); [discriminate|]. destruct (split 46 t); discriminate.
  - intros ? ? [].
Qed.

Lemma X2_parsed_graph_numbering_witness :
  Forall (@digit_or_dot basic_latin) (U "4.2.1").
Proof.
  refine (proj1 (proj2 (@X2_parsed_graph_numbering basic_latin small_tree
                          new_parser (U "4.2.1")
                          {| name := U "Config"; type := layer;
                             number := U "4.2.1"; level := 3;
                             parent_path := U "4/4.2"; classification := [];
                             ascii_line := U "│   │   ├── 4.2.1 Config/" |}
                          _))).
  vm_compute. right. right. left. reflexivity.
Defined.

(** ** Dictionaries: keys and lookups *)

Section MoreDictFacts.
Context {V : Type}.
Implicit Types (d : list (pystr * V)) (k : pystr) (v : V).

Lemma dict_get_set_eq d k v : dict_get (dict_set d k v) k = Some v.
Proof.
  induction d as [|[k' v'] d IH]; simpl.
  - rewrite bool_decide_eq_true_2 by reflexivity. reflexivity.
  - case_bool_decide as Hk; simpl.
    + rewrite bool_decide_eq_true_2 by exact Hk. reflexivity.
    + rewrite bool_decide_eq_false_2 by exact Hk. exact IH.
Qed.

Lemma dict_get_set_ne d k k' v :
  k' <> k -> dict_get (dict_set d k v) k' = dict_get d k'.
Proof.
  intros Hne. induction d as [|[k0 v0] d IH]; simpl.
  - rewrite bool_decide_eq_false_2 by congruence. reflexivity.
  - case_bool_decide as Hk; simpl.
    + subst k0. rewrite !bool_decide_eq_false_2 by congruence. reflexivity.
    + case_bool_decide; [reflexivity|exact IH].
Qed.

Lemma dict_set_keys d k v :
  map fst (dict_set d k v)
  = if dict_mem d k then map fst d else map fst d ++ [k].
Proof.
  unfold dict_mem. induction d as [|[k' v'] d IH]; simpl; [reflexivity|].
  case_bool_decide as Hk; simpl; [reflexivity|].
  rewrite IH. destruct (dict_get d k); reflexivity.
Qed.

Lemma dict_get_None_keys d k : dict_get d k = None -> ~ In k (map fst d).
Proof.
  induction d as [|[k' v'] d IH]; simpl; [tauto|].
  case_bool_decide as Hk; [discriminate|]. intros H [E|Hin]; [congruence|].
  exact (IH H Hin).
Qed.

Lemma dict_set_NoDup d k v :
  List.NoDup (map fst d) -> List.NoDup (map fst (dict_set d k v)).
Proof.
  intros Hnd. rewrite dict_set_keys. unfold dict_mem.
  destruct (dict_get d k) eqn:Hg; [exact Hnd|].
  apply List.NoDup_app; [exact Hnd|repeat constructor; intros []|].
  intros x Hx [<-|[]]. exact (dict_get_None_keys _ _ Hg Hx).
Qed.

Lemma dict_set_length d k v : (length (dict_set d k v) <= S (length d))%nat.
Proof.
  rewrite <- (length_map fst (dict_set d k v)), dict_set_keys.
  destruct (dict_mem d k); rewrite ?length_app, length_map; simpl; lia.
Qed.

Lemma dict_In_get d k v :
  List.NoDup (map fst d) -> In (k, v) d -> dict_get d k = Some v.
Proof.
  induction d as [|[k' v'] d IH]; simpl; [tauto|].
  intros Hnd [E|Hin].
  - injection E as -> ->. rewrite bool_decide_eq_true_2 by reflexivity.
    reflexivity.
  - inversion Hnd as [|? ? Hnot Hnd']; subst.
    case_bool_decide as Hk; [|apply IH; assumption].
    subst k'. exfalso. apply Hnot. apply in_map_iff. exists (k, v). auto.
Qed.
End MoreDictFacts.

Section GraphFacts.
Context `{UD : UnicodeData}.

Lemma parse_lines_keys lines : forall n ents cp,
  List.NoDup (map fst ents) ->
  List.NoDup (map fst (parse_lines lines n ents cp))
  /\ (length (parse_lines lines n ents cp) <= length ents + length lines)%nat.
Proof.
  induction lines as [|line rest IH]; intros n ents cp Hnd;
    cbn [parse_lines]; [split; [exact Hnd|lia]|].
  destruct (is_empty (strip line) || startswith (strip line) (U "#")).
  { destruct (IH (n + 1)%Z ents cp Hnd) as [H1 H2]. split; [exact H1|].
    simpl. lia. }
  destruct (_parse_ascii_line line n cp) as [entity|].
  - match goal with
    | |- context [parse_lines rest ?n' ?e' ?c'] =>
      destruct (IH n' e' c' (dict_set_NoDup _ _ _ Hnd)) as [H1 H2]
    end.
    split; [exact H1|].
    pose proof (dict_set_length ents (number entity) entity). simpl. lia.
  - destruct (IH (n + 1)%Z ents cp Hnd) as [H1 H2]. split; [exact H1|].
    simpl. lia.
Qed.

Lemma count_types_total (g : graph) :
  (count_type domain g + count_type object g + count_type layer g)%Z
  = Z.of_nat (length g).
Proof.
  unfold count_type. induction g as [|[k e] g IH]; [reflexivity|].
  cbn [List.filter snd length]. destruct (type e); cbn [entity_type_eqb length];
    lia.
Qed.

Lemma level_le_depth (g : graph) num e :
  In (num, e) g ->
  (level e <= fold_right Z.max 0%Z (map (fun kv => level (snd kv)) g))%Z.
Proof.
  induction g as [|[k x] g IH]; simpl; [tauto|].
  intros [[= -> ->]|Hin]; [lia|]. specialize (IH Hin). lia.
Qed.
End GraphFacts.

(** X3: the graph read from a text holds every number once, has at
    most one entity per line of the text, and looking a number up gives
    exactly the entity stored under it. *)
Theorem X3_parsed_graph_unique_numbers `{UD : UnicodeData}
        (content : pystr) (self : HolyTreeParser) :
  let g := entities (fst (parse_holy_tree (Some content) self)) in
  List.NoDup (map fst g)
  /\ (length g <= length (split 10 content))%nat
  /\ forall num e, get_entity_by_number
                     (fst (parse_holy_tree (Some content) self)) num = Some e
                   <-> In (num, e) g.
Proof.
  cbn [parse_holy_tree fst entities]. cbv zeta.
  destruct (parse_lines_keys (split 10 content) 1 [] [] (List.NoDup_nil _))
    as [Hnd Hlen].
  split; [exact Hnd|]. split; [simpl in Hlen; exact Hlen|].
  intros num e. unfold get_entity_by_number. cbn [entities]. split.
  - apply dict_get_In.
  - apply dict_In_get, Hnd.
Qed.

(** X4: the counts reported by a successful parse add up - entities =
    domains + objects + layers - the statistics kept by the parser hold
    the same numbers, and the reported depth bounds the level of every
    entity (it is 0 for an empty graph). *)
Theorem X4_parse_statistics_add_up `{UD : UnicodeData}
        (content : pystr) (self : HolyTreeParser) :
  exists n d o l m,
    snd (parse_holy_tree (Some content) self) = Parsed n d o l m
    /\ let self' := fst (parse_holy_tree (Some content) self) in
       n = Z.of_nat (length (entities self'))
       /\ n = (d + o + l)%Z
       /\ total_domains (stats self') = d
       /\ total_objects (stats self') = o
       /\ total_layers (stats self') = l
       /\ tree_depth (stats self') = m
       /\ (forall num e, In (num, e) (entities self') -> (level e <= m)%Z)
       /\ (entities self' = [] -> m = 0%Z).
Proof.
  cbn [parse_holy_tree fst snd]. do 5 eexists. split; [reflexivity|].
  cbv zeta. cbn [entities stats _update_statistics total_domains total_objects
                  total_layers tree_depth].
  repeat split.
  - symmetry. apply count_types_total.
  - intros num e. apply level_le_depth.
  - intros ->. reflexivity.
Qed.

(** ** The last line of a text *)

Lemma split_app_sep_both (sep : N) (a b : pystr) :
  split sep (a ++ sep :: b) = split sep a ++ split sep b.
Proof.
  induction a as [|c a IH]; simpl.
  - rewrite N.eqb_refl. reflexivity.
  - destruct (c =? sep); [rewrite IH; reflexivity|].
    rewrite IH. destruct (split sep a) as [|f fs] eqn:Hs; [|reflexivity].
    destruct a as [|c' a']; simpl in Hs; [discriminate|].
    destruct (c' =? sep); [discriminate|].
    destruct (split sep a'); discriminate.
Qed.

Section LastLine.
Context `{UD : UnicodeData}.

Lemma parse_lines_app l1 : forall l2 n ents cp,
  exists n' cp',
    parse_lines (l1 ++ l2) n ents cp
    = parse_lines l2 n' (parse_lines l1 n ents cp) cp'.
Proof.
  induction l1 as [|line rest IH]; intros l2 n ents cp; [eauto|].
  cbn [app parse_lines].
  destruct (is_empty (strip line) || startswith (strip line) (U "#"));
    [apply IH|].
  destruct (_parse_ascii_line line n cp); apply IH.
Qed.

(** Line number and current path only feed [parent_path]. *)
Lemma parse_line_context line n cp e n' cp' :
  _parse_ascii_line line n cp = Some e ->
  exists e', _parse_ascii_line line n' cp' = Some e'
             /\ number e' = number e /\ name e' = name e
             /\ type e' = type e /\ level e' = level e
             /\ ascii_line e' = line.
Proof.
  unfold _parse_ascii_line. intros H.
  repeat match type of H with
         | (if ?b then _ else _) = Some _ => destruct b eqn:?; [discriminate|]
         | match ?x with Some _ => _ | None => _ end = Some _ =>
           destruct x eqn:?; [|discriminate]
         end.
  injection H as <-. eexists. split; [reflexivity|].
  cbn [number name type level ascii_line]. repeat split.
Qed.

Lemma parse_line_not_blank line n cp e :
  _parse_ascii_line line n cp = Some e -> is_empty (strip line) = false.
Proof.
  unfold _parse_ascii_line.
  destruct (strip line); [|reflexivity]. intros H. vm_compute in H.
  discriminate H.
Qed.
End LastLine.

(** X5: the last line wins.  When a text is extended by one more line
    that parses to an entity (and is not a comment line), the graph of
    the extended text holds, under that entity's number, the entity of
    the new line - whatever an earlier line with the same number had put
    there. *)
Theorem X5_last_line_wins `{UD : UnicodeData}
        (content line : pystr) (self : HolyTreeParser)
        (n0 : Z) (cp0 : list pystr) (e0 : HolyTreeEntity) :
  ~ In 10 line ->
  startswith (strip line) (U "#") = false ->
  _parse_ascii_line line n0 cp0 = Some e0 ->
  exists e,
    get_entity_by_number
      (fst (parse_holy_tree (Some (content ++ [10] ++ line)) self))
      (number e0) = Some e
    /\ name e = name e0 /\ type e = type e0 /\ level e = level e0
    /\ ascii_line e = line.
Proof.
  intros Hnl Hcomment Hparse.
  unfold get_entity_by_number. cbn [parse_holy_tree fst entities].
  change (content ++ [10] ++ line) with (content ++ 10 :: line).
  rewrite split_app_sep_both, (split_free 10 line Hnl).
  destruct (parse_lines_app (split 10 content) [line] 1 [] [])
    as (n' & cp' & ->).
  cbn [parse_lines].
  rewrite (parse_line_not_blank _ _ _ _ Hparse), Hcomment. cbn [orb].
  destruct (parse_line_context _ _ _ _ n' cp' Hparse)
    as (e & -> & Hnum & Hname & Htype & Hlevel & Hline).
  exists e. rewrite <- Hnum, dict_get_set_eq. auto.
Qed.

Lemma X5_last_line_wins_witness :
  exists e,
    get_entity_by_number
      (fst (@parse_holy_tree basic_latin
              (Some (small_tree ++ [10] ++ U "├── 4 📁 Second_Engine/"))
              new_parser)) (U "4") = Some e
    /\ name e = U "Second_Engine".
Proof.
  destruct (@X5_last_line_wins basic_latin small_tree
              (U "├── 4 📁 Second_Engine/") new_parser 1 []
              {| name := U "Second_Engine"; type := domain; number := U "4";
                 level := 1; parent_path := []; classification := [];
                 ascii_line := U "├── 4 📁 Second_Engine/" |})
    as (e & He & Hname & _).
  - vm_compute. intuition discriminate.
  - vm_compute. reflexivity.
  - vm_compute. reflexivity.
  - exists e. split; [exact He|exact Hname].
Defined.

(** ** The validator on graphs without level-1 entity *)

Lemma missing_parent_issues_spec (ents items : graph) :
  (missing_parent_issues ents items = []
   <-> forall num e, In (num, e) items -> missing_parent ents num e = false)
  /\ (forall num e, In (num, e) items -> missing_parent ents num e = true ->
                    In (missing_parent_issue num)
                       (missing_parent_issues ents items))
  /\ (length (missing_parent_issues ents items) <= length items)%nat.
Proof.
  induction items as [|[k x] items (IH1 & IH2 & IH3)]; cbn [missing_parent_issues].
  - split; [split; [intros _ ? ? []|reflexivity]|].
    split; [intros ? ? []|simpl; lia].
  - destruct (missing_parent ents k x) eqn:Hm.
    + split; [split|split].
      * discriminate.
      * intros H. rewrite (H k x) in Hm by now left. discriminate.
      * intros num e [[= -> ->]|Hin] Hmiss; [now left|right; eauto].
      * simpl. lia.
    + split; [split|split].
      * intros H num e [[= -> ->]|Hin]; [exact Hm|]. apply IH1; assumption.
      * intros H. apply IH1. intros num e Hin. apply H. now right.
      * intros num e [[= -> ->]|Hin] Hmiss; [congruence|eauto].
      * simpl. lia.
Qed.

(** X6: on a graph without level-1 entity the validator returns a
    report: it is valid exactly when no entity of level above 1 lacks
    its parent number in the graph, every such entity has its
    "Missing parent" issue in the list, there are at most as many issues
    as entities, and the score is the text of 100 - 10 * issues followed
    by a percent sign. *)
Theorem X6_validate_without_level1 `{UD : UnicodeData}
        (self : HolyTreeParser) :
  (forall num e, In (num, e) (entities self) -> level e <> 1%Z) ->
  exists r,
    validate_holy_tree_structure self = inr r
    /\ (valid r = true
        <-> forall num e, In (num, e) (entities self) ->
                          missing_parent (entities self) num e = false)
    /\ (forall num e, In (num, e) (entities self) ->
                      missing_parent (entities self) num e = true ->
                      In (missing_parent_issue num) (issues r))
    /\ (length (issues r) <= length (entities self))%nat
    /\ integrity_score r
       = str_of_int (100 - Z.of_nat (length (issues r)) * 10) ++ U "%".
Proof.
  intros Hno1. unfold validate_holy_tree_structure.
  assert (Hnone : get_entities_by_level self 1 = []).
  { unfold get_entities_by_level.
    destruct (List.filter _ _) as [|e l] eqn:Hf; [reflexivity|].
    assert (Hin : In e (e :: l)) by now left.
    rewrite <- Hf in Hin. apply filter_In in Hin as [Hin Hl].
    apply in_map_iff in Hin as ([num e'] & <- & Hin).
    apply Z.eqb_eq in Hl. destruct (Hno1 _ _ Hin Hl). }
  rewrite Hnone. cbn [map check_domain_numbers]. eexists.
  split; [reflexivity|]. cbn [valid issues integrity_score].
  destruct (missing_parent_issues_spec (entities self) (entities self))
    as (H1 & H2 & H3).
  repeat split; auto.
  - intros Hv. apply H1. apply Nat.eqb_eq in Hv.
    destruct (missing_parent_issues _ _); [reflexivity|discriminate].
  - intros Hv. apply H1 in Hv. rewrite Hv. reflexivity.
Qed.

Lemma X6_validate_without_level1_witness :
  exists r,
    @validate_holy_tree_structure basic_latin (parsed domainless_tree) = inr r
    /\ integrity_score r
       = str_of_int (100 - Z.of_nat (length (issues r)) * 10) ++ U "%".
Proof.
  destruct (@X6_validate_without_level1 basic_latin (parsed domainless_tree))
    as (r & Hr & _ & _ & _ & Hs).
  - intros num e Hin. vm_compute in Hin.
    destruct Hin as [[= <- <-]|[[= <- <-]|[]]]; discriminate.
  - exists r. split; assumption.
Defined.

(** ** More on generation *)

Section MoreGeneratorFacts.
Context `{UD : UnicodeData}.
Implicit Types (fs : gmap Path node) (self : HolyTreeParser).

Lemma path_exists_false_mono fs fs' p :
  fs ⊆ fs' -> path_exists fs' p = false -> path_exists fs p = false.
Proof.
  intros Hsub H. destruct (path_exists fs p) eqn:E; [|reflexivity].
  rewrite (path_exists_mono _ _ _ Hsub E) in H. discriminate.
Qed.

(** What an incremental loop reports as created. *)
Lemma generate_loop_created mode self items :
  mode <> U "full" ->
  forall fs d0 f0 fs' d f,
    generate_loop mode self items fs d0 f0 = (fs', Some (d, f)) ->
    exists c,
      d = d0 ++ c
      /\ List.NoDup c
      /\ forall p, In p c ->
           path_exists fs p = false /\ path_exists fs' p = true.
Proof.
  intros Hmode.
  induction items as [|[num e] rest IH]; intros fs d0 f0 fs' d f H.
  - cbn [generate_loop] in H. injection H as <- <- <-. exists [].
    rewrite app_nil_r. split; [reflexivity|].
    split; [constructor|intros ? []].
  - cbn [generate_loop] in H.
    replace (type_in (type e) [domain; object; layer]) with true in H
      by (destruct (type e); reflexivity).
    rewrite (bool_decide_eq_false_2 _ Hmode) in H. cbn [orb] in H.
    destruct (path_exists fs (_construct_directory_path self e)) eqn:Hex;
      cbn [negb] in H; [eapply IH, H|].
    destruct (mkdir_parents (_construct_directory_path self e) fs)
      as [fs1|] eqn:Hm; [|discriminate].
    assert (Hp1 : path_exists fs1 (_construct_directory_path self e) = true).
    { unfold path_exists.
      rewrite (mkdir_parents_is_dir _ _ _ Hm) by discriminate. reflexivity. }
    assert (Hstep : forall fs2 f1,
               fs1 ⊆ fs2 ->
               generate_loop mode self rest fs2
                 (d0 ++ [_construct_directory_path self e]) f1
               = (fs', Some (d, f)) ->
               exists c, d = d0 ++ c /\ List.NoDup c
                         /\ forall p, In p c ->
                              path_exists fs p = false
                              /\ path_exists fs' p = true).
    { intros fs2 f1 Hsub Hl.
      destruct (IH _ _ _ _ _ _ Hl) as (c & -> & Hnd & Hc).
      pose proof (generate_loop_subseteq _ _ _ _ _ _ _ _ Hl) as Hsub2.
      pose proof (mkdir_parents_subseteq _ _ _ Hm) as Hsub0.
      exists (_construct_directory_path self e :: c).
      split; [rewrite <- app_assoc; reflexivity|]. split.
      - constructor; [|exact Hnd]. intros Hin.
        destruct (Hc _ Hin) as [Hf _].
        rewrite (path_exists_mono _ _ _ Hsub Hp1) in Hf. discriminate.
      - intros p [<-|Hin].
        + split; [exact Hex|].
          eapply path_exists_mono; [exact Hsub2|].
          eapply path_exists_mono; [exact Hsub|exact Hp1].
        + destruct (Hc _ Hin) as [Hf Ht]. split; [|exact Ht].
          eapply path_exists_false_mono; [|exact Hf].
          etransitivity; eassumption. }
    destruct (type_in (type e) [domain; object]).
    + destruct (_generate_basic_files e (_construct_directory_path self e) fs1)
        as [fs2|] eqn:Hg; [|discriminate].
      eapply Hstep; [eapply generate_basic_files_subseteq, Hg|exact H].
    + eapply Hstep; [reflexivity|exact H].
Qed.

(** What a full loop reports as created. *)
Lemma generate_loop_full self items :
  forall fs d0 f0 fs' d f,
    generate_loop (U "full") self items fs d0 f0 = (fs', Some (d, f)) ->
    d = d0 ++ map (fun kv => _construct_directory_path self (snd kv)) items
    /\ f = f0 ++ map (fun kv => _construct_directory_path self (snd kv)
                                  ++ [U "README.md"])
                     (List.filter
                        (fun kv => type_in (type (snd kv)) [domain; object])
                        items).
Proof.
  induction items as [|[num e] rest IH]; intros fs d0 f0 fs' d f H.
  - cbn [generate_loop] in H. injection H as <- <- <-.
    simpl. rewrite !app_nil_r. auto.
  - cbn [generate_loop] in H.
    replace (type_in (type e) [domain; object; layer]) with true in H
      by (destruct (type e); reflexivity).
    rewrite bool_decide_eq_true_2 in H by reflexivity. cbn [orb] in H.
    destruct (mkdir_parents (_construct_directory_path self e) fs)
      as [fs1|]; [|discriminate].
    cbn [map List.filter snd].
    destruct (type_in (type e) [domain; object]).
    + destruct (_generate_basic_files e (_construct_directory_path self e) fs1)
        as [fs2|]; [|discriminate].
      destruct (IH _ _ _ _ _ _ H) as [-> ->].
      cbn [map]. rewrite <- !app_assoc. auto.
    + destruct (IH _ _ _ _ _ _ H) as [-> ->].
      rewrite <- !app_assoc. auto.
Qed.

Lemma missing_directories_none self fs :
  (forall num e, In (num, e) (entities self) ->
                 path_exists fs (_construct_directory_path self e) = true) ->
  missing_directories_of self fs = [].
Proof.
  unfold missing_directories_of. intros H.
  induction (entities self) as [|[num e] g IH]; [reflexivity|].
  cbn [flat_map snd]. rewrite (H num e) by now left.
  rewrite IH by (intros n' e' Hin; apply (H n' e'); now right).
  destruct (type_in (type e) [domain; object; layer]); reflexivity.
Qed.
End MoreGeneratorFacts.

Section GenerateRuns.
Context `{UD : UnicodeData}.

(** A run that reports success has read the text and gone through the
    whole loop. *)
Lemma generate_success_inv mode tree_file self fs :
  generate_succeeded
    (snd (generate_project_from_holy_tree mode tree_file self fs)) = true ->
  exists content self1 fs1 dirs files,
    tree_file = Some content
    /\ (forall s, fst (parse_holy_tree (Some content) s) = self1)
    /\ generate_loop mode self1 (entities self1) fs [] []
       = (fs1, Some (dirs, files))
    /\ generate_project_from_holy_tree mode tree_file self fs
       = (self1, fs1,
          Generated mode dirs files
            (Z.of_nat (length (List.filter
                                 (fun kv => project_structure_flag (snd kv))
                                 (entities self1))))).
Proof.
  unfold generate_project_from_holy_tree.
  destruct (bool_decide (mode = U "validate")).
  { destruct (validate_project_structure tree_file self fs) as [s r] eqn:Hv.
    unfold validate_project_structure in Hv.
    destruct (parse_holy_tree tree_file self) as [s' pr].
    destruct (negb (parsed_successfully pr));
      [|destruct (missing_directories_of s' fs)];
      injection Hv as <- <-; intros H; discriminate H. }
  destruct tree_file as [content|]; [|intros H; discriminate H].
  cbn [parse_holy_tree parsed_successfully negb].
  set (self1 := {| entities := parse_lines (split 10 content) 1 [] [];
                   stats := _ |}).
  destruct (generate_loop mode self1 (entities self1) fs [] [])
    as [fs1 [[dirs files]|]] eqn:Hl; [|intros H; discriminate H].
  intros _. exists content, self1, fs1, dirs, files.
  repeat split; auto.
Qed.
End GenerateRuns.

(** X7: generation and validation agree.  After a run of generation
    that reports success, in incremental or full mode, validating the
    same text against the resulting file system finds no missing
    directory: the structure is valid and the score is "100%". *)
Theorem X7_generate_then_validate `{UD : UnicodeData}
        (mode : pystr) (tree_file : option pystr) (self : HolyTreeParser)
        (fs : gmap Path node) :
  let run := generate_project_from_holy_tree mode tree_file self fs in
  generate_succeeded (snd run) = true ->
  validate_project_structure tree_file (fst (fst run)) (snd (fst run))
  = (fst (fst run), Validation true true [] (U "100%")).
Proof.
  intros run Hok. subst run.
  destruct (generate_success_inv _ _ _ _ Hok)
    as (content & self1 & fs1 & dirs & files & -> & Hself & Hl & ->).
  cbn [fst snd]. unfold validate_project_structure.
  pose proof (Hself self1) as Hs.
  destruct (parse_holy_tree (Some content) self1) as [s pr] eqn:Hp.
  cbn [fst] in Hs. subst s.
  assert (Hpr : parsed_successfully pr = true).
  { unfold parse_holy_tree in Hp. injection Hp as _ <-. reflexivity. }
  rewrite Hpr. cbn [negb].
  rewrite missing_directories_none; [reflexivity|].
  intros num e Hin. eapply generate_loop_paths_exist; eassumption.
Qed.

Lemma X7_generate_then_validate_witness :
  @validate_project_structure basic_latin (Some small_tree)
    (fst (fst small_run)) (snd (fst small_run))
  = (fst (fst small_run), Validation true true [] (U "100%")).
Proof.
  apply (@X7_generate_then_validate basic_latin (U "incremental")
           (Some small_tree) new_parser ∅).
  vm_compute. reflexivity.
Defined.

(** X8: outside full mode a successful run lists a directory as
    created only if its path did not exist before the run, lists none
    twice, and every listed path exists after the run. *)
Theorem X8_incremental_lists_only_new_directories `{UD : UnicodeData}
        (mode : pystr) (tree_file : option pystr) (self : HolyTreeParser)
        (fs : gmap Path node) :
  let run := generate_project_from_holy_tree mode tree_file self fs in
  mode <> U "full" ->
  generate_succeeded (snd run) = true ->
  List.NoDup (directories_list (snd run))
  /\ forall p, In p (directories_list (snd run)) ->
       path_exists fs p = false /\ path_exists (snd (fst run)) p = true.
Proof.
  intros run Hmode Hok. subst run.
  destruct (generate_success_inv _ _ _ _ Hok)
    as (content & self1 & fs1 & dirs & files & -> & Hself & Hl & ->).
  cbn [fst snd directories_list].
  destruct (generate_loop_created _ _ _ Hmode _ _ _ _ _ _ Hl)
    as (c & -> & Hnd & Hc).
  auto.
Qed.

Lemma X8_incremental_lists_only_new_directories_witness :
  List.NoDup (directories_list (snd small_run)).
Proof.
  refine (proj1 (@X8_incremental_lists_only_new_directories basic_latin
                   (U "incremental") (Some small_tree) new_parser ∅ _ _)).
  - vm_compute. discriminate.
  - vm_compute. reflexivity.
Defined.

(** X9: in full mode a successful run lists the directory of every
    entity of the graph, in graph order and whether or not it existed,
    and the README of every Domain and Object. *)
Theorem X9_full_mode_lists_every_entity `{UD : UnicodeData}
        (tree_file : option pystr) (self : HolyTreeParser)
        (fs : gmap Path node) :
  let run := generate_project_from_holy_tree (U "full") tree_file self fs in
  generate_succeeded (snd run) = true ->
  directories_list (snd run)
  = map (fun kv => _construct_directory_path (fst (fst run)) (snd kv))
        (entities (fst (fst run)))
  /\ files_list (snd run)
     = map (fun kv => _construct_directory_path (fst (fst run)) (snd kv)
                       ++ [U "README.md"])
           (List.filter (fun kv => type_in (type (snd kv)) [domain; object])
                        (entities (fst (fst run)))).
Proof.
  intros run Hok. subst run.
  destruct (generate_success_inv _ _ _ _ Hok)
    as (content & self1 & fs1 & dirs & files & -> & Hself & Hl & ->).
  cbn [fst snd directories_list files_list].
  destruct (generate_loop_full _ _ _ _ _ _ _ _ Hl) as [-> ->]. auto.
Qed.

Lemma X9_full_mode_lists_every_entity_witness :
  length (directories_list
            (snd (@generate_project_from_holy_tree basic_latin (U "full")
                    (Some small_tree) new_parser stale_disk))) = 3%nat.
Proof.
  assert (Hok : generate_succeeded
                  (snd (@generate_project_from_holy_tree basic_latin (U "full")
                          (Some small_tree) new_parser stale_disk)) = true)
    by (vm_compute; reflexivity).
  rewrite (proj1 (@X9_full_mode_lists_every_entity basic_latin
                    (Some small_tree) new_parser stale_disk Hok)).
  vm_compute. reflexivity.
Defined.

(** X10: generation, in any mode and whether it succeeds or stops at an
    error, never removes a node or changes its kind, and it leaves a
    file system in which every node sits in a directory in that shape. *)
Theorem X10_generation_keeps_nodes_and_shape `{UD : UnicodeData}
        (mode : pystr) (tree_file : option pystr) (self : HolyTreeParser)
        (fs : gmap Path node) :
  fs_wf fs ->
  let run := generate_project_from_holy_tree mode tree_file self fs in
  fs ⊆ snd (fst run) /\ fs_wf (snd (fst run)).
Proof.
  intros Hwf run. split; [apply generate_keeps_every_node|].
  subst run. unfold generate_project_from_holy_tree.
  destruct (bool_decide (mode = U "validate")).
  - destruct (validate_project_structure tree_file self fs). exact Hwf.
  - destruct (parse_holy_tree tree_file self) as [self' pr].
    destruct (negb (parsed_successfully pr)); [exact Hwf|].
    destruct (generate_loop mode self' (entities self') fs [] [])
      as [fs' [[dirs files]|]] eqn:Hl; cbn [fst snd];
      eapply generate_loop_wf; eassumption.
Qed.

Lemma X10_generation_keeps_nodes_and_shape_witness :
  fs_wf (snd (fst small_run)).
Proof.
  exact (proj2 (@X10_generation_keeps_nodes_and_shape basic_latin
                  (U "incremental") (Some small_tree) new_parser ∅
                  fs_wf_empty)).
Defined.

(** ** Insertion *)

Section MoreInsertFacts.
Context `{UD : UnicodeData}.

Lemma startswith_In (p : pystr) : forall s c,
  startswith s p = true -> In c p -> In c s.
Proof.
  induction p as [|a p IH]; intros s c H Hin; [destruct Hin|].
  destruct s as [|b s]; simpl in H; [discriminate|].
  apply andb_true_iff in H as [Hab Hs]. apply N.eqb_eq in Hab. subst b.
  destruct Hin as [<-|Hin]; [now left|right; eapply IH; eassumption].
Qed.

Lemma contains_In (p : pystr) c : forall s,
  contains s p = true -> In c p -> In c s.
Proof.
  induction s as [|b s IH]; intros H Hin.
  - unfold contains in H. rewrite orb_false_r in H.
    eapply startswith_In; eassumption.
  - change (startswith (b :: s) p || contains s p = true) in H.
    apply orb_true_iff in H as [H|H];
      [eapply startswith_In; eassumption|right; apply IH; assumption].
Qed.

Lemma lstrip_by_keeps (p : N -> bool) c : forall s,
  In c s -> p c = false -> In c (lstrip_by p s).
Proof.
  induction s as [|b s IH]; intros Hin Hc; [destruct Hin|].
  simpl. destruct (p b) eqn:Hb; [|exact Hin].
  destruct Hin as [->|Hin]; [congruence|apply IH; assumption].
Qed.

Lemma strip_by_keeps (p : N -> bool) c s :
  In c s -> p c = false -> In c (strip_by p s).
Proof.
  intros Hin Hc. unfold strip_by.
  apply in_rev. rewrite rev_involutive.
  apply lstrip_by_keeps; [|exact Hc]. apply -> in_rev.
  apply lstrip_by_keeps; assumption.
Qed.

Lemma split_ws_from_pending : forall s cur,
  cur <> [] -> split_ws_from cur s <> [].
Proof.
  induction s as [|b s IH]; intros cur Hcur; simpl.
  - destruct cur; [congruence|discriminate].
  - destruct (isspace b); [destruct cur; [congruence|discriminate]|].
    apply IH. discriminate.
Qed.

Lemma split_ws_from_nonempty c : forall s cur,
  In c s -> isspace c = false -> split_ws_from cur s <> [].
Proof.
  induction s as [|b s IH]; intros cur Hin Hc; [destruct Hin|].
  simpl. destruct Hin as [->|Hin].
  - rewrite Hc. apply split_ws_from_pending. discriminate.
  - destruct (isspace b); [destruct cur; [|discriminate]|]; apply IH; assumption.
Qed.

(** A line that mentions "domain/" has a first token. *)
Lemma first_token_exists line domain_name :
  contains line (domain_name ++ U "/") = true ->
  split_ws (strip line) <> [].
Proof.
  intros H.
  assert (Hin : In 47 line).
  { eapply contains_In; [exact H|]. apply in_or_app. right. now left. }
  apply (split_ws_from_nonempty 47); [|reflexivity].
  apply strip_by_keeps; [exact Hin|reflexivity].
Qed.

Lemma find_prefix_line_bounds domain_name proposed_number lines : forall i,
  exists r, find_prefix_line domain_name proposed_number lines i = inr r
            /\ (r = -1 \/ i < r <= i + Z.of_nat (length lines))%Z.
Proof.
  induction lines as [|line rest IH]; intros i; cbn [find_prefix_line].
  - exists (-1)%Z. auto.
  - assert (Hrest : exists r,
               find_prefix_line domain_name proposed_number rest (i + 1) = inr r
               /\ (r = -1 \/ i < r <= i + Z.of_nat (length (line :: rest)))%Z).
    { destruct (IH (i + 1)%Z) as (r & Hr & Hb). exists r. split; [exact Hr|].
      cbn [length]. lia. }
    destruct (contains line (domain_name ++ U "/")) eqn:Hc; [|exact Hrest].
    destruct (split_ws (strip line)) as [|tok toks] eqn:Hs.
    { destruct (first_token_exists _ _ Hc Hs). }
    destruct (startswith proposed_number tok); [|exact Hrest].
    exists (i + 1)%Z. split; [reflexivity|]. right. cbn [length]. lia.
Qed.

Lemma find_domain_start_bounds domain_name lines : forall i,
  let r := find_domain_start domain_name lines i in
  (r = -1 \/ i <= r < i + Z.of_nat (length lines))%Z.
Proof.
  induction lines as [|line rest IH]; intros i; cbn [find_domain_start];
    [now left|].
  destruct (contains line (domain_name ++ U "/") || _).
  - right. cbn [length]. lia.
  - cbv zeta in IH. destruct (IH (i + 1)%Z) as [->|H]; [now left|right].
    cbn [length]. lia.
Qed.

Lemma find_domain_start_found domain_name lines : forall i,
  (0 <= i)%Z ->
  (exists line, In line lines /\ contains line (domain_name ++ U "/") = true) ->
  find_domain_start domain_name lines i <> (-1)%Z.
Proof.
  induction lines as [|line rest IH]; intros i Hi (l & Hin & Hc);
    [destruct Hin|].
  cbn [find_domain_start].
  destruct (contains line (domain_name ++ U "/")) eqn:Hl; cbn [orb]; [lia|].
  destruct Hin as [->|Hin]; [congruence|].
  apply IH; [lia|eauto].
Qed.

Lemma scan_domain_end_bounds tail : forall i ins,
  (i <= ins <= i + Z.of_nat (length tail))%Z ->
  (i <= scan_domain_end tail i ins <= i + Z.of_nat (length tail))%Z.
Proof.
  induction tail as [|line rest IH]; intros i ins H; cbn [scan_domain_end];
    [cbn [length] in *; lia|].
  destruct (_ && _); cbn [length] in *; [lia|].
  specialize (IH (i + 1)%Z (i + 1)%Z). lia.
Qed.

Lemma find_prefix_line_no_mention domain_name proposed_number lines :
  (forall line, In line lines ->
                contains line (domain_name ++ U "/") = false) ->
  forall i, find_prefix_line domain_name proposed_number lines i = inr (-1)%Z.
Proof.
  induction lines as [|line rest IH]; intros Habs i; [reflexivity|].
  cbn [find_prefix_line]. rewrite (Habs line) by now left.
  apply IH. intros l Hl. apply Habs. now right.
Qed.

Lemma find_domain_start_no_mention domain_name lines :
  (forall line, In line lines ->
                contains line (domain_name ++ U "/") = false) ->
  forall i, find_domain_start domain_name lines i = (-1)%Z.
Proof.
  induction lines as [|line rest IH]; intros Habs i; [reflexivity|].
  cbn [find_domain_start]. rewrite (Habs line) by now left. cbn [orb].
  apply IH. intros l Hl. apply Habs. now right.
Qed.

(** Inserting the object line and then, in reverse, each layer line
    right behind it puts the layer lines in their declared order. *)
Lemma splice_in_order (lines layer_lines : list pystr) (ascii_line : pystr)
      (i : nat) :
  (i <= length lines)%nat ->
  fold_left (fun ls layer_line => list_insert_at (S i) layer_line ls)
            (rev layer_lines) (list_insert_at i ascii_line lines)
  = take i lines ++ (ascii_line :: layer_lines) ++ drop i lines.
Proof.
  intros Hi. rewrite <- fold_left_rev_right, rev_involutive.
  induction layer_lines as [|l ls IH]; [reflexivity|].
  cbn [fold_right]. rewrite IH. unfold list_insert_at.
  assert (Hlen : length (take i lines) = i) by (rewrite length_take; lia).
  set (pre := take i lines) in *. set (post := drop i lines).
  replace (pre ++ (ascii_line :: ls) ++ post)
    with ((pre ++ [ascii_line]) ++ ls ++ post)
    by (rewrite <- app_assoc; reflexivity).
  assert (Hl2 : length (pre ++ [ascii_line]) = S i)
    by (rewrite length_app; simpl; lia).
  rewrite <- Hl2 at 1 2. rewrite take_app_length, drop_app_length.
  rewrite <- app_assoc. reflexivity.
Qed.
End MoreInsertFacts.

Section InsertOutcome.
Context `{UD : UnicodeData}.

Lemma layer_lines_from_length proposed_number layers : forall i,
  length (layer_lines_from proposed_number i layers) = length layers.
Proof.
  induction layers as [|l ls IH]; intros i; simpl; [reflexivity|].
  rewrite IH. reflexivity.
Qed.

Lemma generate_incremental_parser content self fs :
  fst (fst (generate_project_from_holy_tree (U "incremental") (Some content)
                                            self fs))
  = fst (parse_holy_tree (Some content) self).
Proof.
  rewrite generate_incremental_readable. cbv zeta.
  destruct (generate_loop _ _ _ _ _ _) as [fs' [[dirs files]|]]; reflexivity.
Qed.

(** The ways [add_entity_to_holy_tree] can end. *)
Lemma add_entity_outcome (cfg : entity_config) (self : HolyTreeMCPServer) :
  let entity_name := default [] (cfg_entity_name cfg) in
  let domain_name := default [] (cfg_domain cfg) in
  let proposed_number := default [] (cfg_proposed_number cfg) in
  (add_entity_to_holy_tree cfg self = (self, Some AddMissingFields)
   /\ (entity_name = [] \/ domain_name = [] \/ proposed_number = []))
  \/ (add_entity_to_holy_tree cfg self = (self, Some (AddRaised OSError))
      /\ tree_file self = None)
  \/ (exists content,
         tree_file self = Some content
         /\ add_entity_to_holy_tree cfg self = (self, None)
         /\ forall line, In line (split 10 content) ->
                         contains line (domain_name ++ U "/") = false)
  \/ (exists content i,
         tree_file self = Some content
         /\ entity_name <> [] /\ domain_name <> [] /\ proposed_number <> []
         /\ (exists line, In line (split 10 content)
                          /\ contains line (domain_name ++ U "/") = true)
         /\ (i <= length (split 10 content))%nat
         /\ let new_text :=
              join [10] (take i (split 10 content)
                           ++ new_entity_lines cfg
                           ++ drop i (split 10 content)) in
            let run :=
              generate_project_from_holy_tree (U "incremental")
                (Some (universal_newlines new_text))
                (parser self) (disk self) in
            (tree_writable self = false
             /\ add_entity_to_holy_tree cfg self
                = (self, Some (AddRaised OSError)))
            \/ (tree_writable self = true
                /\ utf8_encodable new_text = false
                /\ add_entity_to_holy_tree cfg self
                   = ({| parser := parser self; tree_file := Some [];
                         tree_writable := tree_writable self;
                         disk := disk self |},
                      Some (AddRaised UnicodeEncodeError)))
            \/ (tree_writable self = true
                /\ utf8_encodable new_text = true
                /\ add_entity_to_holy_tree cfg self
                   = ({| parser := fst (fst run);
                         tree_file := Some (universal_newlines new_text);
                         tree_writable := tree_writable self;
                         disk := snd (fst run) |},
                      Some (Added entity_name (generate_succeeded (snd run))
                                  proposed_number
                                  (take 50 (new_entity_line cfg) ++ U "..."))))).
Proof.
  intros entity_name domain_name proposed_number.
  unfold add_entity_to_holy_tree, new_entity_lines, new_entity_line.
  fold entity_name domain_name proposed_number.
  set (layers := default default_layers (cfg_layers cfg)).
  destruct (is_empty entity_name || is_empty domain_name
            || is_empty proposed_number) eqn:Hempty.
  { left. split; [reflexivity|].
    destruct entity_name; [auto|]. destruct domain_name; [auto|].
    destruct proposed_number; [auto|]. discriminate Hempty. }
  assert (Hfields : entity_name <> [] /\ domain_name <> []
                    /\ proposed_number <> []).
  { destruct entity_name, domain_name, proposed_number; try discriminate Hempty.
    repeat split; discriminate. }
  right. destruct (tree_file self) as [content|] eqn:Hfile; [|left; auto].
  right. set (lines := split 10 content).
  destruct (find_prefix_line_bounds domain_name proposed_number lines 0)
    as (r & Hr & Hb).
  rewrite Hr.
  pose proof (find_domain_start_bounds domain_name lines 0) as Hds.
  cbv zeta in Hds.
  set (ds := find_domain_start domain_name lines 0) in *.
  set (idx := if (r =? -1)%Z
              then if negb (ds =? -1)%Z
                   then scan_domain_end (drop (Z.to_nat (ds + 1)) lines)
                                        (ds + 1) (ds + 1)
                   else r
              else r).
  assert (Hidx : (idx = (-1)%Z
                  /\ forall line, In line lines ->
                       contains line (domain_name ++ U "/") = false)
                 \/ ((0 <= idx <= Z.of_nat (length lines))%Z
                     /\ exists line, In line lines
                          /\ contains line (domain_name ++ U "/") = true)).
  { destruct (existsb (fun l => contains l (domain_name ++ U "/")) lines)
      eqn:Hex.
    - apply existsb_exists in Hex. right. split; [|exact Hex].
      pose proof (find_domain_start_found domain_name lines 0 ltac:(lia) Hex)
        as Hfound.
      fold ds in Hfound. subst idx.
      destruct (Z.eqb_spec r (-1)); [|lia].
      destruct (Z.eqb_spec ds (-1)); [contradiction|]. cbn [negb].
      pose proof (scan_domain_end_bounds
                    (drop (Z.to_nat (ds + 1)) lines) (ds + 1) (ds + 1)) as Hs.
      rewrite length_drop in Hs. lia.
    - assert (Habs : forall line, In line lines ->
                       contains line (domain_name ++ U "/") = false).
      { intros line Hin.
        destruct (contains line (domain_name ++ U "/")) eqn:Hc; [|reflexivity].
        assert (existsb (fun l => contains l (domain_name ++ U "/")) lines
                = true) by (apply existsb_exists; eauto).
        congruence. }
      left. split; [|exact Habs]. subst idx ds.
      rewrite (find_prefix_line_no_mention _ _ _ Habs) in Hr.
      injection Hr as <-.
      rewrite (find_domain_start_no_mention _ _ Habs). reflexivity. }
  fold idx. clearbody idx.
  destruct Hidx as [[-> Habs]|[Hrange Hsome]].
  { left. exists content. auto. }
  right. destruct (Z.eqb_spec idx (-1)); [lia|]. cbn [negb].
  assert (Hi : (Z.to_nat idx <= length lines)%nat) by lia.
  destruct Hfields as (Hn & Hd & Hp).
  exists content, (Z.to_nat idx). fold lines.
  repeat (split; [solve [eauto]|]).
  destruct (length (split 46 proposed_number) =? 2)%nat eqn:Hcomp.
  - rewrite (splice_in_order lines _ _ _ Hi).
    cbv zeta. unfold write_tree_file.
    destruct (tree_writable self) eqn:Hw; cbn [negb]; [right|left; auto].
    destruct (utf8_encodable _) eqn:Henc; [right|left; auto].
    split; [reflexivity|]. split; [reflexivity|].
    destruct (generate_project_from_holy_tree _ _ _ _) as [[p d] res].
    reflexivity.
  - cbv zeta.
    pose proof (splice_in_order lines [domain_readme_line]
                  (domain_ascii_line proposed_number entity_name
                                     (cfg_description cfg))
                  (Z.to_nat idx) Hi) as Hsplice.
    simpl rev in Hsplice. cbn [fold_left] in Hsplice.
    unfold pystr in Hsplice |- *.
    rewrite Hsplice. unfold write_tree_file.
    destruct (tree_writable self) eqn:Hw; cbn [negb]; [right|left; auto].
    destruct (utf8_encodable _) eqn:Henc; [right|left; auto].
    split; [reflexivity|]. split; [reflexivity|].
    destruct (generate_project_from_holy_tree _ _ _ _) as [[p d] res].
    reflexivity.
Qed.

Lemma encodable_Forall (s : pystr) :
  utf8_encodable s = true
  <-> Forall (fun c => (c <? 55296) || (57343 <? c) = true) s.
Proof.
  unfold utf8_encodable. rewrite forallb_forall, List.Forall_forall.
  reflexivity.
Qed.

Lemma encodable_app (a b : pystr) :
  utf8_encodable (a ++ b) = utf8_encodable a && utf8_encodable b.
Proof. apply forallb_app. Qed.

Lemma str_of_int_encodable (n : Z) : utf8_encodable (str_of_int n) = true.
Proof.
  unfold str_of_int.
  assert (Hu : forall u,
             utf8_encodable
               (map N_of_ascii
                    (list_ascii_of_string (NilEmpty.string_of_uint u)))
             = true)
    by (induction u; simpl; auto).
  destruct (Z.to_int n) as [u|u]; simpl; apply Hu.
Qed.

Lemma layer_lines_encodable proposed_number layers : forall i,
  utf8_encodable proposed_number = true ->
  forallb utf8_encodable layers = true ->
  forallb utf8_encodable (layer_lines_from proposed_number i layers) = true.
Proof.
  induction layers as [|l ls IH]; intros i Hnum Hall; [reflexivity|].
  cbn [forallb] in Hall. apply andb_true_iff in Hall as [Hl Hls].
  cbn [layer_lines_from forallb]. rewrite (IH _ Hnum Hls), andb_true_r.
  rewrite !encodable_app, Hnum, Hl, !str_of_int_encodable. reflexivity.
Qed.

Lemma description_encodable (description : option pystr) (fallback : pystr) :
  utf8_encodable (default [] description) = true ->
  utf8_encodable fallback = true ->
  utf8_encodable (default fallback description) = true.
Proof. destruct description; auto. Qed.

Lemma new_entity_lines_encodable (cfg : entity_config) :
  config_encodable cfg = true ->
  forallb utf8_encodable (new_entity_lines cfg) = true.
Proof.
  unfold config_encodable. rewrite !andb_true_iff.
  intros [[[Hname Hnum] Hdescr] Hlayers].
  unfold new_entity_lines, new_entity_line.
  destruct (length (split 46 _) =? 2)%nat; cbn [forallb].
  - rewrite (layer_lines_encodable _ _ _ Hnum Hlayers), andb_true_r.
    unfold object_ascii_line.
    rewrite !encodable_app, Hnum, Hname,
      (description_encodable _ (U "New component") Hdescr eq_refl).
    reflexivity.
  - unfold domain_ascii_line.
    rewrite !encodable_app, Hnum, Hname,
      (description_encodable _ (U "New domain") Hdescr eq_refl).
    reflexivity.
Qed.

(** The text written is encodable when the text read and the config
    are. *)
Lemma new_text_encodable (cfg : entity_config) (content : pystr) (i : nat) :
  utf8_encodable content = true -> config_encodable cfg = true ->
  utf8_encodable (join [10] (take i (split 10 content)
                               ++ new_entity_lines cfg
                               ++ drop i (split 10 content))) = true.
Proof.
  intros Hc Hcfg. apply encodable_Forall. apply join_within.
  - repeat constructor.
  - apply encodable_Forall, (split_within _ 10) in Hc.
    apply new_entity_lines_encodable in Hcfg.
    rewrite forallb_forall in Hcfg.
    apply Forall_app. split; [apply Forall_take, Hc|].
    apply Forall_app. split; [|apply Forall_drop, Hc].
    apply List.Forall_forall. intros l Hl. apply encodable_Forall, Hcfg, Hl.
Qed.

Lemma universal_newlines_id (s : pystr) :
  ~ In 13 s -> universal_newlines s = s.
Proof.
  induction s as [|c t IH]; intros Hno; [reflexivity|].
  cbn [universal_newlines].
  destruct (N.eqb_spec c 13) as [->|_]; [exfalso; apply Hno; now left|].
  rewrite IH; [reflexivity|]. intros Hin. apply Hno. now right.
Qed.
End InsertOutcome.

(** X11: an insertion that does not report success leaves the parser
    and the disk as they were.  The text is left as it was too - missing
    field, unreadable text, domain not found, file not to be opened for
    writing - unless encoding failed: then the file can be written,
    UTF-8 cannot encode the text read or a text of the config,
    [UnicodeEncodeError] is reported and the file is left empty. *)
Theorem X11_failed_insert_leaves_parser_and_disk `{UD : UnicodeData}
        (cfg : entity_config) (self : HolyTreeMCPServer) :
  (forall a b c d,
      snd (add_entity_to_holy_tree cfg self) <> Some (Added a b c d)) ->
  parser (fst (add_entity_to_holy_tree cfg self)) = parser self
  /\ disk (fst (add_entity_to_holy_tree cfg self)) = disk self
  /\ (fst (add_entity_to_holy_tree cfg self) = self
      \/ (snd (add_entity_to_holy_tree cfg self)
          = Some (AddRaised UnicodeEncodeError)
          /\ tree_file (fst (add_entity_to_holy_tree cfg self)) = Some []
          /\ tree_writable self = true
          /\ exists content,
               tree_file self = Some content
               /\ utf8_encodable content && config_encodable cfg = false)).
Proof.
  intros Hfail.
  destruct (add_entity_outcome cfg self)
    as [[-> _]|[[-> _]|[(content & _ & -> & _)|H]]]; auto.
  destruct H as (content & i & Hfile & _ & _ & _ & _ & _ & Hend).
  cbv zeta in Hend. destruct Hend as [[_ ->]|[(Hw & Henc & ->)|(_ & _ & Heq)]].
  - auto.
  - cbn [fst snd parser disk tree_file]. repeat split. right.
    repeat split; [exact Hw|]. exists content. split; [exact Hfile|].
    destruct (utf8_encodable content) eqn:Hc; [|reflexivity].
    destruct (config_encodable cfg) eqn:Hcfg; [|reflexivity].
    rewrite (new_text_encodable cfg content i Hc Hcfg) in Henc.
    discriminate Henc.
  - rewrite Heq in Hfail. cbn [snd] in Hfail.
    exfalso. eapply Hfail. reflexivity.
Qed.

Lemma X11_failed_insert_leaves_parser_and_disk_witness :
  snd (@add_entity_to_holy_tree basic_latin surrogate_config
         (server_on sibling_tree ∅))
  = Some (AddRaised UnicodeEncodeError)
  /\ tree_file (fst (@add_entity_to_holy_tree basic_latin surrogate_config
                       (server_on sibling_tree ∅)))
     = Some []
  /\ disk (fst (@add_entity_to_holy_tree basic_latin surrogate_config
                  (server_on sibling_tree ∅)))
     = disk (server_on sibling_tree ∅).
Proof.
  assert (Hfail : forall a b c d,
             snd (@add_entity_to_holy_tree basic_latin surrogate_config
                    (server_on sibling_tree ∅))
             <> Some (Added a b c d))
    by (intros a b c d; vm_compute; intros Hx; discriminate Hx).
  destruct (@X11_failed_insert_leaves_parser_and_disk basic_latin
              surrogate_config (server_on sibling_tree ∅) Hfail)
    as (_ & Hdisk & _).
  split; [vm_compute; reflexivity|].
  split; [vm_compute; reflexivity|exact Hdisk].
Defined.

(** X12: a successful insertion only adds lines, as one block: the text
    written is the old lines up to some index, then the line of the
    entity followed by its layer lines in declared order (for a
    two-component number) or by the README line (otherwise), then the
    remaining old lines.  UTF-8 can encode that text; the file then
    reads as that text with every carriage return turned into a line
    feed, the parser holds the graph of the text as read, and no node of
    the disk is lost.  The result names the entity, the proposed number
    and the first fifty characters of the entity's line. *)
Theorem X12_insert_splices_one_block `{UD : UnicodeData}
        (cfg : entity_config) (self : HolyTreeMCPServer)
        (a : pystr) (b : bool) (c d : pystr) :
  snd (add_entity_to_holy_tree cfg self) = Some (Added a b c d) ->
  exists content i,
    tree_file self = Some content
    /\ (i <= length (split 10 content))%nat
    /\ let new_text :=
         join [10] (take i (split 10 content)
                      ++ new_entity_lines cfg
                      ++ drop i (split 10 content)) in
       utf8_encodable new_text = true
       /\ tree_file (fst (add_entity_to_holy_tree cfg self))
          = Some (universal_newlines new_text)
       /\ (~ In 13 new_text ->
           tree_file (fst (add_entity_to_holy_tree cfg self)) = Some new_text)
       /\ parser (fst (add_entity_to_holy_tree cfg self))
          = fst (parse_holy_tree (Some (universal_newlines new_text))
                                 (parser self))
       /\ disk self ⊆ disk (fst (add_entity_to_holy_tree cfg self))
       /\ a = default [] (cfg_entity_name cfg)
       /\ c = default [] (cfg_proposed_number cfg)
       /\ d = take 50 (new_entity_line cfg) ++ U "...".
Proof.
  intros Hok.
  destruct (add_entity_outcome cfg self)
    as [[E _]|[[E _]|[(content & _ & E & _)|H]]];
    try (rewrite E in Hok; discriminate Hok).
  destruct H as (content & i & Hfile & _ & _ & _ & _ & Hi & Hend).
  cbv zeta in Hend. destruct Hend as [[_ E]|[(_ & _ & E)|(_ & Henc & Heq)]];
    try (rewrite E in Hok; discriminate Hok).
  rewrite Heq in Hok |- *. cbn [fst snd] in Hok |- *.
  injection Hok as <- _ <- <-.
  exists content, i. cbv zeta. cbn [tree_file parser disk].
  split; [exact Hfile|]. split; [exact Hi|]. split; [exact Henc|].
  split; [reflexivity|].
  split; [intros Hno; rewrite (universal_newlines_id _ Hno); reflexivity|].
  split; [apply generate_incremental_parser|].
  split; [apply generate_keeps_every_node|]. auto.
Qed.

Lemma X12_insert_splices_one_block_witness :
  exists content i,
    tree_file (server_on sibling_tree ∅) = Some content
    /\ (i <= length (split 10 content))%nat
    /\ tree_file (fst (@add_entity_to_holy_tree basic_latin alpha_config
                         (server_on sibling_tree ∅)))
       = Some (universal_newlines
                 (join [10] (take i (split 10 content)
                               ++ new_entity_lines alpha_config
                               ++ drop i (split 10 content)))).
Proof.
  assert (Hok : snd (@add_entity_to_holy_tree basic_latin alpha_config
                       (server_on sibling_tree ∅))
                = Some (Added (U "Newt") true (U "1.3")
                          (U "│   ├── 1.3 📁 Newt/          # 🎯 Object: New compo...")))
    by (vm_compute; reflexivity).
  destruct (@X12_insert_splices_one_block basic_latin alpha_config
              (server_on sibling_tree ∅) _ _ _ _ Hok)
    as (content & i & Hfile & Hi & _ & Ht & _).
  exists content, i. repeat split; assumption.
Defined.

(** X13: with the three required fields non-empty, the text readable,
    the file open to writing, some line mentioning "<domain>/" and
    nothing in the text read or in the config that UTF-8 cannot encode,
    insertion neither falls through nor fails: it reports success for
    that entity and number. *)
Theorem X13_insert_into_known_domain_succeeds `{UD : UnicodeData}
        (cfg : entity_config) (self : HolyTreeMCPServer) (content : pystr) :
  default [] (cfg_entity_name cfg) <> [] ->
  default [] (cfg_domain cfg) <> [] ->
  default [] (cfg_proposed_number cfg) <> [] ->
  tree_file self = Some content ->
  tree_writable self = true ->
  (exists line, In line (split 10 content)
                /\ contains line (default [] (cfg_domain cfg) ++ U "/") = true) ->
  utf8_encodable content = true ->
  config_encodable cfg = true ->
  exists b,
    snd (add_entity_to_holy_tree cfg self)
    = Some (Added (default [] (cfg_entity_name cfg)) b
                  (default [] (cfg_proposed_number cfg))
                  (take 50 (new_entity_line cfg) ++ U "...")).
Proof.
  intros Hn Hd Hp Hfile Hw (line & Hin & Hc) Henc Hcfg.
  destruct (add_entity_outcome cfg self)
    as [[_ [E|[E|E]]]|[[_ E]|[(content' & Hf & _ & Habs)|H]]];
    try congruence.
  - rewrite Hfile in Hf. injection Hf as <-.
    rewrite (Habs line Hin) in Hc. discriminate Hc.
  - destruct H as (content' & i & Hf & _ & _ & _ & _ & _ & Hend).
    rewrite Hfile in Hf. injection Hf as <-.
    cbv zeta in Hend.
    destruct Hend as [[Hbad _]|[(_ & Hbad & _)|(_ & _ & Heq)]].
    + congruence.
    + rewrite (new_text_encodable cfg content i Henc Hcfg) in Hbad.
      discriminate Hbad.
    + rewrite Heq. cbn [snd]. eauto.
Qed.

Lemma X13_insert_into_known_domain_succeeds_witness :
  exists b,
    snd (@add_entity_to_holy_tree basic_latin alpha_config
           (server_on sibling_tree ∅))
    = Some (Added (default [] (cfg_entity_name alpha_config)) b
                  (default [] (cfg_proposed_number alpha_config))
                  (take 50 (new_entity_line alpha_config) ++ U "...")).
Proof.
  assert (Hn : default [] (cfg_entity_name alpha_config) <> [])
    by (vm_compute; discriminate).
  assert (Hd : default [] (cfg_domain alpha_config) <> [])
    by (vm_compute; discriminate).
  assert (Hp : default [] (cfg_proposed_number alpha_config) <> [])
    by (vm_compute; discriminate).
  assert (Hline : exists line,
             In line (split 10 sibling_tree)
             /\ contains line (default [] (cfg_domain alpha_config) ++ U "/")
                = true)
    by (exists (U "├── 1 📁 Alpha/"); split; vm_compute; auto).
  assert (Henc : utf8_encodable sibling_tree = true)
    by (vm_compute; reflexivity).
  assert (Hcfg : config_encodable alpha_config = true)
    by (vm_compute; reflexivity).
  exact (@X13_insert_into_known_domain_succeeds basic_latin alpha_config
           (server_on sibling_tree ∅) sibling_tree Hn Hd Hp eq_refl eq_refl
           Hline Henc Hcfg).
Defined.

(** ** Removal *)

Section RemoveFacts.
Context `{UD : UnicodeData}.

Lemma collect_related_lower tail : forall s,
  Forall (fun i => (s <= i)%nat) (collect_related tail s).
Proof.
  induction tail as [|l rest IH]; intros s; cbn [collect_related];
    [constructor|].
  assert (Hrest : Forall (fun i => (s <= i)%nat) (collect_related rest (S s))).
  { eapply List.Forall_impl; [|apply IH]. intros i Hi. simpl in Hi. lia. }
  destruct (is_empty (strip l)); [exact Hrest|].
  destruct (Re.re_search _ _); [constructor|].
  constructor; [lia|exact Hrest].
Qed.

Lemma insert_sorted_below x xs :
  Forall (fun i => (x < i)%nat) xs -> insert_sorted x xs = x :: xs.
Proof.
  destruct xs as [|y ys]; [reflexivity|]. intros H.
  inversion H as [|? ? Hy _]; subst. simpl.
  destruct (Nat.ltb_spec x y); [reflexivity|lia].
Qed.

(** The collected indices are already sorted and distinct. *)
Lemma sorted_set_collect tail : forall s,
  sorted_set (collect_related tail s) = collect_related tail s.
Proof.
  induction tail as [|l rest IH]; intros s; cbn [collect_related];
    [reflexivity|].
  destruct (is_empty (strip l)); [apply IH|].
  destruct (Re.re_search _ _); [reflexivity|].
  unfold sorted_set in *. cbn [fold_right]. rewrite IH.
  apply insert_sorted_below.
  eapply List.Forall_impl; [|apply collect_related_lower]. intros i Hi.
  simpl in Hi. lia.
Qed.

Lemma list_pop_middle (pre : list pystr) x post :
  list_pop (length pre) (pre ++ x :: post) = pre ++ post.
Proof.
  unfold list_pop.
  rewrite take_app_length.
  change (pre ++ x :: post) with (pre ++ [x] ++ post).
  rewrite app_assoc.
  replace (S (length pre)) with (length (pre ++ [x]))
    by (rewrite length_app; simpl; lia).
  rewrite drop_app_length. reflexivity.
Qed.

(** Collecting the indices and popping them from the highest down is
    the same as one pass that keeps [kept_after]. *)
Lemma pop_lines_collect tail : forall pre,
  pop_lines (collect_related tail (length pre)) (pre ++ tail)
  = pre ++ kept_after tail.
Proof.
  unfold pop_lines. intros pre.
  rewrite sorted_set_collect, <- fold_left_rev_right, rev_involutive.
  cbv beta. revert pre.
  induction tail as [|l rest IH]; intros pre;
    cbn [collect_related kept_after]; [reflexivity|].
  specialize (IH (pre ++ [l])).
  rewrite length_app, Nat.add_1_r, <- !app_assoc in IH.
  change ([l] ++ ?t) with (l :: t) in IH.
  destruct (is_empty (strip l)); [exact IH|].
  destruct (Re.re_search _ _); [reflexivity|].
  cbn [fold_right]. rewrite IH. apply list_pop_middle.
Qed.

Lemma collect_kept_lengths tail : forall s,
  (length (collect_related tail s) + length (kept_after tail))%nat
  = length tail.
Proof.
  induction tail as [|l rest IH]; intros s; cbn [collect_related kept_after];
    [reflexivity|].
  destruct (is_empty (strip l)); [cbn [length]; rewrite <- (IH (S s)); lia|].
  destruct (Re.re_search _ _); [reflexivity|].
  cbn [length]. rewrite <- (IH (S s)). lia.
Qed.

Lemma find_entity_lines_spec entity_name lines : forall n,
  match find_entity_lines entity_name lines n with
  | None => forall line, In line lines -> names_entity entity_name line = false
  | Some (start, to_remove) =>
    exists pre l rest,
      lines = pre ++ l :: rest
      /\ (forall x, In x pre -> names_entity entity_name x = false)
      /\ names_entity entity_name l = true
      /\ start = (n + length pre)%nat
      /\ to_remove = collect_related (l :: rest) start
  end.
Proof.
  induction lines as [|line rest IH]; intros n; cbn [find_entity_lines];
    [intros ? []|].
  fold (names_entity entity_name line).
  destruct (names_entity entity_name line) eqn:Hn.
  - exists [], line, rest. rewrite Nat.add_0_r.
    repeat split; auto. intros ? [].
  - specialize (IH (S n)).
    destruct (find_entity_lines entity_name rest (S n)) as [[start rm]|].
    + destruct IH as (pre & l & rest' & -> & Hpre & Hl & -> & ->).
      exists (line :: pre), l, rest'. cbn [length].
      split; [reflexivity|]. split; [intros x [<-|Hx]; auto|].
      split; [exact Hl|]. split; [lia|f_equal; lia].
    + intros x [<-|Hx]; auto.
Qed.
Lemma path_join_nonempty (base : Path) (name : pystr) :
  base <> [] -> path_join base name <> [].
Proof.
  intros Hbase. unfold path_join, posix_parts.
  destruct (startswith name (U "/")).
  - destruct (_ && _); discriminate.
  - destruct base; [congruence|discriminate].
Qed.
End RemoveFacts.

(** X14: removal reports "not found" exactly when no line of the
    readable text names the entity together with a folder sign or a
    slash, and then the text, the parser and the disk are untouched. *)
Theorem X14_remove_not_found `{UD : UnicodeData}
        (entity_name cleanup_mode content : pystr)
        (self : HolyTreeMCPServer) :
  tree_file self = Some content ->
  (snd (remove_entity_from_holy_tree entity_name cleanup_mode self)
   = RemoveNotFound
   <-> forall line, In line (split 10 content) ->
                    names_entity entity_name line = false)
  /\ (snd (remove_entity_from_holy_tree entity_name cleanup_mode self)
      = RemoveNotFound ->
      fst (remove_entity_from_holy_tree entity_name cleanup_mode self) = self).
Proof.
  intros Hfile. unfold remove_entity_from_holy_tree. rewrite Hfile.
  pose proof (find_entity_lines_spec entity_name (split 10 content) 0) as Hspec.
  destruct (find_entity_lines entity_name (split 10 content) 0)
    as [[start rm]|].
  - destruct Hspec as (pre & l & rest & Hlines & _ & Hl & _).
    assert (Hnot : ~ forall line, In line (split 10 content) ->
                                  names_entity entity_name line = false).
    { intros Habs. rewrite (Habs l) in Hl; [discriminate|].
      rewrite Hlines. apply in_or_app. right. now left. }
    destruct (tree_writable self); cbn [negb];
      repeat case_bool_decide;
      try destruct (existsb _ entity_name);
      try destruct (mkdir_parents _ _);
      cbn [fst snd]; (split; [split|]); intros Hres;
      try discriminate Hres; contradiction.
  - cbn [fst snd]. repeat split; auto.
Qed.

Lemma X14_remove_not_found_witness :
  fst (@remove_entity_from_holy_tree basic_latin (U "Omega") (U "delete")
         (server_on sibling_tree ∅))
  = server_on sibling_tree ∅.
Proof.
  refine (proj2 (@X14_remove_not_found basic_latin (U "Omega") (U "delete")
                   sibling_tree (server_on sibling_tree ∅) eq_refl) _).
  vm_compute. reflexivity.
Defined.

(** X15: a successful removal is one pass over the text.  The lines
    before the first line naming the entity stay; from that line on,
    blank lines stay and every other line goes, up to the first line
    whose leading token starts with a digit, which stays with all that
    follows it.  The count reported is the number of lines dropped. *)
Theorem X15_remove_is_one_pass `{UD : UnicodeData}
        (entity_name cleanup_mode : pystr) (self : HolyTreeMCPServer)
        (removed : pystr) (n : Z) (info : cleanup_info) :
  snd (remove_entity_from_holy_tree entity_name cleanup_mode self)
  = Removed removed n info ->
  exists content pre l rest,
    tree_file self = Some content
    /\ split 10 content = pre ++ l :: rest
    /\ (forall x, In x pre -> names_entity entity_name x = false)
    /\ names_entity entity_name l = true
    /\ tree_file (fst (remove_entity_from_holy_tree entity_name cleanup_mode
                                                    self))
       = Some (join [10] (pre ++ kept_after (l :: rest)))
    /\ (n + Z.of_nat (length (kept_after (l :: rest))))%Z
       = Z.of_nat (length (l :: rest))
    /\ removed = entity_name.
Proof.
  unfold remove_entity_from_holy_tree.
  destruct (tree_file self) as [content|] eqn:Hfile; [|discriminate].
  pose proof (find_entity_lines_spec entity_name (split 10 content) 0) as Hspec.
  destruct (find_entity_lines entity_name (split 10 content) 0)
    as [[start rm]|]; [|discriminate].
  destruct Hspec as (pre & l & rest & Hlines & Hpre & Hl & -> & ->).
  cbn [Nat.add]. cbv zeta. rewrite Hlines, pop_lines_collect.
  pose proof (collect_kept_lengths (l :: rest) (length pre)) as Hlen.
  apply (f_equal Z.of_nat) in Hlen. rewrite Nat2Z.inj_add in Hlen.
  intros Hres. exists content, pre, l, rest.
  repeat (split; [solve [auto]|]).
  revert Hres.
  destruct (tree_writable self); cbn [negb];
    repeat case_bool_decide; try destruct (existsb _ entity_name);
    try destruct (mkdir_parents _ _);
    cbn [fst snd tree_file]; intros Hres'; try discriminate Hres';
    injection Hres' as <- <- _; (split; [reflexivity|split; [exact Hlen|reflexivity]]).
Qed.

Lemma X15_remove_is_one_pass_witness :
  exists content pre l rest,
    tree_file (server_on sibling_tree ∅) = Some content
    /\ split 10 content = pre ++ l :: rest
    /\ (forall x, In x pre -> names_entity (U "Beta") x = false)
    /\ names_entity (U "Beta") l = true
    /\ tree_file (fst (@remove_entity_from_holy_tree basic_latin (U "Beta")
                         (U "preserve") (server_on sibling_tree ∅)))
       = Some (join [10] (pre ++ @kept_after basic_latin (l :: rest)))
    /\ (4 + Z.of_nat (length (@kept_after basic_latin (l :: rest))))%Z
       = Z.of_nat (length (l :: rest))
    /\ U "Beta" = U "Beta".
Proof.
  assert (Hres : snd (@remove_entity_from_holy_tree basic_latin (U "Beta")
                        (U "preserve") (server_on sibling_tree ∅))
                 = Removed (U "Beta") 4 Preserved)
    by (vm_compute; reflexivity).
  exact (@X15_remove_is_one_pass basic_latin (U "Beta") (U "preserve")
           (server_on sibling_tree ∅) (U "Beta") 4%Z Preserved Hres).
Defined.

(** X16: removal never takes anything from the disk and never
    refreshes the parser: in every cleanup mode, "delete" included, all
    nodes of the disk are still there and the parser is the one from
    before; outside "archive" mode the disk is unchanged, and a result
    that reports an archive path has that path as a directory. *)
Theorem X16_remove_leaves_disk_and_parser `{UD : UnicodeData}
        (entity_name cleanup_mode : pystr) (self : HolyTreeMCPServer) :
  let after := fst (remove_entity_from_holy_tree entity_name cleanup_mode self) in
  disk self ⊆ disk after
  /\ parser after = parser self
  /\ (cleanup_mode <> U "archive" -> disk after = disk self)
  /\ (forall removed n p,
        snd (remove_entity_from_holy_tree entity_name cleanup_mode self)
        = Removed removed n (Archived p) ->
        disk after !! p = Some Dir).
Proof.
  unfold remove_entity_from_holy_tree.
  destruct (tree_file self) as [content|];
    [|cbn [fst snd]; repeat split; auto; intros ? ? ? [=]].
  destruct (find_entity_lines entity_name (split 10 content) 0)
    as [[start rm]|];
    [|cbn [fst snd]; repeat split; auto; intros ? ? ? [=]].
  destruct (tree_writable self); cbn [negb];
    [|cbn [fst snd]; repeat split; auto; intros ? ? ? [=]].
  case_bool_decide as Harch.
  - destruct (existsb _ entity_name);
      [cbn [fst snd disk parser]; repeat split; auto; intros ? ? ? [=]|].
    destruct (mkdir_parents _ (disk self)) as [disk'|] eqn:Hm;
      cbn [fst snd disk parser].
    + repeat split; auto.
      * eapply mkdir_parents_subseteq, Hm.
      * intros Hne. contradiction.
      * intros removed n p [= _ _ <-].
        eapply mkdir_parents_is_dir; [exact Hm|].
        apply path_join_nonempty. discriminate.
    + repeat split; auto. intros ? ? ? [=].
  - repeat case_bool_decide; cbn [fst snd disk parser];
      repeat split; auto; intros ? ? ? [=].
Qed.

(** ** The integration framework *)

Lemma layer_paths_of_spec (g : graph) (lp : pystr) :
  In lp (layer_paths_of g) ->
  exists num e,
    In (num, e) g /\ type e = layer
    /\ (3 <= length (split 46 num))%nat
    /\ lp = join (U ".") (take 3 (split 46 num)).
Proof.
  unfold layer_paths_of. rewrite in_flat_map.
  intros ([num e] & Hin & Hlp). cbn [fst snd] in Hlp.
  destruct (type e) eqn:Ht; try (destruct Hlp; fail).
  destruct (split 46 num) as [|p0 [|p1 [|p2 rest]]] eqn:Hs;
    try (destruct Hlp; fail).
  destruct Hlp as [<-|[]]. exists num, e. rewrite Hs.
  repeat split; auto. simpl. lia.
Qed.

Lemma extract_shape (file_path lp : pystr) :
  _extract_layer_path_from_file file_path = Some lp ->
  exists d o l, lp = d ++ U "." ++ o ++ U "." ++ l /\ In l valid_layers.
Proof.
  unfold _extract_layer_path_from_file.
  destruct (index_of _ _) as [i|]; [|intros Hx; discriminate Hx].
  destruct (drop (S i) _) as [|d [|o [|l rest]]];
    try (intros Hx; discriminate Hx).
  destruct (existsb _ valid_layers) eqn:Hex; [|intros Hx; discriminate Hx].
  intros [= <-]. exists d, o, l. split; [reflexivity|].
  apply existsb_exists in Hex. destruct Hex as (v & Hv & Heq).
  apply bool_decide_eq_true_1 in Heq. subst. exact Hv.
Qed.

Lemma extract_nonempty (file_path lp : pystr) :
  _extract_layer_path_from_file file_path = Some lp -> is_empty lp = false.
Proof.
  intros H. destruct (extract_shape _ _ H) as (d & o & l & -> & _).
  destruct d; reflexivity.
Qed.

Section IntegrationFacts.
Context `{UD : UnicodeData}.

Lemma valid_layer_has_letter (l : pystr) :
  In l valid_layers -> exists c, In c l /\ ~ digit_or_dot c.
Proof.
  intros H.
  assert (Hc : exists c t, l = c :: t /\ (c = 67 \/ c = 84 \/ c = 65)).
  { cbv in H.
    destruct H as [<-|[<-|[<-|[<-|[<-|[]]]]]]; eexists _, _;
      (split; [reflexivity|]); auto. }
  destruct Hc as (c & t & -> & Hc). exists c. split; [now left|].
  unfold digit_or_dot.
  destruct Hc as [-> | [-> | ->]]; intros [Hd|Hd];
    solve [vm_compute in Hd; discriminate Hd | discriminate Hd].
Qed.

(** No path built from a file location is made of digits and dots. *)
Lemma extracted_not_numeric (file_path lp : pystr) :
  _extract_layer_path_from_file file_path = Some lp ->
  ~ Forall digit_or_dot lp.
Proof.
  intros H Hall. destruct (extract_shape _ _ H) as (d & o & l & -> & Hl).
  destruct (valid_layer_has_letter _ Hl) as (c & Hc & Hnot).
  apply Hnot. rewrite List.Forall_forall in Hall. apply Hall.
  apply in_or_app. right. apply in_or_app. right.
  apply in_or_app. right. apply in_or_app. right. exact Hc.
Qed.

Lemma parsed_keys_numeric content (self : HolyTreeParser) num e :
  In (num, e) (entities (fst (parse_holy_tree (Some content) self))) ->
  Forall digit_or_dot num /\ level e = Z.of_nat (length (split 46 num)).
Proof.
  cbn [parse_holy_tree fst entities]. revert num e.
  apply (parse_lines_invariant
           (fun num e =>
              Forall digit_or_dot num
              /\ level e = Z.of_nat (length (split 46 num)))).
  - intros line n cp e He.
    destruct (parse_line_fields _ _ _ _ He) as (_ & Hl & _).
    destruct (parse_line_origin _ _ _ _ He) as [_ Hn]. split; assumption.
  - intros ? ? [].
Qed.

Lemma layer_paths_numeric content (self : HolyTreeParser) lp :
  In lp (layer_paths_of
           (entities (fst (parse_holy_tree (Some content) self)))) ->
  Forall digit_or_dot lp.
Proof.
  intros Hin.
  destruct (layer_paths_of_spec _ _ Hin) as (num & e & He & _ & _ & ->).
  apply join_within.
  - assert (Hd : Forall digit_or_dot [46])
      by (constructor; [right; reflexivity|constructor]).
    exact Hd.
  - apply Forall_take, split_within.
    exact (proj1 (parsed_keys_numeric _ _ _ _ He)).
Qed.

Lemma get_layer_paths_readable self content :
  tree_file (holy_tree self) = Some content ->
  _get_holy_tree_layer_paths self
  = (with_holy_tree self (reparsed content (holy_tree self)),
     layer_paths_of
       (entities (fst (parse_holy_tree (Some content)
                                       (parser (holy_tree self)))))).
Proof.
  intros H. unfold _get_holy_tree_layer_paths, analyze_holy_tree.
  rewrite H. reflexivity.
Qed.

Lemma validate_extracted self mapping content file_path :
  tree_file (holy_tree self) = Some content ->
  _extract_layer_path_from_file file_path = Some (layer_path mapping) ->
  _validate_entity_mapping self mapping
  = (with_holy_tree self (reparsed content (holy_tree self)), false).
Proof.
  intros Hfile Hex. unfold _validate_entity_mapping.
  rewrite (get_layer_paths_readable _ _ Hfile). f_equal.
  destruct (existsb _ _) eqn:Hb; [|reflexivity]. exfalso.
  apply existsb_exists in Hb. destruct Hb as (lp & Hin & Heq).
  apply bool_decide_eq_true_1 in Heq. subst lp.
  exact (extracted_not_numeric _ _ Hex (layer_paths_numeric _ _ _ Hin)).
Qed.

Lemma group_by_layer_get (lp : pystr) (es : list CodeEntity) : forall acc,
  dict_get (group_by_layer es acc) lp
  = match dict_get acc lp,
          List.filter
            (fun e => bool_decide
                        (_extract_layer_path_from_file (ce_file_path e)
                         = Some lp)) es with
    | None, [] => None
    | None, g => Some g
    | Some g0, g => Some (g0 ++ g)
    end.
Proof.
  induction es as [|e rest IH]; intros acc; cbn [group_by_layer List.filter].
  - destruct (dict_get acc lp); [rewrite app_nil_r|]; reflexivity.
  - destruct (_extract_layer_path_from_file (ce_file_path e)) as [lp'|] eqn:Hex.
    + rewrite (extract_nonempty _ _ Hex), IH.
      case_bool_decide as Heq.
      * injection Heq as ->. rewrite dict_get_set_eq.
        destruct (dict_get acc lp) as [g0|]; cbn [default];
          [rewrite <- app_assoc|]; reflexivity.
      * rewrite dict_get_set_ne by congruence. reflexivity.
    + rewrite IH, bool_decide_eq_false_2 by discriminate. reflexivity.
Qed.

Lemma group_by_layer_NoDup (es : list CodeEntity) : forall acc,
  List.NoDup (map fst acc) -> List.NoDup (map fst (group_by_layer es acc)).
Proof.
  induction es as [|e rest IH]; intros acc Hnd; cbn [group_by_layer];
    [exact Hnd|].
  destruct (_extract_layer_path_from_file _) as [lp'|]; [|apply IH, Hnd].
  destruct (is_empty lp'); [apply IH, Hnd|].
  apply IH, dict_set_NoDup, Hnd.
Qed.

Lemma group_members (es : list CodeEntity) lp g e :
  In (lp, g) (group_by_layer es []) -> In e g ->
  In e es /\ _extract_layer_path_from_file (ce_file_path e) = Some lp.
Proof.
  intros Hg He.
  apply dict_In_get in Hg; [|apply group_by_layer_NoDup; constructor].
  rewrite group_by_layer_get in Hg. cbn [dict_get] in Hg.
  assert (Hf : In e (List.filter
                       (fun e => bool_decide
                                   (_extract_layer_path_from_file
                                      (ce_file_path e) = Some lp)) es)).
  { destruct (List.filter _ es); [discriminate Hg|].
    injection Hg as <-. exact He. }
  apply filter_In in Hf. destruct Hf as [Hin Hb].
  apply bool_decide_eq_true_1 in Hb. split; assumption.
Qed.

Lemma dict_set_middle {V} (a b : list (pystr * V)) k v v' :
  ~ In k (map fst a) ->
  dict_set (a ++ (k, v) :: b) k v' = a ++ (k, v') :: b.
Proof.
  induction a as [|[k0 v0] a IH]; simpl; intros Hnot.
  - rewrite bool_decide_eq_true_2 by reflexivity. reflexivity.
  - rewrite bool_decide_eq_false_2 by (intros ->; apply Hnot; now left).
    rewrite IH; [reflexivity|]. intros Hin. apply Hnot. now right.
Qed.

(** Setting every key of a dictionary, in its own order, to a function
    of its value keeps the order. *)
Lemma dict_set_each {V} (f : V -> V) (items : list (pystr * V)) :
  forall done,
    List.NoDup (map fst (done ++ items)) ->
    fold_left (fun c km => dict_set c (fst km) (f (snd km))) items
              (map (fun km => (fst km, f (snd km))) done ++ items)
    = map (fun km => (fst km, f (snd km))) (done ++ items).
Proof.
  induction items as [|[k m] rest IH]; intros done Hnd; cbn [fold_left].
  - rewrite !app_nil_r. reflexivity.
  - cbn [fst snd]. rewrite dict_set_middle.
    + assert (Hsplit : done ++ (k, m) :: rest = (done ++ [(k, m)]) ++ rest)
        by (rewrite <- app_assoc; reflexivity).
      rewrite Hsplit in Hnd |- *. rewrite <- (IH _ Hnd).
      rewrite map_app, <- app_assoc. reflexivity.
    + rewrite map_map. cbn [fst]. rewrite map_app in Hnd.
      apply List.NoDup_remove_2 in Hnd. intros Hin. apply Hnd.
      apply in_or_app. left. exact Hin.
Qed.

Lemma mark_orphaned_loop_all content items : forall self,
  tree_file (holy_tree self) = Some content ->
  (forall k m, In (k, m) items ->
     exists file_path,
       _extract_layer_path_from_file file_path = Some (layer_path m)) ->
  orphaned_entities (mark_orphaned_loop self items)
  = orphaned_entities self ++ map fst items
  /\ entity_mappings (mark_orphaned_loop self items)
     = fold_left (fun c km => dict_set c (fst km) (mark_orphaned (snd km)))
                 items (entity_mappings self).
Proof.
  induction items as [|[k m] rest IH]; intros self Hfile Hall;
    cbn [mark_orphaned_loop fold_left map].
  - rewrite app_nil_r. split; reflexivity.
  - destruct (Hall k m (or_introl eq_refl)) as [fp Hfp].
    rewrite (validate_extracted _ _ _ _ Hfile Hfp). cbn [negb].
    match goal with
    | |- context [mark_orphaned_loop ?s rest] =>
      destruct (IH s) as [Ho Hm];
        [reflexivity|intros k' m' Hin; apply (Hall k' m'); now right|]
    end.
    rewrite Ho, Hm. cbn [orphaned_entities entity_mappings with_holy_tree fst snd].
    rewrite <- app_assoc. split; reflexivity.
Qed.

Lemma update_cache_In self (mapped : list (pystr * list CodeEntity)) k m :
  In (k, m) (entity_mappings (_update_entity_mappings_cache self mapped)) ->
  In (k, m) (entity_mappings self)
  \/ exists lp g e,
       In (lp, g) mapped /\ In e g
       /\ m = mapping_of lp e /\ k = code_entity_id m.
Proof.
  unfold _update_entity_mappings_cache. cbn [entity_mappings].
  generalize (entity_mappings self) as cache.
  induction mapped as [|[lp g] rest IH]; intros cache; cbn [fold_left];
    [auto|].
  intros Hin. apply IH in Hin. destruct Hin as [Hin|Hin].
  - cbn [fst snd] in Hin.
    assert (Hinner : forall es cache0,
               In (k, m)
                  (fold_left
                     (fun cache1 entity =>
                        dict_set cache1
                                 (code_entity_id (mapping_of lp entity))
                                 (mapping_of lp entity)) es cache0) ->
               In (k, m) cache0
               \/ exists e, In e es /\ m = mapping_of lp e
                            /\ k = code_entity_id m).
    { induction es as [|e es IHes]; intros cache0; cbn [fold_left]; [auto|].
      intros H0. apply IHes in H0. destruct H0 as [H0|(e' & He' & Hm & Hk)].
      - apply dict_set_In in H0. destruct H0 as [H0|H0]; [now left|].
        injection H0 as -> ->. right. exists e.
        split; [now left|split; reflexivity].
      - right. exists e'. split; [now right|split; assumption]. }
    apply Hinner in Hin. destruct Hin as [Hin|(e & He & Hm & Hk)]; [now left|].
    right. exists lp, g, e. split; [now left|]. repeat split; assumption.
  - destruct Hin as (lp' & g' & e & Hg & He & Hm & Hk).
    right. exists lp', g', e. split; [now right|]. repeat split; assumption.
Qed.
End IntegrationFacts.

(** X17: on a readable text, every layer path that
    [_get_holy_tree_layer_paths] returns is the first three components
    of the number of a Layer entity with at least three components,
    joined by dots; so it is made of decimal digits and dots only. *)
Theorem X17_holy_tree_layer_paths_are_numeric `{UD : UnicodeData}
        (self : CodeAnalysisHolyTreeIntegration) (content lp : pystr) :
  tree_file (holy_tree self) = Some content ->
  In lp (snd (_get_holy_tree_layer_paths self)) ->
  Forall digit_or_dot lp
  /\ exists num e,
       In (num, e)
          (entities (parser (holy_tree (fst (_get_holy_tree_layer_paths self)))))
       /\ type e = layer /\ (3 <= level e)%Z
       /\ lp = join (U ".") (take 3 (split 46 num)).
Proof.
  intros Hfile. rewrite (get_layer_paths_readable _ _ Hfile).
  cbn [fst snd with_holy_tree holy_tree reparsed parser]. intros Hin.
  split; [exact (layer_paths_numeric _ _ _ Hin)|].
  destruct (layer_paths_of_spec _ _ Hin) as (num & e & He & Ht & Hlen & ->).
  exists num, e. repeat split; auto.
  rewrite (proj2 (parsed_keys_numeric _ _ _ _ He)). lia.
Qed.

Lemma X17_holy_tree_layer_paths_are_numeric_witness :
  Forall (@digit_or_dot basic_latin) (U "4.2.1")
  /\ exists num e,
       In (num, e)
          (entities (parser (holy_tree (fst (@_get_holy_tree_layer_paths
                                               basic_latin
                                               settings_integration)))))
       /\ type e = layer /\ (3 <= level e)%Z
       /\ U "4.2.1" = join (U ".") (take 3 (split 46 num)).
Proof.
  assert (Hin : In (U "4.2.1")
                   (snd (@_get_holy_tree_layer_paths basic_latin
                           settings_integration)))
    by (vm_compute; left; reflexivity).
  exact (@X17_holy_tree_layer_paths_are_numeric basic_latin
           settings_integration small_tree (U "4.2.1") eq_refl Hin).
Defined.

(** X18: a mapping whose layer path was built from a file location by
    [_extract_layer_path_from_file] is never found valid on a readable
    text: the paths it is compared with are numbers (X17), the path
    itself ends in a layer name. *)
Theorem X18_extracted_path_never_validates `{UD : UnicodeData}
        (self : CodeAnalysisHolyTreeIntegration)
        (mapping : HolyTreeCodeEntityMapping) (content file_path : pystr) :
  tree_file (holy_tree self) = Some content ->
  _extract_layer_path_from_file file_path = Some (layer_path mapping) ->
  snd (_validate_entity_mapping self mapping) = false.
Proof.
  intros Hfile Hex. rewrite (validate_extracted _ _ _ _ Hfile Hex).
  reflexivity.
Qed.

Lemma X18_extracted_path_never_validates_witness :
  snd (@_validate_entity_mapping basic_latin settings_integration
         settings_mapping) = false.
Proof.
  assert (Hex : _extract_layer_path_from_file (ce_file_path settings_entity)
                = Some (layer_path settings_mapping))
    by (vm_compute; reflexivity).
  exact (@X18_extracted_path_never_validates basic_latin settings_integration
           settings_mapping small_tree (ce_file_path settings_entity)
           eq_refl Hex).
Defined.

(** X19: the groups that [_map_entities_to_holy_tree] returns: under a
    layer path stands the list of the entities whose file location gives
    that path, in the order of the input, and no key when there is none;
    every key occurs once. *)
Theorem X19_groups_are_filters `{UD : UnicodeData}
        (self : CodeAnalysisHolyTreeIntegration)
        (code_entities : list CodeEntity) (lp : pystr) :
  dict_get (snd (_map_entities_to_holy_tree self code_entities)) lp
  = match List.filter
            (fun e => bool_decide
                        (_extract_layer_path_from_file (ce_file_path e)
                         = Some lp)) code_entities with
    | [] => None
    | g => Some g
    end
  /\ List.NoDup (map fst (snd (_map_entities_to_holy_tree self code_entities))).
Proof.
  unfold _map_entities_to_holy_tree.
  destruct (analyze_holy_tree (holy_tree self)) as [ht r]. cbn [snd].
  split; [|apply group_by_layer_NoDup; constructor].
  rewrite group_by_layer_get. reflexivity.
Qed.

(** X20: every entry that [_update_entity_mappings_cache] adds for the
    groups of [_map_entities_to_holy_tree] belongs to one of the given
    entities, is keyed by "file_path:name", is active and carries the
    layer path of that entity's file. *)
Theorem X20_cache_entries_come_from_files `{UD : UnicodeData}
        (self self' : CodeAnalysisHolyTreeIntegration)
        (code_entities : list CodeEntity) (k : pystr)
        (m : HolyTreeCodeEntityMapping) :
  In (k, m)
     (entity_mappings
        (_update_entity_mappings_cache self'
           (snd (_map_entities_to_holy_tree self code_entities)))) ->
  In (k, m) (entity_mappings self')
  \/ exists e,
       In e code_entities
       /\ _extract_layer_path_from_file (ce_file_path e) = Some (layer_path m)
       /\ k = ce_file_path e ++ U ":" ++ ce_name e
       /\ code_entity_id m = k
       /\ status m = U "active"
       /\ entity_data m = e.
Proof.
  unfold _map_entities_to_holy_tree.
  destruct (analyze_holy_tree (holy_tree self)) as [ht r]. cbn [snd].
  intros Hin. apply update_cache_In in Hin.
  destruct Hin as [Hin|(lp & g & e & Hg & He & -> & ->)]; [now left|].
  destruct (group_members _ _ _ _ Hg He) as [Hes Hex].
  right. exists e. repeat split; assumption.
Qed.

Lemma X20_cache_entries_come_from_files_witness :
  In (code_entity_id settings_mapping, settings_mapping)
     (entity_mappings settings_integration)
  \/ exists e,
       In e [settings_entity]
       /\ _extract_layer_path_from_file (ce_file_path e)
          = Some (layer_path settings_mapping)
       /\ code_entity_id settings_mapping = ce_file_path e ++ U ":" ++ ce_name e
       /\ code_entity_id settings_mapping = code_entity_id settings_mapping
       /\ status settings_mapping = U "active"
       /\ entity_data settings_mapping = e.
Proof.
  assert (Hin : In (code_entity_id settings_mapping, settings_mapping)
                   (entity_mappings
                      (_update_entity_mappings_cache settings_integration
                         (snd (@_map_entities_to_holy_tree basic_latin
                                 settings_integration [settings_entity])))))
    by (vm_compute; left; reflexivity).
  exact (@X20_cache_entries_come_from_files basic_latin settings_integration
           settings_integration [settings_entity]
           (code_entity_id settings_mapping) settings_mapping Hin).
Defined.

(** X21: on a readable text, when every cached mapping has a layer path
    built from a file location (as the entries of X20 have),
    [_mark_orphaned_entities] lists every key of the cache as orphaned,
    in the order of the cache, and sets every mapping to "orphaned",
    changing nothing else in it. *)
Theorem X21_mark_orphaned_marks_every_mapping `{UD : UnicodeData}
        (self : CodeAnalysisHolyTreeIntegration) (content : pystr) :
  tree_file (holy_tree self) = Some content ->
  List.NoDup (map fst (entity_mappings self)) ->
  (forall k m, In (k, m) (entity_mappings self) ->
     exists file_path,
       _extract_layer_path_from_file file_path = Some (layer_path m)) ->
  orphaned_entities (_mark_orphaned_entities self)
  = map fst (entity_mappings self)
  /\ entity_mappings (_mark_orphaned_entities self)
     = map (fun km => (fst km, mark_orphaned (snd km))) (entity_mappings self).
Proof.
  intros Hfile Hnd Hall. unfold _mark_orphaned_entities.
  match goal with
  | |- context [mark_orphaned_loop ?s ?items] =>
    destruct (mark_orphaned_loop_all content items s Hfile Hall) as [Ho Hm]
  end.
  rewrite Ho, Hm. cbn [orphaned_entities entity_mappings app].
  split; [reflexivity|].
  exact (dict_set_each mark_orphaned (entity_mappings self) [] Hnd).
Qed.

Lemma X21_mark_orphaned_marks_every_mapping_witness :
  orphaned_entities (@_mark_orphaned_entities basic_latin settings_integration)
  = map fst (entity_mappings settings_integration)
  /\ entity_mappings (@_mark_orphaned_entities basic_latin settings_integration)
     = map (fun km => (fst km, mark_orphaned (snd km)))
           (entity_mappings settings_integration).
Proof.
  assert (Hnd : List.NoDup (map fst (entity_mappings settings_integration)))
    by (repeat constructor; intros []).
  assert (Hall : forall k m, In (k, m) (entity_mappings settings_integration) ->
            exists file_path,
              _extract_layer_path_from_file file_path = Some (layer_path m)).
  { intros k m [[= <- <-]|[]]. exists (ce_file_path settings_entity).
    vm_compute. reflexivity. }
  exact (@X21_mark_orphaned_marks_every_mapping basic_latin
           settings_integration small_tree eq_refl Hnd Hall).
Defined.

(** ** Paths *)

Lemma split_length_pos (sep : N) (s : pystr) :
  (1 <= length (split sep s))%nat.
Proof.
  destruct s as [|c t]; simpl; [lia|].
  destruct (c =? sep); [simpl; lia|].
  destruct (split sep t); simpl; lia.
Qed.

Lemma index_of_spec (x : pystr) (parts : list pystr) : forall i,
  index_of x parts = Some i
  <-> exists pre post,
        parts = pre ++ x :: post /\ ~ In x pre /\ i = length pre.
Proof.
  induction parts as [|p rest IH]; intros i; cbn [index_of].
  - split; [intros Hx; discriminate Hx|].
    intros (pre & post & Hp & _). destruct pre; discriminate Hp.
  - case_bool_decide as Hp.
    + subst p. split.
      * intros [= <-]. exists [], rest. repeat split; auto.
      * intros (pre & post & Hparts & Hnot & ->).
        destruct pre as [|q pre]; [reflexivity|].
        injection Hparts as <- _. exfalso. apply Hnot. now left.
    + split.
      * destruct (index_of x rest) as [j|] eqn:Hj;
          [|intros Hx; discriminate Hx].
        intros [= <-]. destruct (proj1 (IH j) eq_refl)
          as (pre & post & -> & Hnot & ->).
        exists (p :: pre), post. repeat split; auto.
        intros [E|Hin]; [congruence|exact (Hnot Hin)].
      * intros (pre & post & Hparts & Hnot & ->).
        destruct pre as [|q pre]; injection Hparts as <- Hrest;
          [congruence|].
        rewrite (proj2 (IH (length pre))); [reflexivity|].
        exists pre, post. repeat split; auto.
        intros Hin. apply Hnot. now right.
Qed.

(** X22: in the graph read from any text, the directory of every entity
    is the project root followed by at most three segments, and every
    segment is a non-empty name without slash and without dot: no
    directory lies outside the project root. *)
Theorem X22_paths_stay_below_project_root `{UD : UnicodeData}
        (content : pystr) (self : HolyTreeParser) (num : pystr)
        (e : HolyTreeEntity) :
  In (num, e) (entities (fst (parse_holy_tree (Some content) self))) ->
  exists segs,
    _construct_directory_path (fst (parse_holy_tree (Some content) self)) e
    = project_root ++ segs
    /\ (length segs <= 3)%nat
    /\ Forall (fun s => s <> [] /\ ~ In 47 s /\ ~ In 46 s) segs.
Proof.
  intros Hin. eexists. split; [reflexivity|].
  pose proof (parsed_names_clean _ _ _ _ Hin) as Hself.
  unfold path_parts, get_entity_by_number.
  destruct (type e).
  - split; [simpl; lia|]. repeat (constructor; [assumption|]). constructor.
  - destruct (dict_get _ _) as [d|] eqn:Hd.
    + apply dict_get_In, parsed_names_clean in Hd.
      split; [simpl; lia|]. repeat (constructor; [assumption|]). constructor.
    + split; [simpl; lia|constructor].
  - destruct (2 <=? _)%nat; [|split; [simpl; lia|constructor]].
    match goal with
    | |- context [dict_get ?g (hd ?a ?b)] =>
      destruct (dict_get g (hd a b)) as [d|] eqn:Hd;
        [|split; [simpl; lia|constructor]]
    end.
    match goal with
    | |- context [dict_get ?g (join ?a ?b)] =>
      destruct (dict_get g (join a b)) as [o|] eqn:Ho;
        [|split; [simpl; lia|constructor]]
    end.
    apply dict_get_In, parsed_names_clean in Hd.
    apply dict_get_In, parsed_names_clean in Ho.
    split; [simpl; lia|]. repeat (constructor; [assumption|]). constructor.
Qed.

Lemma X22_paths_stay_below_project_root_witness :
  exists segs,
    @_construct_directory_path
      (fst (@parse_holy_tree basic_latin (Some small_tree) new_parser))
      {| name := U "Config"; type := layer; number := U "4.2.1"; level := 3;
         parent_path := U "4/4.2"; classification := [];
         ascii_line := U "│   │   ├── 4.2.1 Config/" |}
    = project_root ++ segs
    /\ (length segs <= 3)%nat
    /\ Forall (fun s => s <> [] /\ ~ In 47 s /\ ~ In 46 s) segs.
Proof.
  assert (Hin : In (U "4.2.1",
                    {| name := U "Config"; type := layer; number := U "4.2.1";
                       level := 3; parent_path := U "4/4.2";
                       classification := [];
                       ascii_line := U "│   │   ├── 4.2.1 Config/" |})
                   (entities (fst (@parse_holy_tree basic_latin
                                     (Some small_tree) new_parser))))
    by (vm_compute; right; right; left; reflexivity).
  exact (@X22_paths_stay_below_project_root basic_latin small_tree new_parser
           _ _ Hin).
Defined.

(** X23: [_extract_layer_path_from_file] returns a path exactly when
    the first component named ROMILLM_Project is followed by at least
    three components, the third of which is one of Config, Toolbox,
    Core, Api and Tests; the path is these three joined by dots. *)
Theorem X23_extract_layer_path_shape (file_path lp : pystr) :
  _extract_layer_path_from_file file_path = Some lp
  <-> exists pre d o l rest,
        posix_parts file_path
        = pre ++ U "ROMILLM_Project" :: d :: o :: l :: rest
        /\ ~ In (U "ROMILLM_Project") pre
        /\ In l valid_layers
        /\ lp = d ++ U "." ++ o ++ U "." ++ l.
Proof.
  unfold _extract_layer_path_from_file. split.
  - destruct (index_of _ _) as [i|] eqn:Hi; [|intros Hx; discriminate Hx].
    apply index_of_spec in Hi. destruct Hi as (pre & post & Hparts & Hnot & ->).
    rewrite Hparts.
    replace (drop (S (length pre)) (pre ++ U "ROMILLM_Project" :: post))
      with post.
    2:{ change (pre ++ U "ROMILLM_Project" :: post)
          with (pre ++ [U "ROMILLM_Project"] ++ post).
        rewrite app_assoc.
        replace (S (length pre)) with (length (pre ++ [U "ROMILLM_Project"]))
          by (rewrite length_app; simpl; lia).
        rewrite drop_app_length. reflexivity. }
    destruct post as [|d [|o [|l rest]]]; try (intros Hx; discriminate Hx).
    destruct (existsb _ valid_layers) eqn:Hex; [|intros Hx; discriminate Hx].
    intros [= <-]. exists pre, d, o, l, rest. repeat split; auto.
    apply existsb_exists in Hex. destruct Hex as (v & Hv & Heq).
    apply bool_decide_eq_true_1 in Heq. subst. exact Hv.
  - intros (pre & d & o & l & rest & Hparts & Hnot & Hl & ->).
    rewrite Hparts.
    rewrite (proj2 (index_of_spec _ _ (length pre)))
      by (exists pre, (d :: o :: l :: rest); auto).
    replace (drop (S (length pre))
                  (pre ++ U "ROMILLM_Project" :: d :: o :: l :: rest))
      with (d :: o :: l :: rest).
    2:{ change (pre ++ U "ROMILLM_Project" :: d :: o :: l :: rest)
          with (pre ++ [U "ROMILLM_Project"] ++ d :: o :: l :: rest).
        rewrite app_assoc.
        replace (S (length pre)) with (length (pre ++ [U "ROMILLM_Project"]))
          by (rewrite length_app; simpl; lia).
        rewrite drop_app_length. reflexivity. }
    replace (existsb (fun v => bool_decide (l = v)) valid_layers) with true;
      [reflexivity|].
    symmetry. apply existsb_exists. exists l. split; [exact Hl|].
    apply bool_decide_eq_true_2. reflexivity.
Qed.

(** X24: after reading any text, [get_entities_by_level] returns the
    entities whose number has that many components; it returns nothing
    below level 1 and nothing above the recorded depth, and every
    Domain is among the entities of level 1. *)
Theorem X24_entities_by_level `{UD : UnicodeData}
        (content : pystr) (self : HolyTreeParser) (lvl : Z)
        (e : HolyTreeEntity) :
  (In e (get_entities_by_level (fst (parse_holy_tree (Some content) self)) lvl)
   <-> exists num,
         In (num, e) (entities (fst (parse_holy_tree (Some content) self)))
         /\ Z.of_nat (length (split 46 num)) = lvl)
  /\ ((lvl < 1
       \/ tree_depth (stats (fst (parse_holy_tree (Some content) self))) < lvl)%Z
      -> get_entities_by_level (fst (parse_holy_tree (Some content) self)) lvl
         = [])
  /\ (type e = domain ->
      (exists num,
         In (num, e) (entities (fst (parse_holy_tree (Some content) self)))) ->
      In e (get_entities_by_level (fst (parse_holy_tree (Some content) self)) 1)).
Proof.
  unfold get_entities_by_level.
  assert (Hmem : forall l x,
             In x (List.filter (fun e => (level e =? l)%Z)
                     (map snd (entities (fst (parse_holy_tree (Some content)
                                                               self)))))
             <-> exists num,
                   In (num, x) (entities (fst (parse_holy_tree (Some content)
                                                                self)))
                   /\ Z.of_nat (length (split 46 num)) = l).
  { intros l x. rewrite filter_In, in_map_iff. split.
    - intros [([num x'] & Hx & Hin) Hl]. cbn [snd] in Hx. subst x'.
      exists num. split; [exact Hin|].
      rewrite <- (proj2 (parsed_keys_numeric _ _ _ _ Hin)). lia.
    - intros (num & Hin & Hl). split; [exists (num, x); auto|].
      rewrite (proj2 (parsed_keys_numeric _ _ _ _ Hin)). lia. }
  split; [apply Hmem|]. split.
  - intros Hout.
    destruct (List.filter _ _) as [|x xs] eqn:Hf; [reflexivity|exfalso].
    assert (Hx : In x (x :: xs)) by now left.
    rewrite <- Hf in Hx. apply Hmem in Hx. destruct Hx as (num & Hin & Hl).
    pose proof (split_length_pos 46 num) as Hpos.
    pose proof (level_le_depth _ _ _ Hin) as Hdepth.
    rewrite (proj2 (parsed_keys_numeric _ _ _ _ Hin)) in Hdepth.
    cbn [parse_holy_tree fst stats _update_statistics tree_depth] in Hout.
    cbn [parse_holy_tree fst entities] in Hdepth. lia.
  - intros Hd [num Hin]. apply Hmem. exists num. split; [exact Hin|].
    rewrite <- (proj2 (parsed_keys_numeric _ _ _ _ Hin)).
    cbn [parse_holy_tree fst entities] in Hin.
    revert Hd. revert num e Hin.
    apply (parse_lines_invariant
             (fun _ e => type e = domain -> level e = 1%Z)).
    + intros line n cp e He.
      destruct (parse_line_fields _ _ _ _ He) as (_ & _ & _ & _ & Hdom & _).
      exact Hdom.
    + intros ? ? [].
Qed.
